(** * Personal wallet ledger and task panel: a shallow embedding

    This development embeds the core logic of three desktop programs,
    [Wallet/wallet-2.py] (class [PersonalWallet], and the search of
    [WalletGUI]), [panel2.py] and [panel1.py] (class [TaskPanel]), and
    states the properties of their record store, projections and
    persistence.

    Layout: Python helper functions on strings ([PyStr]), the part of
    Python's [decimal] module the wallet uses ([Dec]), JSON values and
    timestamps, the wallet ([Wallet], [Listing]), the task panels
    ([Panel], [Panel1]), the notions the properties are stated with, and
    then the lemmas. *)

From Stdlib Require Import ZArith NArith List String Ascii Bool Lia Floats.
From stdpp Require Import base list gmap strings sorting.

(* ------------------------------------------------------------------ *)
(** ** Python string helpers *)

Module PyStr.

Definition chars (s : string) : list ascii := list_ascii_of_string s.
Definition of_chars (l : list ascii) : string := string_of_list_ascii l.

(** [s.replace(c, '')] for a one-character pattern [c]: every occurrence
    of [c] is dropped. *)
Definition remove_char (c : ascii) (s : string) : string :=
  of_chars (List.filter (fun x => negb (Ascii.eqb x c)) (chars s)).

(** [s.startswith(p)] *)
Definition startswith (s p : string) : bool := String.prefix p s.

(** [s.lower()], on the ASCII letters. *)
Definition lower_char (c : ascii) : ascii :=
  let n := N_of_ascii c in
  if ((65 <=? n) && (n <=? 90))%N then ascii_of_N (n + 32) else c.
Definition lower (s : string) : string := of_chars (List.map lower_char (chars s)).

(** [q in hay] *)
Fixpoint contains (q hay : string) : bool :=
  String.prefix q hay ||
  match hay with
  | EmptyString => false
  | String _ rest => contains q rest
  end.

(** [s.strip()], on the ASCII white space characters. *)
Definition is_space (c : ascii) : bool :=
  let n := N_of_ascii c in
  ((n =? 32) || ((9 <=? n) && (n <=? 13)) || ((28 <=? n) && (n <=? 31)))%N.
Fixpoint lstrip (l : list ascii) : list ascii :=
  match l with
  | c :: rest => if is_space c then lstrip rest else l
  | [] => []
  end.
Definition strip (s : string) : string :=
  of_chars (List.rev (lstrip (List.rev (lstrip (chars s))))).

(** Decimal digits. *)
Definition digit_char (d : N) : ascii := ascii_of_N (48 + d).
Definition is_digit (c : ascii) : bool :=
  let n := N_of_ascii c in ((48 <=? n) && (n <=? 57))%N.
Definition digit_val (c : ascii) : N := (N_of_ascii c - 48)%N.

(** [int(ds)] for a string of digits. *)
Definition int_of_digits (ds : list ascii) : N :=
  fold_left (fun acc c => (10 * acc + digit_val c)%N) ds 0%N.

(** [str(n)] for a natural number: its digits, most significant first.
    The fuel is the binary logarithm of [n], which bounds the number of
    divisions by ten. *)
Fixpoint digits_fuel (fuel : nat) (n : N) : list ascii :=
  match fuel with
  | O => [digit_char (n mod 10)]
  | S f =>
      if (n <? 10)%N then [digit_char n]
      else digits_fuel f (n / 10) ++ [digit_char (n mod 10)]
  end.
Definition digits (n : N) : list ascii := digits_fuel (N.to_nat (N.log2 n)) n.

(** [str(z)] for an integer, and [int(s)] on what [str] writes. *)
Definition str_of_int (z : Z) : string :=
  of_chars ((if (z <? 0)%Z then ["-"%char] else []) ++ digits (Z.to_N (Z.abs z))).
Definition int_of_str (s : string) : option Z :=
  match chars s with
  | c :: rest =>
      if Ascii.eqb c "-"
      then (if forallb is_digit rest && negb (Nat.eqb (List.length rest) 0)
            then Some (- Z.of_N (int_of_digits rest))%Z else None)
      else (if forallb is_digit (c :: rest)
            then Some (Z.of_N (int_of_digits (c :: rest))) else None)
  | [] => None
  end.

(** [span p l]: the longest prefix of [l] whose characters satisfy [p],
    and the rest. *)
Fixpoint span (p : ascii -> bool) (l : list ascii) : list ascii * list ascii :=
  match l with
  | c :: rest =>
      if p c then let '(a, b) := span p rest in (c :: a, b) else ([], l)
  | [] => ([], [])
  end.

(** [str(n).zfill(w)]: zero padding on the left up to width [w]. *)
Definition zfill (w : nat) (n : N) : list ascii :=
  let ds := digits n in
  List.repeat "0"%char (w - List.length ds) ++ ds.

End PyStr.

(* ------------------------------------------------------------------ *)
(** ** Python's [decimal.Decimal], finite values

    A finite [Decimal] is a sign, a coefficient and an exponent, as in
    [Decimal._sign], [_int] and [_exp]: its value is
    [(-1)^sign * coefficient * 10^exponent]. Arithmetic follows the default
    context: precision 28, rounding [ROUND_HALF_EVEN]. The special values
    (NaN, Infinity) and the exponent limits [Emax], [Emin] of the context
    are outside the model. *)

Module Dec.
Import PyStr.

Record Decimal := mk { d_sign : bool; d_int : N; d_exp : Z }.

Definition prec : Z := 28.

Definition ndigits (n : N) : Z := Z.of_nat (List.length (digits n)).

(** [c / 10^k] rounded to the nearest integer, ties to even ([k > 0]). *)
Definition round_half_even (c k : Z) : Z :=
  let q := (c / 10 ^ k)%Z in
  let r := (c mod 10 ^ k)%Z in
  let half := (5 * 10 ^ (k - 1))%Z in
  if ((half <? r) || ((r =? half) && Z.odd q))%Z then (q + 1)%Z else q.

(** [Decimal._fix]: round the coefficient to the context precision. *)
Definition fix_ (d : Decimal) : Decimal :=
  let n := ndigits (d_int d) in
  if (n <=? prec)%Z then d
  else
    let k := (n - prec)%Z in
    let q := round_half_even (Z.of_N (d_int d)) k in
    if (q =? 10 ^ prec)%Z
    then mk (d_sign d) (Z.to_N (10 ^ (prec - 1))) (d_exp d + k + 1)
    else mk (d_sign d) (Z.to_N q) (d_exp d + k).

(** The signed coefficient of [d] at exponent [e], for [e <= d_exp d]. *)
Definition scaled (e : Z) (d : Decimal) : Z :=
  let c := (Z.of_N (d_int d) * 10 ^ (d_exp d - e))%Z in
  if d_sign d then (- c)%Z else c.

Definition is_zero (d : Decimal) : bool := (d_int d =? 0)%N.

(** [Decimal.__neg__] without the context ([copy_negate]), as used by
    [__sub__]. *)
Definition copy_negate (d : Decimal) : Decimal :=
  mk (negb (d_sign d)) (d_int d) (d_exp d).

(** [Decimal.__add__]: the exact sum at the smaller exponent, rounded to
    the precision. A zero sum is negative only when both operands are
    negative zeros. *)
Definition add (a b : Decimal) : Decimal :=
  let e := Z.min (d_exp a) (d_exp b) in
  let s := (scaled e a + scaled e b)%Z in
  let sg :=
    if (s =? 0)%Z
    then (if is_zero a && is_zero b then d_sign a && d_sign b else false)
    else (s <? 0)%Z in
  fix_ (mk sg (Z.to_N (Z.abs s)) e).

(** [Decimal.__sub__] *)
Definition sub (a b : Decimal) : Decimal := add a (copy_negate b).

(** [Decimal.__mul__] *)
Definition mul (a b : Decimal) : Decimal :=
  fix_ (mk (xorb (d_sign a) (d_sign b)) (d_int a * d_int b) (d_exp a + d_exp b)).

(** The loop of [__truediv__] that strips trailing zeros of an exact
    quotient while the exponent is below the ideal one. *)
Fixpoint strip_zeros (fuel : nat) (coeff e ideal : Z) : Z * Z :=
  match fuel with
  | O => (coeff, e)
  | S f =>
      if ((e <? ideal) && (coeff mod 10 =? 0))%Z
      then strip_zeros f (coeff / 10)%Z (e + 1)%Z ideal
      else (coeff, e)
  end.

(** [Decimal.__truediv__] for a non-zero divisor. *)
Definition div (a b : Decimal) : Decimal :=
  let sg := xorb (d_sign a) (d_sign b) in
  if is_zero a then fix_ (mk sg 0 (d_exp a - d_exp b))
  else
    let shift := (ndigits (d_int b) - ndigits (d_int a) + prec + 1)%Z in
    let e := (d_exp a - d_exp b - shift)%Z in
    let num := if (0 <=? shift)%Z then (Z.of_N (d_int a) * 10 ^ shift)%Z
               else Z.of_N (d_int a) in
    let den := if (0 <=? shift)%Z then Z.of_N (d_int b)
               else (Z.of_N (d_int b) * 10 ^ (- shift))%Z in
    let coeff := (num / den)%Z in
    let remainder := (num mod den)%Z in
    let '(coeff', e') :=
      if negb (remainder =? 0)%Z
      then ((if (coeff mod 5 =? 0)%Z then coeff + 1 else coeff)%Z, e)
      else strip_zeros (Z.to_nat (ndigits (Z.to_N coeff))) coeff e
                       (d_exp a - d_exp b) in
    fix_ (mk sg (Z.to_N coeff') e').

(** Numeric comparison ([Decimal._cmp]). *)
Definition compare (a b : Decimal) : comparison :=
  let e := Z.min (d_exp a) (d_exp b) in
  (scaled e a ?= scaled e b)%Z.

Definition ltb (a b : Decimal) : bool :=
  match compare a b with Lt => true | _ => false end.
Definition leb (a b : Decimal) : bool :=
  match compare a b with Gt => false | _ => true end.
Definition eqb (a b : Decimal) : bool :=
  match compare a b with Eq => true | _ => false end.

(** [Decimal(0)], also what the [int] 0 becomes when it meets a Decimal. *)
Definition zero : Decimal := mk false 0 0.
(** [Decimal("0.00")] *)
Definition zero_00 : Decimal := mk false 0 (-2).
(** [Decimal(n)] for a non-negative [int]. *)
Definition of_int (n : N) : Decimal := mk false n 0.

(** [sum(ds)]: Python starts from the [int] 0. *)
Definition sum (ds : list Decimal) : Decimal := fold_left add ds zero.

(** [Decimal._rescale(e, ROUND_HALF_EVEN)]: the same value at exponent
    [e], rounding when digits are lost. *)
Definition rescale (e : Z) (d : Decimal) : Decimal :=
  if is_zero d then mk (d_sign d) 0 e
  else if (e <=? d_exp d)%Z
       then mk (d_sign d) (d_int d * Z.to_N (10 ^ (d_exp d - e))) e
       else mk (d_sign d)
               (Z.to_N (round_half_even (Z.of_N (d_int d)) (e - d_exp d))) e.

(** [format(d, ".2f")]: [d] rescaled to two places, written as sign,
    integer part, dot and two fraction digits. *)
Definition format_2f (d : Decimal) : string :=
  let r := rescale (-2) d in
  of_chars ((if d_sign r then ["-"%char] else []) ++
            digits (d_int r / 100) ++ ["."%char] ++ zfill 2 (d_int r mod 100)).

(** [str(d)] ([Decimal.__str__]): plain notation when the exponent is at
    most 0 and more than six digits do not have to be padded, scientific
    notation otherwise. *)
Definition signed_int_str (z : Z) : list ascii :=
  (if (z <? 0)%Z then "-"%char else "+"%char) :: digits (Z.to_N (Z.abs z)).

Definition str (d : Decimal) : string :=
  let ds := digits (d_int d) in
  let len := Z.of_nat (List.length ds) in
  let leftdigits := (d_exp d + len)%Z in
  let dotplace :=
    if ((d_exp d <=? 0) && (-6 <? leftdigits))%Z then leftdigits else 1%Z in
  let body :=
    if (dotplace <=? 0)%Z
    then "0"%char :: "."%char :: List.repeat "0"%char (Z.to_nat (- dotplace)) ++ ds
    else if (len <=? dotplace)%Z
         then ds ++ List.repeat "0"%char (Z.to_nat (dotplace - len))
         else firstn (Z.to_nat dotplace) ds ++ "."%char :: skipn (Z.to_nat dotplace) ds in
  let e :=
    if (leftdigits =? dotplace)%Z then []
    else "E"%char :: signed_int_str (leftdigits - dotplace) in
  of_chars ((if d_sign d then ["-"%char] else []) ++ body ++ e).

(** [Decimal(s)] for a numeric string: an optional sign, digits with an
    optional fraction (at least one digit in all), an optional exponent.
    [None] stands for the [InvalidOperation] that Python raises. White
    space, underscores and the spellings of the special values are not
    accepted here. *)
Definition parse_sign (l : list ascii) : bool * list ascii :=
  match l with
  | c :: rest =>
      if Ascii.eqb c "-" then (true, rest)
      else if Ascii.eqb c "+" then (false, rest)
      else (false, l)
  | [] => (false, [])
  end.

Definition parse_exp (l : list ascii) : option Z :=
  match l with
  | [] => Some 0%Z
  | c :: rest =>
      if Ascii.eqb c "E" || Ascii.eqb c "e" then
        let '(neg, rest') := parse_sign rest in
        let '(ds, tl) := span is_digit rest' in
        match ds, tl with
        | _ :: _, [] =>
            let n := Z.of_N (int_of_digits ds) in
            Some (if neg then (- n)%Z else n)
        | _, _ => None
        end
      else None
  end.

Definition parse (s : string) : option Decimal :=
  let '(neg, l) := parse_sign (chars s) in
  let '(intpart, l1) := span is_digit l in
  let '(fracpart, l2) :=
    match l1 with
    | c :: rest => if Ascii.eqb c "." then span is_digit rest else ([], l1)
    | [] => ([], [])
    end in
  match intpart ++ fracpart with
  | [] => None
  | _ :: _ =>
      match parse_exp l2 with
      | Some e =>
          Some (mk neg (int_of_digits (intpart ++ fracpart))
                   (e - Z.of_nat (List.length fracpart)))
      | None => None
      end
  end.

(** [float(d)]: the binary64 number nearest to [p / q] (ties to even),
    for [0 <= p] and [0 < q]. The quotient is scaled by a power of two so
    that its integer part has 53 bits (fewer in the subnormal range),
    and rounded there. *)
Definition float_of_ratio (neg : bool) (p q : Z) : float :=
  if (p =? 0)%Z then (if neg then neg_zero else PrimFloat.zero)
  else
    let e1 := (Z.log2 p - Z.log2 q - 52)%Z in
    let at_ (e : Z) : Z * Z :=
      if (0 <=? e)%Z then (p, q * 2 ^ e)%Z else (p * 2 ^ (- e), q)%Z in
    let e2 := let '(n, d) := at_ e1 in
              if (2 ^ 52 <=? n / d)%Z then e1 else (e1 - 1)%Z in
    let e := Z.max e2 (-1074) in
    let '(n, d) := at_ e in
    let m0 := (n / d)%Z in
    let r := (n mod d)%Z in
    let m := if ((d <? 2 * r) || ((2 * r =? d) && Z.odd m0))%Z
             then (m0 + 1)%Z else m0 in
    let '(m', e') := if (m =? 2 ^ 53)%Z then (2 ^ 52, e + 1)%Z else (m, e) in
    if (m' =? 0)%Z then (if neg then neg_zero else PrimFloat.zero)
    else if (971 <? e')%Z then (if neg then neg_infinity else infinity)
    else SF2Prim (S754_finite neg (Z.to_pos m') e').

Definition to_float (d : Decimal) : float :=
  if (0 <=? d_exp d)%Z
  then float_of_ratio (d_sign d) (Z.of_N (d_int d) * 10 ^ d_exp d) 1
  else float_of_ratio (d_sign d) (Z.of_N (d_int d)) (10 ^ (- d_exp d)).

End Dec.

(* ------------------------------------------------------------------ *)
(** ** JSON values and the data file *)

#[warnings="-register-all"]
Inductive json :=
| JNull
| JBool (b : bool)
| JInt (z : Z)
| JFloat (f : float)
| JStr (s : string)
| JList (l : list json)
| JObj (kv : list (string * json)).

(** What is found at the path of the data file: nothing, text that
    [json.load] rejects, or a JSON value. *)
Inductive file :=
| Absent
| Corrupt
| Content (j : json).

Module Json.

(** [d.get(k, dflt)] on a JSON object. *)
Fixpoint get (k : string) (kv : list (string * json)) (dflt : json) : json :=
  match kv with
  | [] => dflt
  | (k', v) :: rest => if String.eqb k' k then v else get k rest dflt
  end.

(** [d[k]], [None] for the [KeyError]. *)
Fixpoint lookup (k : string) (kv : list (string * json)) : option json :=
  match kv with
  | [] => None
  | (k', v) :: rest => if String.eqb k' k then Some v else lookup k rest
  end.

End Json.

(* ------------------------------------------------------------------ *)
(** ** Timestamps: [datetime.now()], [strftime], [strptime] *)

Module Time.
Import PyStr.

Record datetime := mkdt {
  year : N; month : N; day : N;
  hour : N; minute : N; second : N; microsecond : N }.

Definition is_leap (y : N) : bool :=
  (((y mod 4 =? 0) && negb (y mod 100 =? 0)) || (y mod 400 =? 0))%N.

Definition days_in_month (y m : N) : N :=
  if (m =? 2)%N then (if is_leap y then 29 else 28)%N
  else if ((m =? 4) || (m =? 6) || (m =? 9) || (m =? 11))%N then 30%N
  else 31%N.

(** The values a [datetime] can hold. Years below 1000 are left out:
    [strftime("%Y")] does not pad them on every platform. *)
Definition valid (dt : datetime) : bool :=
  ((1000 <=? year dt) && (year dt <=? 9999) &&
   (1 <=? month dt) && (month dt <=? 12) &&
   (1 <=? day dt) && (day dt <=? days_in_month (year dt) (month dt)) &&
   (hour dt <=? 23) && (minute dt <=? 59) && (second dt <=? 59) &&
   (microsecond dt <=? 999999))%N.

(** [dt.strftime("%Y-%m")] *)
Definition strftime_Ym (dt : datetime) : string :=
  of_chars (zfill 4 (year dt) ++ ["-"%char] ++ zfill 2 (month dt)).

(** [dt.strftime("%Y-%m-%d %H:%M:%S")] *)
Definition strftime_YmdHMS (dt : datetime) : string :=
  of_chars (zfill 4 (year dt) ++ ["-"%char] ++ zfill 2 (month dt) ++ ["-"%char] ++
            zfill 2 (day dt) ++ [" "%char] ++ zfill 2 (hour dt) ++ [":"%char] ++
            zfill 2 (minute dt) ++ [":"%char] ++ zfill 2 (second dt)).

(** [dt.strftime("%Y-%m-%d %H:%M")] *)
Definition strftime_YmdHM (dt : datetime) : string :=
  of_chars (zfill 4 (year dt) ++ ["-"%char] ++ zfill 2 (month dt) ++ ["-"%char] ++
            zfill 2 (day dt) ++ [" "%char] ++ zfill 2 (hour dt) ++ [":"%char] ++
            zfill 2 (minute dt)).

(** [dt.isoformat()] *)
Definition isoformat (dt : datetime) : string :=
  of_chars (zfill 4 (year dt) ++ ["-"%char] ++ zfill 2 (month dt) ++ ["-"%char] ++
            zfill 2 (day dt) ++ ["T"%char] ++ zfill 2 (hour dt) ++ [":"%char] ++
            zfill 2 (minute dt) ++ [":"%char] ++ zfill 2 (second dt) ++
            (if (microsecond dt =? 0)%N then []
             else "."%char :: zfill 6 (microsecond dt))).

(** A field of exactly [w] digits. *)
Definition field (w : nat) (l : list ascii) : option (N * list ascii) :=
  let ds := firstn w l in
  if (List.length ds =? w)%nat && forallb is_digit ds
  then Some (int_of_digits ds, skipn w l) else None.

(** A literal character of the format. *)
Definition lit (c : ascii) (l : list ascii) : option (list ascii) :=
  match l with
  | x :: rest => if Ascii.eqb x c then Some rest else None
  | [] => None
  end.

(** [datetime.strptime(s, "%Y-%m-%d %H:%M:%S")] on the fixed-width,
    zero-padded spelling that [strftime] writes; [None] stands for the
    [ValueError]. (Python also accepts fields without the padding.) *)
Definition strptime (s : string) : option datetime :=
  '(y, l) ← field 4 (chars s); l ← lit "-" l;
  '(m, l) ← field 2 l; l ← lit "-" l;
  '(d, l) ← field 2 l; l ← lit " " l;
  '(hh, l) ← field 2 l; l ← lit ":" l;
  '(mi, l) ← field 2 l; l ← lit ":" l;
  '(ss, l) ← field 2 l;
  match l with
  | [] =>
      if ((1 <=? y) && (1 <=? m) && (m <=? 12) && (1 <=? d) &&
          (d <=? days_in_month y m) && (hh <=? 23) && (mi <=? 59) && (ss <=? 59))%N
      then Some (mkdt y m d hh mi ss 0) else None
  | _ :: _ => None
  end.

End Time.

(* ------------------------------------------------------------------ *)
(** ** The wallet: class [PersonalWallet] of [Wallet/wallet-2.py] *)

Module Wallet.
Import PyStr Time.
Import Dec (Decimal).

(** One entry of [self.transactions]: the dictionary built by
    [add_transaction], with its seven keys. *)
Record Transaction := mkT {
  t_id : Z;
  t_amount : string;          (* "+$12.34" or "-$12.34" *)
  t_raw_amount : float;
  t_type : string;            (* "Income" or "Expense" *)
  t_category : string;
  t_description : string;
  t_date : string }.          (* "YYYY-MM-DD HH:MM:SS" *)

(** The object state. [data_file] is what the file named by
    [self.data_file] holds; writing it is assumed to succeed. *)
Record PersonalWallet := mkW {
  data_file : file;
  transactions : list Transaction;
  balance : Decimal;
  budget : Decimal }.

Definition set_file (f : file) (w : PersonalWallet) : PersonalWallet :=
  mkW f (transactions w) (balance w) (budget w).
Definition set_transactions (ts : list Transaction) (w : PersonalWallet) :=
  mkW (data_file w) ts (balance w) (budget w).
Definition set_balance (b : Decimal) (w : PersonalWallet) :=
  mkW (data_file w) (transactions w) b (budget w).
Definition set_budget_field (b : Decimal) (w : PersonalWallet) :=
  mkW (data_file w) (transactions w) (balance w) b.

(** The text of the [InvalidOperation] raised by [Decimal(s)]. *)
Definition conversion_syntax : string := "[<class 'decimal.ConversionSyntax'>]".

(** *** JSON form of a transaction *)

Definition encode (t : Transaction) : json :=
  JObj [("id", JInt (t_id t)); ("amount", JStr (t_amount t));
        ("raw_amount", JFloat (t_raw_amount t)); ("type", JStr (t_type t));
        ("category", JStr (t_category t));
        ("description", JStr (t_description t)); ("date", JStr (t_date t))].

(** The typed reading of a loaded dictionary. Python keeps whatever
    [json.load] returns and fails later, where a key is missing or has
    another type; here such an entry is refused when it is loaded. *)
Definition decode (j : json) : option Transaction :=
  match j with
  | JObj kv =>
      match Json.lookup "id" kv, Json.lookup "amount" kv,
            Json.lookup "raw_amount" kv, Json.lookup "type" kv,
            Json.lookup "category" kv, Json.lookup "description" kv,
            Json.lookup "date" kv with
      | Some (JInt i), Some (JStr a), Some (JFloat r), Some (JStr ty),
        Some (JStr c), Some (JStr d), Some (JStr dt) =>
          Some (mkT i a r ty c d dt)
      | _, _, _, _, _, _, _ => None
      end
  | _ => None
  end.

Fixpoint decode_all (l : list json) : option (list Transaction) :=
  match l with
  | [] => Some []
  | j :: rest =>
      match decode j, decode_all rest with
      | Some t, Some ts => Some (t :: ts)
      | _, _ => None
      end
  end.

(** [Decimal(str(v))] for a loaded JSON value: a string is parsed as it
    is, an integer through its digits. Other values are refused; among
    them a float, which Python prints and parses. *)
Definition decimal_of_json (v : json) : option Decimal :=
  match v with
  | JStr s => Dec.parse s
  | JInt z => Some (Dec.mk (z <? 0)%Z (Z.to_N (Z.abs z)) 0)
  | _ => None
  end.

(** *** [load_data]

    The assignments of the [try] block are made one after the other, so
    an exception keeps those made before it. *)
Definition load_data (w : PersonalWallet) : PersonalWallet :=
  match data_file w with
  | Absent =>
      set_transactions [] (set_budget_field Dec.zero_00 (set_balance Dec.zero_00 w))
  | Corrupt => w
  | Content (JObj data) =>
      match Json.get "transactions" data (JList []) with
      | JList l =>
          match decode_all l with
          | Some ts =>
              let w1 := set_transactions ts w in
              match decimal_of_json (Json.get "balance" data (JStr "0.00")) with
              | Some b =>
                  let w2 := set_balance b w1 in
                  match decimal_of_json (Json.get "budget" data (JStr "0.00")) with
                  | Some g => set_budget_field g w2
                  | None => w2
                  end
              | None => w1
              end
          | None => w
          end
      | _ => w
      end
  | Content _ => w
  end.

(** [PersonalWallet.__init__], given what the data file holds. *)
Definition init (f : file) : PersonalWallet :=
  load_data (mkW f [] Dec.zero_00 Dec.zero_00).

(** *** [save_data]; [now] is the reading of the clock for
    [last_updated]. *)
Definition snapshot (w : PersonalWallet) (now : datetime) : json :=
  JObj [("transactions", JList (List.map encode (transactions w)));
        ("balance", JStr (Dec.str (balance w)));
        ("budget", JStr (Dec.str (budget w)));
        ("last_updated", JStr (isoformat now))].

Definition save_data (w : PersonalWallet) (now : datetime) : PersonalWallet :=
  set_file (Content (snapshot w now)) w.

(** *** [add_transaction]

    [amount] is the outcome of [Decimal(str(amount))], [None] when the
    conversion raises. [now] is the clock read for the transaction date,
    [now_save] the one read by [save_data]. The balance is updated before
    the record is built, as in the source. *)

(** The dictionary [transaction] built for an accepted amount; [n] is
    [len(self.transactions)]. *)
Definition new_transaction (n : nat) (amount : Decimal)
    (trans_type category description : string) (now : datetime) : Transaction :=
  mkT (Z.of_nat n + 1)
      ((if String.eqb trans_type "income" then "+$" else "-$") +:+ Dec.format_2f amount)
      (Dec.to_float amount)
      (if String.eqb trans_type "income" then "Income" else "Expense")
      category
      (if String.eqb description "" then "No description" else description)
      (strftime_YmdHMS now).

Definition add_transaction (w : PersonalWallet) (amount : option Decimal)
    (trans_type category description : string) (now now_save : datetime)
  : PersonalWallet * (bool * string) :=
  match amount with
  | None => (w, (false, "Error: " +:+ conversion_syntax))
  | Some amount =>
      if Dec.leb amount Dec.zero
      then (w, (false, "Amount must be greater than 0"))
      else
        let commit (w1 : PersonalWallet) :=
          let transaction :=
            new_transaction (List.length (transactions w1)) amount trans_type
                            category description now in
          (save_data (set_transactions (transactions w1 ++ [transaction]) w1) now_save,
           (true, "Transaction added successfully")) in
        if String.eqb trans_type "income"
        then commit (set_balance (Dec.add (balance w) amount) w)
        else if String.eqb trans_type "expense"
        then if Dec.ltb (balance w) amount
             then (w, (false, "Insufficient balance for this expense"))
             else commit (set_balance (Dec.sub (balance w) amount) w)
        else (w, (false, "Invalid transaction type"))
  end.

(** [get_balance] *)
Definition get_balance (w : PersonalWallet) : string :=
  "$" +:+ Dec.format_2f (balance w).

(** The amount written in a record, without its decoration:
    [t['amount'].replace('$', '').replace('+', '').replace('-', '')]. *)
Definition bare_amount (t : Transaction) : string :=
  remove_char "-" (remove_char "+" (remove_char "$" (t_amount t))).

(** *** [delete_transaction] *)
Definition delete_transaction (w : PersonalWallet) (trans_id : Z) (now_save : datetime)
  : PersonalWallet * (bool * string) :=
  match List.find (fun t => (t_id t =? trans_id)%Z) (transactions w) with
  | None => (w, (false, "Transaction not found"))
  | Some trans =>
      match Dec.parse (bare_amount trans) with
      | None => (w, (false, conversion_syntax))
      | Some amount =>
          let w1 :=
            if String.eqb (t_type trans) "Income"
            then set_balance (Dec.sub (balance w) amount) w
            else set_balance (Dec.add (balance w) amount) w in
          let w2 :=
            set_transactions
              (List.filter (fun t => negb (t_id t =? trans_id)%Z) (transactions w1)) w1 in
          (save_data w2 now_save, (true, "Transaction deleted successfully"))
      end
  end.

(** The Decimal amounts of the records selected by [p], each read with
    [Decimal(strip t)]; [None] when one of them does not parse. *)
Fixpoint amounts (p : Transaction -> bool) (strip : Transaction -> string)
    (ts : list Transaction) : option (list Decimal) :=
  match ts with
  | [] => Some []
  | t :: rest =>
      if p t then
        match Dec.parse (strip t), amounts p strip rest with
        | Some a, Some l => Some (a :: l)
        | _, _ => None
        end
      else amounts p strip rest
  end.

Definition is_income (t : Transaction) : bool := String.eqb (t_type t) "Income".
Definition is_expense (t : Transaction) : bool := String.eqb (t_type t) "Expense".

(** [t['amount'].replace('$', '').replace('+', '')] and
    [t['amount'].replace('$', '').replace('-', '')] *)
Definition income_text (t : Transaction) : string :=
  remove_char "+" (remove_char "$" (t_amount t)).
Definition expense_text (t : Transaction) : string :=
  remove_char "-" (remove_char "$" (t_amount t)).

(** *** [get_statistics] (the two sums) *)
Definition total_income (w : PersonalWallet) : option Decimal :=
  Dec.sum <$> amounts is_income income_text (transactions w).

Definition total_expenses (w : PersonalWallet) : option Decimal :=
  Dec.sum <$> amounts is_expense expense_text (transactions w).

(** [float(s)] for a numeric string. *)
Definition float_of_string (s : string) : option float :=
  Dec.to_float <$> Dec.parse s.

(** *** [get_expense_by_category]: a [defaultdict(float)] filled in one
    pass; [None] stands for the [ValueError] of [float]. *)
Fixpoint expense_loop (ts : list Transaction) (expenses : gmap string float)
  : option (gmap string float) :=
  match ts with
  | [] => Some expenses
  | t :: rest =>
      if is_expense t then
        amount ← float_of_string (expense_text t);
        expense_loop rest
          (<[t_category t :=
               PrimFloat.add (default PrimFloat.zero (expenses !! t_category t)) amount]>
             expenses)
      else expense_loop rest expenses
  end.

Definition get_expense_by_category (w : PersonalWallet) : option (gmap string float) :=
  expense_loop (transactions w) ∅.

(** *** [get_monthly_data] *)

(** An entry of [monthly_data]; the initial [0] of both sums is the
    float zero here. *)
Record MonthData := mkM { income : float; expense : float }.

Definition month_zero : MonthData := mkM PrimFloat.zero PrimFloat.zero.

Fixpoint monthly_loop (ts : list Transaction) (monthly_data : gmap string MonthData)
  : option (gmap string MonthData) :=
  match ts with
  | [] => Some monthly_data
  | t :: rest =>
      trans_date ← strptime (t_date t);
      let month_key := strftime_Ym trans_date in
      amount ← PrimFloat.abs <$> float_of_string (bare_amount t);
      let entry := default month_zero (monthly_data !! month_key) in
      let entry' :=
        if is_income t
        then mkM (PrimFloat.add (income entry) amount) (expense entry)
        else mkM (income entry) (PrimFloat.add (expense entry) amount) in
      monthly_loop rest (<[month_key := entry']> monthly_data)
  end.

(** The order of [sorted] on strings. *)
Definition str_le (a b : string) : Prop := String.leb a b = true.

#[export] Instance str_le_dec (a b : string) : Decision (str_le a b) :=
  bool_eq_dec (String.leb a b) true.

(** The slice [l[i:]] for any integer [i]. *)
Definition slice_from {A} (i : Z) (l : list A) : list A :=
  if (0 <=? i)%Z then drop (Z.to_nat i) l
  else drop (Z.to_nat (Z.of_nat (List.length l) + i)) l.

Definition get_monthly_data (w : PersonalWallet) (months : Z)
  : option (list (string * MonthData)) :=
  monthly_data ← monthly_loop (transactions w) ∅;
  let sorted_months :=
    slice_from (- months) (merge_sort str_le (map fst (map_to_list monthly_data))) in
  Some (List.map (fun m => (m, default month_zero (monthly_data !! m))) sorted_months).

(** *** [set_budget] *)
Definition set_budget (w : PersonalWallet) (amount : option Decimal) (now_save : datetime)
  : PersonalWallet * (bool * string) :=
  match amount with
  | None => (w, (false, conversion_syntax))
  | Some amount =>
      (save_data (set_budget_field amount w) now_save, (true, "Budget set successfully"))
  end.

(** *** [get_budget_status] *)
Record BudgetStatus := mkB {
  b_budget : Decimal; b_spent : Decimal; b_remaining : Decimal; b_percentage : float }.

Definition month_expenses (w : PersonalWallet) (now : datetime) : option Decimal :=
  let current_month := strftime_Ym now in
  Dec.sum <$> amounts
    (fun t => is_expense t && startswith (t_date t) current_month)
    expense_text (transactions w).

(** The outer [option] is [None] for a [Decimal] conversion that raises;
    the inner one is Python's [None]. *)
Definition get_budget_status (w : PersonalWallet) (now : datetime)
  : option (option BudgetStatus) :=
  if Dec.eqb (budget w) Dec.zero then Some None
  else
    spent ← month_expenses w now;
    let remaining := Dec.sub (budget w) spent in
    let percentage :=
      if Dec.ltb Dec.zero (budget w)
      then Dec.to_float (Dec.mul (Dec.div spent (budget w)) (Dec.of_int 100))
      else PrimFloat.zero in
    Some (Some (mkB (budget w) spent remaining percentage)).

End Wallet.

(* ------------------------------------------------------------------ *)
(** ** The task panel: class [TaskPanel] of [panel2.py]

    The widgets are reduced to what the logic reads and writes: the text
    variables, the rows of the tree view ([tree], the row identifiers in
    display order) and the file. The secondary index [tasks_data], which
    no function reads back, is left out. *)

Module Panel.
Import PyStr Time.

(** An entry of [self.items]. *)
Record Item := mkItem {
  i_id : Z; i_cat : string; i_priority : string;
  i_task : string; i_time : string; i_done : bool }.

Record TaskPanel := mkP {
  items : list Item;
  _next_id : Z;                       (* self._next_id *)
  metas : gmap string json;          (* row identifier -> JSON snapshot *)
  tree : list string;                (* self.tree.get_children() *)
  search_var : string;
  filter_var : string;               (* "All", "Pending" or "Completed" *)
  category_filter_var : string;      (* "All" or a category *)
  data_file : file }.                (* what tasks.json holds *)

Definition with_items (its : list Item) (nid : Z) (p : TaskPanel) : TaskPanel :=
  mkP its nid (metas p) (tree p) (search_var p) (filter_var p)
      (category_filter_var p) (data_file p).
Definition with_view (m : gmap string json) (t : list string) (p : TaskPanel) :=
  mkP (items p) (_next_id p) m t (search_var p) (filter_var p)
      (category_filter_var p) (data_file p).
Definition with_filters (q st cat : string) (p : TaskPanel) : TaskPanel :=
  mkP (items p) (_next_id p) (metas p) (tree p) q st cat (data_file p).
Definition with_file (f : file) (p : TaskPanel) : TaskPanel :=
  mkP (items p) (_next_id p) (metas p) (tree p) (search_var p) (filter_var p)
      (category_filter_var p) f.

(** [_passes_filters] *)
Definition _passes_filters (p : TaskPanel) (item : Item) : bool :=
  let q := lower (strip (search_var p)) in
  let cat_filter := category_filter_var p in
  let status_filter := filter_var p in
  if negb (String.eqb cat_filter "All") && negb (String.eqb (i_cat item) cat_filter)
  then false
  else
    let status_label := if i_done item then "Completed" else "Pending" in
    if negb (String.eqb status_filter "All") &&
       negb (String.eqb status_filter status_label)
    then false
    else
      if negb (String.eqb q "")
      then
        let hay := lower (i_task item +:+ " " +:+ i_cat item +:+ " " +:+
                          i_priority item +:+ " " +:+ i_time item) in
        contains q hay
      else true.

(** The JSON snapshot kept in [metas] for a row. *)
Definition meta_of (it : Item) : json :=
  JObj [("id", JInt (i_id it)); ("category", JStr (i_cat it));
        ("priority", JStr (i_priority it)); ("text", JStr (i_task it));
        ("created", JStr (i_time it)); ("done", JBool (i_done it))].

(** [_rebuild_tree]: rows and snapshots are cleared, then the items that
    pass the filters are inserted again, in order. *)
Definition rebuild_loop (p : TaskPanel) (its : list Item)
  : gmap string json * list string :=
  fold_left
    (fun '(m, t) it =>
       if _passes_filters p it
       then (<[str_of_int (i_id it) := meta_of it]> m, t ++ [str_of_int (i_id it)])
       else (m, t))
    its (∅, []).

Definition _rebuild_tree (p : TaskPanel) : TaskPanel :=
  let '(m, t) := rebuild_loop p (items p) in with_view m t p.

(** [filter_tasks], bound to the search box and both filter boxes; the
    new contents of the three variables are given. *)
Definition filter_tasks (p : TaskPanel) (q st cat : string) : TaskPanel :=
  _rebuild_tree (with_filters q st cat p).

(** [save_tasks]: the snapshots of the rows of the tree, in order. *)
Definition saved_tasks (p : TaskPanel) : list json :=
  omap (fun item_id => metas p !! item_id) (tree p).

Definition save_tasks (p : TaskPanel) : TaskPanel :=
  with_file (Content (JList (saved_tasks p))) p.

(** [bool(v)] on a JSON value. *)
Definition truthy (v : json) : bool :=
  match v with
  | JNull => false
  | JBool b => b
  | JInt z => negb (z =? 0)%Z
  | JFloat f => negb (PrimFloat.eqb f PrimFloat.zero)
  | JStr s => negb (String.eqb s "")
  | JList l => negb (Nat.eqb (List.length l) 0)
  | JObj kv => negb (Nat.eqb (List.length kv) 0)
  end.

Definition str_field (k : string) (kv : list (string * json)) (dflt : string)
  : option string :=
  match Json.get k kv (JStr dflt) with
  | JStr s => Some s
  | _ => None
  end.

(** One round of the loop of [load_tasks]: the item read from [t], or
    [None] where Python raises (an entry that is not an object; a field
    of the wrong type is refused here as well). *)
Definition load_item (nid : Z) (now : datetime) (t : json) : option Item :=
  match t with
  | JObj kv =>
      cat ← str_field "category" kv "General";
      pr ← str_field "priority" kv "Medium";
      text ← str_field "text" kv "";
      created ← str_field "created" kv (strftime_YmdHM now);
      Some (mkItem nid cat pr text created (truthy (Json.get "done" kv (JBool false))))
  | _ => None
  end.

(** The loop stops at the first entry that raises and keeps what was
    appended before. *)
Fixpoint load_loop (now : datetime) (ts : list json) (its : list Item) (nid : Z)
  : list Item * Z :=
  match ts with
  | [] => (its, nid)
  | t :: rest =>
      match load_item nid now t with
      | Some it => load_loop now rest (its ++ [it]) (nid + 1)
      | None => (its, nid)
      end
  end.

(** [load_tasks] *)
Definition load_tasks (p : TaskPanel) (now : datetime) : TaskPanel :=
  match data_file p with
  | Absent => _rebuild_tree p
  | Corrupt => _rebuild_tree p
  | Content (JList tasks) =>
      let '(its, nid) := load_loop now tasks [] 1 in
      _rebuild_tree (with_items its nid p)
  | Content _ => _rebuild_tree (with_items [] 1 p)
  end.

(** [TaskPanel.__init__], given what the file holds. *)
Definition init (f : file) (now : datetime) : TaskPanel :=
  load_tasks (mkP [] 1 ∅ [] "" "All" "All" f) now.

(** [add_task]; [task_var], [category_var] and [priority_var] are the
    contents of the entry and of the two pickers. *)
Definition add_task (p : TaskPanel) (task_var category_var priority_var : string)
    (now : datetime) : TaskPanel :=
  let text := strip task_var in
  let cat := strip category_var in
  let pr := if String.eqb (strip priority_var) "" then "Medium" else strip priority_var in
  if String.eqb text "" then p
  else if String.eqb cat "Category" then p
  else
    let item := mkItem (_next_id p) cat pr text (strftime_YmdHM now) false in
    save_tasks (_rebuild_tree (with_items (items p ++ [item]) (_next_id p + 1) p)).

(** [delete_selected]; [sel] is [self.tree.selection()]. *)
Definition delete_selected (p : TaskPanel) (sel : list string) : TaskPanel :=
  match sel with
  | [] => p
  | _ :: _ =>
      let ids_to_remove := omap int_of_str sel in
      let keep (it : Item) := negb (existsb (Z.eqb (i_id it)) ids_to_remove) in
      save_tasks (_rebuild_tree (with_items (List.filter keep (items p)) (_next_id p) p))
  end.

(** [clear_all]; [confirmed] is the answer to the dialog. *)
Definition clear_all (p : TaskPanel) (confirmed : bool) : TaskPanel :=
  match items p with
  | [] => p
  | _ :: _ =>
      if confirmed then save_tasks (_rebuild_tree (with_items [] (_next_id p) p)) else p
  end.

(** The loop of [mark_one]: the first item with the identifier is
    toggled. *)
Fixpoint toggle_first (iid : Z) (its : list Item) : list Item :=
  match its with
  | [] => []
  | it :: rest =>
      if (i_id it =? iid)%Z
      then mkItem (i_id it) (i_cat it) (i_priority it) (i_task it) (i_time it)
                  (negb (i_done it)) :: rest
      else it :: toggle_first iid rest
  end.

(** [mark_one] *)
Definition mark_one (p : TaskPanel) (sel : list string) : TaskPanel :=
  match sel with
  | [s] =>
      match int_of_str s with
      | Some iid =>
          save_tasks (_rebuild_tree (with_items (toggle_first iid (items p)) (_next_id p) p))
      | None => p
      end
  | _ => p
  end.

End Panel.

(* ------------------------------------------------------------------ *)
(** ** Runs of the wallet and the notions the properties are stated with *)

Module Ledger.
Import PyStr Time Wallet.
Import Dec (Decimal).

(** The mutations of the wallet: the two of the record store, and the
    budget. *)
Inductive op :=
| Add (amount : option Decimal) (trans_type category description : string)
      (now now_save : datetime)
| Delete (trans_id : Z) (now_save : datetime)
| SetBudget (amount : option Decimal) (now_save : datetime).

Definition step (w : PersonalWallet) (o : op) : PersonalWallet * (bool * string) :=
  match o with
  | Add a ty c d now now_save => add_transaction w a ty c d now now_save
  | Delete i now_save => delete_transaction w i now_save
  | SetBudget a now_save => set_budget w a now_save
  end.

(** The store after a sequence of operations. *)
Definition run (ops : list op) (w : PersonalWallet) : PersonalWallet :=
  fold_left (fun w o => fst (step w o)) ops w.

(** Every operation of the sequence succeeds (returns [True]). *)
Fixpoint all_ok (ops : list op) (w : PersonalWallet) : bool :=
  match ops with
  | [] => true
  | o :: rest => fst (snd (step w o)) && all_ok rest (fst (step w o))
  end.

(** The empty store: a wallet started without a data file. *)
Definition empty : PersonalWallet := init Absent.

(** The signed amount of a record, income positive and expense negative:
    its display string without the currency sign. *)
Definition signed_amount (t : Transaction) : option Decimal :=
  Dec.parse (remove_char "$" (t_amount t)).

(** The sum of the signed amounts of the records present in the store. *)
Definition ledger_sum (w : PersonalWallet) : option Decimal :=
  Dec.sum <$> mapM signed_amount (transactions w).

Definition ids (w : PersonalWallet) : list Z := List.map t_id (transactions w).

(** A record whose amount can be read back, as [delete_transaction] and
    the projections do. *)
Definition amount_readable (t : Transaction) : Prop :=
  is_Some (Dec.parse (bare_amount t)).

(** A record with a date that [strptime] reads. *)
Definition date_readable (t : Transaction) : Prop :=
  is_Some (strptime (t_date t)).

#[export] Instance amount_readable_dec (t : Transaction) : Decision (amount_readable t) :=
  is_Some_dec (Dec.parse (bare_amount t)).
#[export] Instance date_readable_dec (t : Transaction) : Decision (date_readable t) :=
  is_Some_dec (strptime (t_date t)).

(** The month key of a record, as [get_monthly_data] derives it. *)
Definition month_key (t : Transaction) : option string :=
  strftime_Ym <$> strptime (t_date t).

(** The months that have at least one record. *)
Definition active_months (w : PersonalWallet) : gset string :=
  list_to_set (omap month_key (transactions w)).

(** Strictly ascending order of strings. *)
Definition str_lt (a b : string) : Prop := str_le a b /\ a <> b.

#[export] Instance str_lt_dec (a b : string) : Decision (str_lt a b) :=
  and_dec (str_le_dec a b) (not_dec (decide (a = b))).

(** A record as [add_transaction] writes it: the type and the decorated
    two-place amount go together. *)
Definition from_add (t : Transaction) : Prop :=
  exists a : Decimal,
    (t_type t = "Income" /\ t_amount t = "+$" +:+ Dec.format_2f a) \/
    (t_type t = "Expense" /\ t_amount t = "-$" +:+ Dec.format_2f a).

(** The clock of an operation is a reading of a real clock. *)
Definition clock_valid (o : op) : Prop :=
  match o with
  | Add _ _ _ _ now _ => valid now = true
  | Delete _ _ | SetBudget _ _ => True
  end.

(** The unsigned two-place numeral of [c] hundredths. *)
Definition cents_text (c : N) : list ascii :=
  digits (c / 100) ++ "."%char :: zfill 2 (c mod 100).

(** The characters of an unsigned numeral: digits and the point. *)
Definition plain (l : list ascii) : Prop :=
  Forall (fun c => is_digit c = true \/ c = "."%char) l.

(** What may follow the digits of a numeral: nothing, or an exponent. *)
Definition exp_tail (tail : list ascii) : Prop :=
  match tail with [] => True | c :: _ => c = "E"%char end.

(** A clock reading used in the examples, and some amounts. *)
Definition noon : datetime := mkdt 2024 3 5 12 0 0 0.
Definition dec (n : N) (e : Z) : Decimal := Dec.mk false n e.

Definition earn (cents : N) : op :=
  Add (Some (dec cents (-2))) "income" "Salary" "" noon noon.
Definition spend (cents : N) : op :=
  Add (Some (dec cents (-2))) "expense" "Food" "" noon noon.
Definition remove (i : Z) : op := Delete i noon.
Definition budget_of (d : Decimal) : op := SetBudget (Some d) noon.

(** Readings of the clock in later months, and incomes then. *)
Definition april : datetime := mkdt 2024 4 9 8 30 0 0.
Definition june : datetime := mkdt 2024 6 21 17 45 10 0.
Definition earn_in_april (cents : N) : op :=
  Add (Some (dec cents (-2))) "income" "Bonus" "" april april.
Definition earn_in_june (cents : N) : op :=
  Add (Some (dec cents (-2))) "income" "Bonus" "" june june.

(** What the spec says [budget_status] reports for a budget that is set:
    the spending, [budget - spent] and [spent / budget * 100]. *)
Definition budget_status_spec (budget spent : Decimal) : BudgetStatus :=
  mkB budget spent (Dec.sub budget spent)
      (Dec.to_float (Dec.mul (Dec.div spent budget) (Dec.of_int 100))).

End Ledger.

Module Board.
Import PyStr Time Panel.

Definition noon : datetime := mkdt 2024 3 5 12 0 0 0.

(** Two tasks in two categories, then the category filter set to the
    first one. *)
Definition two_tasks : TaskPanel :=
  add_task (add_task (init Absent noon) "Sweep" "Home" "Medium" noon)
           "Run" "Gym" "High" noon.
Definition filtered : TaskPanel := filter_tasks two_tasks "" "All" "Home".

(** With that filter on, a third task is added in the other category. *)
Definition third_added : TaskPanel := add_task filtered "Swim" "Gym" "Low" noon.

(** What the user can do with the panel. *)
Inductive action :=
| AddTask (task_var category_var priority_var : string) (now : datetime)
| DeleteSelected (sel : list string)
| ClearAll (confirmed : bool)
| MarkOne (sel : list string)
| FilterTasks (q st cat : string)
| SaveNow.

Definition act (p : TaskPanel) (a : action) : TaskPanel :=
  match a with
  | AddTask t c pr now => add_task p t c pr now
  | DeleteSelected sel => delete_selected p sel
  | ClearAll confirmed => clear_all p confirmed
  | MarkOne sel => mark_one p sel
  | FilterTasks q st cat => filter_tasks p q st cat
  | SaveNow => save_tasks p
  end.

(** The panel after a session: started on a file, then a sequence of
    actions. *)
Definition play (f : file) (now : datetime) (acts : list action) : TaskPanel :=
  fold_left act acts (init f now).

(** Identifiers are distinct and below the next one. *)
Definition fresh_ids (p : TaskPanel) : Prop :=
  NoDup (List.map i_id (items p)) /\
  Forall (fun it => (i_id it < _next_id p)%Z) (items p).

(** The tree and the snapshots are those of the last rebuild. *)
Definition in_sync (p : TaskPanel) : Prop :=
  rebuild_loop p (items p) = (metas p, tree p).
(** The records a saved file holds. *)
Definition records_on_file (p : TaskPanel) : list json :=
  match data_file p with
  | Content (JList l) => l
  | _ => []
  end.

End Board.

(* ------------------------------------------------------------------ *)
(** ** The wallet's listings: [get_transactions], [search_transactions],
    [perform_search] and [get_statistics] *)

Module Listing.
Import PyStr Time Wallet.
Import Dec (Decimal).

(** [sorted(l, key=..., reverse=True)]: keys in descending order, and
    entries with equal keys in the order they have in [l] (Python's sort
    is stable, also when reversed). It is written as an insertion sort
    from the right end of the list. *)
Fixpoint insert_desc {A} (key : A -> Z) (x : A) (l : list A) : list A :=
  match l with
  | [] => [x]
  | y :: rest =>
      if (key y <=? key x)%Z then x :: l else y :: insert_desc key x rest
  end.

Definition sorted_desc {A} (key : A -> Z) (l : list A) : list A :=
  foldr (insert_desc key) [] l.

(** The order of the result: [desc key a b] when [a] may come before
    [b]. *)
Definition desc {A} (key : A -> Z) (a b : A) : Prop := (key b <= key a)%Z.

(** [get_transactions] *)
Definition get_transactions (w : PersonalWallet) : list Transaction :=
  sorted_desc t_id (transactions w).

(** The order of two [datetime] values: field by field, from the year
    down to the microsecond. *)
Fixpoint lex_compare (a b : list N) : comparison :=
  match a, b with
  | x :: a', y :: b' =>
      match (x ?= y)%N with
      | Eq => lex_compare a' b'
      | c => c
      end
  | [], [] => Eq
  | [], _ :: _ => Lt
  | _ :: _, [] => Gt
  end.

Definition fields (dt : datetime) : list N :=
  [year dt; month dt; day dt; hour dt; minute dt; second dt; microsecond dt].

Definition dt_leb (a b : datetime) : bool :=
  match lex_compare (fields a) (fields b) with Gt => false | _ => true end.

(** A list comprehension whose condition can raise: [None] as soon as
    the condition does. *)
Fixpoint filter_try {A} (f : A -> option bool) (l : list A) : option (list A) :=
  match l with
  | [] => Some []
  | x :: rest =>
      match f x, filter_try f rest with
      | Some b, Some r => Some (if b then x :: r else r)
      | _, _ => None
      end
  end.

(** The test [if s and s != "All"] on an optional string argument. *)
Definition selective (s : option string) : bool :=
  match s with
  | Some s => negb (String.eqb s "") && negb (String.eqb s "All")
  | None => false
  end.

(** [search_transactions]; [None] stands for the [ValueError] of
    [strptime] on a date that cannot be read. *)
Definition search_transactions (w : PersonalWallet)
    (search_type category : option string) (date_from date_to : option datetime)
  : option (list Transaction) :=
  let results := transactions w in
  let results :=
    if selective search_type
    then List.filter (fun t => String.eqb (t_type t) (default "" search_type)) results
    else results in
  let results :=
    if selective category
    then List.filter (fun t => String.eqb (t_category t) (default "" category)) results
    else results in
  results ←
    match date_from with
    | Some date_from =>
        filter_try (fun t => dt_leb date_from <$> strptime (t_date t)) results
    | None => Some results
    end;
  results ←
    match date_to with
    | Some date_to =>
        filter_try (fun t => (fun d => dt_leb d date_to) <$> strptime (t_date t)) results
    | None => Some results
    end;
  Some (sorted_desc t_id results).

(** [WalletGUI.perform_search]: the choice [All] of a box becomes [None];
    the rows shown and the text of the dialog. *)
Definition perform_search (w : PersonalWallet) (search_type search_category : string)
  : option (list Transaction * string) :=
  let type_filter := if String.eqb search_type "All" then None else Some search_type in
  let category_filter :=
    if String.eqb search_category "All" then None else Some search_category in
  results ← search_transactions w type_filter category_filter None None;
  Some (results,
        "Found " +:+ str_of_int (Z.of_nat (List.length results)) +:+ " transaction(s)").

(** [get_statistics]. [None] stands for the [InvalidOperation] of a
    [Decimal] conversion. A sum over no record is the [int] 0 of [sum],
    written [Dec.zero]. *)
Record Statistics := mkS {
  s_total_income : Decimal;
  s_total_expenses : Decimal;
  s_net_savings : Decimal;
  s_transaction_count : nat;
  s_avg_expense : Decimal;
  s_largest_expense : Decimal }.

(** [max(xs, default=d)]: the first of the largest values. *)
Definition max_default (xs : list Decimal) (d : Decimal) : Decimal :=
  match xs with
  | [] => d
  | x :: rest => fold_left (fun m y => if Dec.ltb m y then y else m) rest x
  end.

Definition get_statistics (w : PersonalWallet) : option Statistics :=
  total_income ← Wallet.total_income w;
  expenses ← amounts is_expense expense_text (transactions w);
  let total_expenses := Dec.sum expenses in
  let expense_transactions := List.filter is_expense (transactions w) in
  let avg_expense :=
    match expense_transactions with
    | [] => Dec.zero_00
    | _ :: _ =>
        Dec.div total_expenses
                (Dec.of_int (N.of_nat (List.length expense_transactions)))
    end in
  let largest_expense := max_default expenses Dec.zero_00 in
  Some (mkS total_income total_expenses (Dec.sub total_income total_expenses)
            (List.length (transactions w)) avg_expense largest_expense).

End Listing.

(* ------------------------------------------------------------------ *)
(** ** Notions for the histories of the wallet *)

Module Accounts.
Import PyStr Time Wallet Ledger Listing.
Import Dec (Decimal).

Definition is_delete (o : op) : bool :=
  match o with Delete _ _ => true | _ => false end.

(** A record as an accepted call of [add_transaction] writes it: the
    amount is positive, the type is the capitalised kind and goes with
    the sign of the display string, the description is not empty and the
    identifier is at least 1. *)
Definition written (t : Transaction) : Prop :=
  exists a : Decimal,
    Dec.ltb Dec.zero a = true /\
    t_raw_amount t = Dec.to_float a /\
    ((t_type t = "Income" /\ t_amount t = "+$" +:+ Dec.format_2f a) \/
     (t_type t = "Expense" /\ t_amount t = "-$" +:+ Dec.format_2f a)) /\
    t_description t <> "" /\
    (1 <= t_id t)%Z.

(** The value of a Decimal in hundredths, for an exponent of at least
    [-2]. *)
Definition cents (d : Decimal) : Z := Dec.scaled (-2) d.

(** The amount of an operation has at most two decimal places. *)
Definition two_places (o : op) : Prop :=
  match o with
  | Add (Some a) _ _ _ _ _ => (-2 <= Dec.d_exp a)%Z
  | _ => True
  end.

(** The hundredths asked for by a sequence of operations, accepted or
    not. *)
Definition volume (ops : list op) : Z :=
  fold_right
    (fun o v => match o with
                | Add (Some a) _ _ _ _ _ => (Z.abs (cents a) + v)%Z
                | _ => v
                end) 0%Z ops.

(** The identifiers are 1, 2, ... in the order of the records. *)
Definition counted (w : PersonalWallet) : Prop :=
  ids w = List.map Z.of_nat (seq 1 (List.length (transactions w))).


(** The sum in hundredths of a list of amounts. *)
Definition total_cents (l : list Decimal) : Z :=
  fold_right (fun x s => (cents x + s)%Z) 0%Z l.

(** An amount as it is read back from a record: hundredths, not
    negative. *)
Definition in_cents (x : Decimal) : Prop :=
  Dec.d_exp x = (-2)%Z /\ (0 <= cents x)%Z.

(** The balance is the incomes less the expenses, in hundredths, and all
    of them together stay below [v]. *)
Definition balanced (v : Z) (w : PersonalWallet) : Prop :=
  exists li le : list Decimal,
    amounts is_income income_text (transactions w) = Some li /\
    amounts is_expense expense_text (transactions w) = Some le /\
    Forall in_cents li /\ Forall in_cents le /\
    (-2 <= Dec.d_exp (balance w))%Z /\
    cents (balance w) = (total_cents li - total_cents le)%Z /\
    (total_cents li + total_cents le <= v)%Z.

(** What is read back from the record of a positive amount: its
    hundredths, rounded, without a sign. *)
Definition read_back (a : Decimal) : Decimal :=
  Dec.mk false (Dec.d_int (Dec.rescale (-2) a)) (-2).

(** [decimal] does its arithmetic in a context that limits the
    exponents: a result whose adjusted exponent is above 999999 raises
    [Overflow], and one whose exponent is below -1000026 is rounded.
    [Dec] holds the finite values and has no such limits, so it computes
    what the code computes as long as they are not reached. A moderate
    amount is far from them: its exponent is at least -1000 and it is
    below 10^1000 in size. *)
Definition moderate (d : Decimal) : bool :=
  ((-1000 <=? Dec.d_exp d) && (Dec.d_exp d + Dec.ndigits (Dec.d_int d) <=? 1000))%Z.

(** The amount of an operation, where it has one, is moderate. *)
Definition moderate_op (o : op) : bool :=
  match o with
  | Add (Some a) _ _ _ _ _ => moderate a
  | SetBudget (Some a) _ => moderate a
  | _ => true
  end.

(** At most 100000 operations, all of them moderate. Each sum or
    difference of two amounts is at most one digit longer than the
    longer of them, so the balance and the totals of such a history stay
    below 10^101000, and no quotient of two of them leaves the limits
    ([moderate_run_tame], [sum_kept] and [div_bounded] below). *)
Definition moderate_history (ops : list op) : bool :=
  forallb moderate_op ops && (Z.of_nat (List.length ops) <=? 100000)%Z.

End Accounts.

(* ------------------------------------------------------------------ *)
(** ** The exponent limits of the context *)

Module Limits.
Import PyStr Time Wallet Ledger Listing Accounts.
Import Dec (Decimal).

(** The exponent limits of the default context, [Emax] and [Etiny]. *)
Definition Emax : Z := 999999.
Definition Etiny : Z := -1000026.

(** [Decimal.adjusted]: the exponent of the first digit. *)
Definition adjusted (d : Decimal) : Z :=
  (Dec.d_exp d + Dec.ndigits (Dec.d_int d) - 1)%Z.

(** A value that is inside the limits: [_fix] neither raises [Overflow]
    for it nor rounds it to [Etiny]. *)
Definition in_context (d : Decimal) : Prop :=
  (Etiny <= Dec.d_exp d)%Z /\ (adjusted d <= Emax)%Z.

(** An exponent between [l] and [k], and a size of at most [10^k]. *)
Definition bounded (l k : Z) (d : Decimal) : Prop :=
  (l <= Dec.d_exp d)%Z /\ (Dec.d_exp d <= k)%Z /\
  (Z.of_N (Dec.d_int d) <= 10 ^ (k - Dec.d_exp d))%Z.

(** A record written for a positive moderate amount. *)
Definition kept (t : Transaction) : Prop :=
  exists a : Decimal,
    moderate a = true /\ Dec.ltb Dec.zero a = true /\
    ((t_type t = "Income" /\ t_amount t = "+$" +:+ Dec.format_2f a) \/
     (t_type t = "Expense" /\ t_amount t = "-$" +:+ Dec.format_2f a)).

(** The state of a wallet after [k - 1000] moderate operations at most:
    the balance is below [10^k], the budget is moderate, the records are
    of moderate amounts and there are at most [k - 1000] of them. *)
Definition tame (k : Z) (w : PersonalWallet) : Prop :=
  bounded (-1000) k (balance w) /\
  bounded (-1000) 1000 (budget w) /\
  Forall kept (transactions w) /\
  (Z.of_nat (List.length (transactions w)) <= k - 1000)%Z.

End Limits.

(* ------------------------------------------------------------------ *)
(** ** Notions for the sessions of the task panel, and its statistics *)

Module Session.
Import PyStr Time Panel Board.

(** The same task: everything but the [done] mark agrees. *)
Definition same_task (a b : Item) : Prop :=
  i_id a = i_id b /\ i_cat a = i_cat b /\ i_priority a = i_priority b /\
  i_task a = i_task b /\ i_time a = i_time b.

(** The items with the identifiers [n], [n + 1], ... in place of their
    own. *)
Fixpoint renumber (n : Z) (its : list Item) : list Item :=
  match its with
  | [] => []
  | it :: rest =>
      mkItem n (i_cat it) (i_priority it) (i_task it) (i_time it) (i_done it)
      :: renumber (n + 1) rest
  end.

(** An action that leaves the search box and the two filter boxes
    alone. *)
Definition unfiltered (a : action) : Prop :=
  match a with FilterTasks _ _ _ => False | _ => True end.

(** The boxes as [setup_ui] creates them. *)
Definition no_filter (p : TaskPanel) : Prop :=
  search_var p = "" /\ filter_var p = "All" /\ category_filter_var p = "All".

(** The items the tree shows. *)
Definition visible (p : TaskPanel) : list Item :=
  List.filter (_passes_filters p) (items p).

(** Python's [strip] and [lower] know the white space and the letters
    of Unicode, [PyStr.strip] and [PyStr.lower] those of ASCII; on a
    string of ASCII characters they are the same. *)
Definition ascii_only (s : string) : bool :=
  forallb (fun c => (N_of_ascii c <? 128)%N) (chars s).

(** A field of an entry of the file: absent, or a string of ASCII
    characters. *)
Definition plain_field (k : string) (kv : list (string * json)) : bool :=
  match Json.lookup k kv with
  | None => true
  | Some (JStr s) => ascii_only s
  | Some _ => false
  end.

(** An entry of the file on which [load_item] does what the loop of
    [load_tasks] does: a value that is not an object, at which both
    stop, or an object (with distinct keys, as [json.load] returns it)
    whose category, priority, text and time, where present, are plain.
    (The code also takes a number, a list or [null] in these places, and
    an item with such a field shows in the tree or ends the loop after
    the item is appended.) *)
Definition plain_entry (t : json) : bool :=
  match t with
  | JObj kv =>
      bool_decide (NoDup kv.*1) &&
      plain_field "category" kv && plain_field "priority" kv &&
      plain_field "text" kv && plain_field "created" kv
  | _ => true
  end.

(** A data file of plain entries; no file, and one that is not JSON or
    not a list, are plain. *)
Definition plain_file (f : file) : bool :=
  match f with
  | Content (JList l) => forallb plain_entry l
  | _ => true
  end.

(** The name of a row of the tree: a numeral as [str] writes it, which
    [int] reads as [int_of_str] does. *)
Definition row_id (s : string) : bool :=
  match int_of_str s with
  | Some z => String.eqb (str_of_int z) s
  | None => false
  end.

(** An action as the widgets send it: texts of ASCII characters, a
    clock reading that is a date (from the year 1000 on, which
    [strftime] writes with four digits), and selected rows named by
    numerals. *)
Definition plain_action (a : action) : bool :=
  match a with
  | AddTask t c pr now => ascii_only t && ascii_only c && ascii_only pr && valid now
  | DeleteSelected sel => forallb row_id sel
  | MarkOne sel => forallb row_id sel
  | FilterTasks q st cat => ascii_only q && ascii_only st && ascii_only cat
  | ClearAll _ => true
  | SaveNow => true
  end.

(** The strings of an item are of ASCII characters. *)
Definition ascii_item (it : Item) : bool :=
  ascii_only (i_cat it) && ascii_only (i_priority it) &&
  ascii_only (i_task it) && ascii_only (i_time it).

(** A session on a plain file with plain actions: every object of the
    file is loaded and every string of every item is of ASCII characters
    ([load_loop_plain] and [plain_session_items] below), so the panel of
    the model is in the state of the panel of the code. *)
Definition plain_session (f : file) (acts : list action) : bool :=
  plain_file f && forallb plain_action acts.

End Session.

Module Stats.
Import PyStr Time Panel Board.

(** [json.loads(meta).get('done', False)] as the condition of the
    count; [None] for a snapshot that is not an object, on which [get]
    raises. *)
Definition meta_done (meta : json) : option bool :=
  match meta with
  | JObj kv => Some (truthy (Json.get "done" kv (JBool false)))
  | _ => None
  end.

(** The figures of [update_stats] and [show_stats]: completed, pending
    and total, counted over the snapshots in [self.metas]. *)
Definition counts (p : TaskPanel) : option (nat * nat * nat) :=
  let total := size (metas p) in
  dones ← mapM meta_done (map_to_list (metas p)).*2;
  let completed := List.length (List.filter (fun b : bool => b) dones) in
  Some (completed, (total - completed)%nat, total).

(** The entry of [self.metas] for an item. *)
Definition row (it : Item) : string * json := (str_of_int (i_id it), meta_of it).

(** The condition of the count on a snapshot that is an object. *)
Definition is_done (v : json) : bool :=
  match meta_done v with Some b => b | None => false end.

End Stats.

(* ------------------------------------------------------------------ *)
(** ** The first task panel: class [TaskPanel] of [panel1.py]

    The list box is the whole state: its rows, each with its text and
    its colour. *)

Module Panel1.
Import PyStr Time.

(** A row of [self.listbox]: its text and its foreground colour. *)
Record Row := mkRow { r_text : string; r_fg : string }.

(** The prefix of a marked row: a check mark (U+2713) and a space. The
    strings hold the UTF-8 bytes of the text, so the two characters that
    [text[2:]] drops are the four bytes of this prefix. *)
Definition check : string := "✓ ".

(** [add_task]; [task_var] and [category_var] are the contents of the
    entry and of the category button. *)
Definition add_task (listbox : list Row) (task_var category_var : string)
    (now : datetime) : list Row :=
  let text := strip task_var in
  let cat := strip category_var in
  if String.eqb text "" then listbox
  else if String.eqb cat "Category" then listbox
  else
    let stamp := strftime_YmdHM now in
    let label := "[" +:+ cat +:+ "] " +:+ text +:+ "  —  " +:+ stamp in
    listbox ++ [mkRow label "black"].

(** [delete_selected]; [sel] is [self.listbox.curselection()], the
    selected positions. They are deleted from the last to the first. *)
Definition delete_selected (listbox : list Row) (sel : list nat) : list Row :=
  match sel with
  | [] => listbox
  | _ :: _ => fold_left (fun l idx => delete idx l) (rev sel) listbox
  end.

(** [clear_all]; [confirmed] is the answer to the dialog. *)
Definition clear_all (listbox : list Row) (confirmed : bool) : list Row :=
  match listbox with
  | [] => listbox
  | _ :: _ => if confirmed then [] else listbox
  end.

(** [mark_one]: the row is taken out and put back at the same position
    with the new text and colour. A selected position is a position of
    the list. *)
Definition mark_one (listbox : list Row) (sel : list nat) : list Row :=
  match sel with
  | [idx] =>
      match listbox !! idx with
      | Some r =>
          let text := r_text r in
          if startswith text check
          then <[idx := mkRow (of_chars (drop 4 (chars text))) "black"]> listbox
          else <[idx := mkRow (check +:+ text) "gray"]> listbox
      | None => listbox
      end
  | _ => listbox
  end.

(** What the user can do, and a session from the empty list. *)
Inductive action :=
| AddTask (task_var category_var : string) (now : datetime)
| DeleteSelected (sel : list nat)
| ClearAll (confirmed : bool)
| MarkOne (sel : list nat).

Definition act (listbox : list Row) (a : action) : list Row :=
  match a with
  | AddTask t c now => add_task listbox t c now
  | DeleteSelected sel => delete_selected listbox sel
  | ClearAll confirmed => clear_all listbox confirmed
  | MarkOne sel => mark_one listbox sel
  end.

Definition play (acts : list action) : list Row := fold_left act acts [].

(** The rows that are left when the positions in [sel] are taken out;
    [pos] is the position of the first row of the list. *)
Fixpoint unselected (sel : list nat) (pos : nat) (listbox : list Row) : list Row :=
  match listbox with
  | [] => []
  | r :: rest =>
      if bool_decide (pos ∈ sel) then unselected sel (S pos) rest
      else r :: unselected sel (S pos) rest
  end.

(** A row as [add_task] writes it, and the same row marked. *)
Definition plain_row (r : Row) : Prop :=
  r_fg r = "black" /\ exists rest, r_text r = "[" +:+ rest.
Definition marked_row (r : Row) : Prop :=
  r_fg r = "gray" /\ exists rest, r_text r = check +:+ "[" +:+ rest.

End Panel1.

(* ================================================================== *)
(** * Facts *)

(* ------------------------------------------------------------------ *)
(** ** Digit strings *)

Section DigitFacts.
Import PyStr.
Local Open Scope N_scope.

Lemma digit_val_char (d : N) : d < 10 -> digit_val (digit_char d) = d.
Proof.
  intros H. unfold digit_val, digit_char.
  rewrite N_ascii_embedding by lia. lia.
Qed.

Lemma is_digit_char (d : N) : d < 10 -> is_digit (digit_char d) = true.
Proof.
  intros H. unfold is_digit, digit_char.
  rewrite N_ascii_embedding by lia.
  apply andb_true_iff; split; apply N.leb_le; lia.
Qed.

Lemma int_of_digits_acc (l : list ascii) (acc : N) :
  fold_left (fun a c => 10 * a + digit_val c) l acc
  = acc * 10 ^ N.of_nat (List.length l) + int_of_digits l.
Proof.
  unfold int_of_digits. revert acc.
  induction l as [|c l IH]; intros acc; simpl.
  - lia.
  - rewrite IH, (IH (10 * 0 + digit_val c)).
    rewrite Nat2N.inj_succ, N.pow_succ_r'. lia.
Qed.

Lemma int_of_digits_app (l1 l2 : list ascii) :
  int_of_digits (l1 ++ l2)
  = int_of_digits l1 * 10 ^ N.of_nat (List.length l2) + int_of_digits l2.
Proof.
  unfold int_of_digits at 1. rewrite fold_left_app.
  apply int_of_digits_acc.
Qed.

Lemma int_of_digits_snoc (l : list ascii) (c : ascii) :
  int_of_digits (l ++ [c]) = 10 * int_of_digits l + digit_val c.
Proof.
  rewrite int_of_digits_app. simpl. unfold int_of_digits at 2. simpl. lia.
Qed.

(** Leading zeros do not count. *)
Lemma int_of_digits_zeros (k : nat) (l : list ascii) :
  int_of_digits (List.repeat "0"%char k ++ l) = int_of_digits l.
Proof.
  induction k as [|k IH]; simpl; [done|].
  unfold int_of_digits in *. simpl. exact IH.
Qed.

Lemma log2_div10 (n : N) : 10 <= n -> N.log2 (n / 10) < N.log2 n.
Proof.
  intros H.
  assert (Hq : 0 < n / 10) by (apply N.div_str_pos; lia).
  apply N.log2_lt_pow2; [exact Hq|].
  assert (Hn : n < 2 ^ N.succ (N.log2 n)) by (apply N.log2_spec; lia).
  rewrite N.pow_succ_r' in Hn.
  apply N.Div0.div_lt_upper_bound. lia.
Qed.

(** With enough fuel the digits of [n] are digits, there is at least one,
    and they read back as [n]. *)
Lemma digits_fuel_spec (fuel : nat) (n : N) :
  N.log2 n <= N.of_nat fuel ->
  int_of_digits (digits_fuel fuel n) = n /\
  Forall (fun c => is_digit c = true) (digits_fuel fuel n) /\
  digits_fuel fuel n <> [].
Proof.
  revert n. induction fuel as [|f IH]; intros n Hn.
  - assert (n < 2).
    { destruct (N.eq_dec n 0) as [->|Hz]; [lia|].
      change (n < 2 ^ 1). apply N.log2_lt_pow2; [lia|]. simpl in Hn. lia. }
    simpl. rewrite N.mod_small by lia.
    split; [|split]; [|repeat constructor|done].
    + unfold int_of_digits. simpl. rewrite digit_val_char; lia.
    + apply is_digit_char; lia.
  - simpl. destruct (N.ltb_spec n 10) as [Hlt|Hge].
    + split; [|split]; [|repeat constructor|done].
      * unfold int_of_digits. simpl. rewrite digit_val_char; lia.
      * apply is_digit_char; lia.
    + destruct (IH (n / 10)) as (Hv & Hd & _).
      { pose proof (log2_div10 n Hge). lia. }
      split; [|split].
      * rewrite int_of_digits_snoc, Hv, digit_val_char
          by (apply N.mod_upper_bound; lia).
        pose proof (N.div_mod n 10). lia.
      * apply Forall_app; split; [exact Hd|].
        repeat constructor. apply is_digit_char, N.mod_upper_bound; lia.
      * intros E. apply app_eq_nil in E. destruct E as [_ E]. discriminate.
Qed.

Lemma int_of_digits_digits (n : N) : int_of_digits (digits n) = n.
Proof. apply digits_fuel_spec. rewrite N2Nat.id. lia. Qed.

Lemma digits_all_digit (n : N) : Forall (fun c => is_digit c = true) (digits n).
Proof. apply digits_fuel_spec. rewrite N2Nat.id. lia. Qed.

Lemma digits_nonempty (n : N) : digits n <> [].
Proof. apply digits_fuel_spec. rewrite N2Nat.id. lia. Qed.

Lemma digits_fuel_small (fuel : nat) (n : N) :
  n < 10 -> digits_fuel fuel n = [digit_char n].
Proof.
  intros H. destruct fuel; simpl.
  - by rewrite N.mod_small.
  - destruct (N.ltb_spec n 10); [done|lia].
Qed.

(** A number below [10^w] has at most [w] digits. *)
Lemma digits_fuel_length (fuel : nat) (n : N) (w : nat) :
  n < 10 ^ N.of_nat w -> (1 <= w)%nat -> (List.length (digits_fuel fuel n) <= w)%nat.
Proof.
  revert n w. induction fuel as [|f IH]; intros n w Hn Hw; simpl; [lia|].
  destruct (N.ltb_spec n 10) as [|Hge]; simpl; [lia|].
  rewrite length_app. simpl.
  destruct w as [|w]; [lia|].
  rewrite Nat2N.inj_succ, N.pow_succ_r' in Hn.
  destruct w as [|w]; [simpl in Hn; lia|].
  assert (List.length (digits_fuel f (n / 10)) <= S w)%nat; [|lia].
  apply IH; [|lia]. apply N.Div0.div_lt_upper_bound. lia.
Qed.

Lemma repeat_all_digit (k : nat) :
  Forall (fun c => is_digit c = true) (List.repeat "0"%char k).
Proof. induction k; simpl; constructor; auto. Qed.

Lemma zfill_length (w : nat) (n : N) :
  n < 10 ^ N.of_nat w -> (1 <= w)%nat -> List.length (zfill w n) = w.
Proof.
  intros Hn Hw. unfold zfill. rewrite length_app, repeat_length.
  pose proof (digits_fuel_length (N.to_nat (N.log2 n)) n w Hn Hw) as H.
  fold (digits n) in H. lia.
Qed.

Lemma zfill_all_digit (w : nat) (r : N) :
  Forall (fun c => is_digit c = true) (zfill w r).
Proof.
  unfold zfill. apply Forall_app; split;
    [apply repeat_all_digit|apply digits_all_digit].
Qed.

Lemma int_of_digits_zfill (w : nat) (r : N) : int_of_digits (zfill w r) = r.
Proof. unfold zfill. by rewrite int_of_digits_zeros, int_of_digits_digits. Qed.

Lemma span_digits (ds rest : list ascii) :
  Forall (fun c => is_digit c = true) ds ->
  match rest with [] => True | c :: _ => is_digit c = false end ->
  span is_digit (ds ++ rest) = (ds, rest).
Proof.
  intros Hds Hrest. induction Hds as [|c ds Hc _ IH]; simpl.
  - destruct rest as [|c r]; [done|]. simpl. by rewrite Hrest.
  - by rewrite Hc, IH.
Qed.

Lemma chars_of_chars (l : list ascii) : chars (of_chars l) = l.
Proof. apply list_ascii_of_string_of_list_ascii. Qed.

Lemma chars_append (s1 s2 : string) : chars (s1 +:+ s2) = chars s1 ++ chars s2.
Proof. induction s1 as [|c s1 IH]; simpl; [done|]. by f_equal. Qed.

Lemma remove_char_chars (c : ascii) (s : string) :
  chars (remove_char c s) = List.filter (fun x => negb (Ascii.eqb x c)) (chars s).
Proof. unfold remove_char. apply chars_of_chars. Qed.

End DigitFacts.

(* ------------------------------------------------------------------ *)
(** ** Reading numerals: [Decimal(s)] on what [str] and [format] write *)

Section NumeralFacts.
Import PyStr Dec Ledger.

Lemma digit_not_sign (c : ascii) :
  is_digit c = true -> Ascii.eqb c "-" = false /\ Ascii.eqb c "+" = false.
Proof.
  intros H. split.
  - destruct (Ascii.eqb_spec c "-") as [->|]; [discriminate H|done].
  - destruct (Ascii.eqb_spec c "+") as [->|]; [discriminate H|done].
Qed.

Lemma parse_sign_digit (c : ascii) (l : list ascii) :
  is_digit c = true -> parse_sign (c :: l) = (false, c :: l).
Proof.
  intros H. destruct (digit_not_sign c H) as [H1 H2].
  unfold parse_sign. by rewrite H1, H2.
Qed.

Lemma exp_tail_not_digit (tail : list ascii) :
  exp_tail tail -> match tail with [] => True | c :: _ => is_digit c = false end.
Proof. destruct tail as [|c t]; [done|]. simpl. by intros ->. Qed.

(** A sign, an integer part, an optional fraction, an optional exponent:
    the coefficient is the digits of both parts, the exponent is lowered
    by the length of the fraction. *)
Lemma parse_numeral (neg : bool) (intp frac tail : list ascii) (e : Z) :
  Forall (fun c => is_digit c = true) intp ->
  Forall (fun c => is_digit c = true) frac ->
  intp <> [] ->
  exp_tail tail ->
  parse_exp tail = Some e ->
  parse (of_chars ((if neg then ["-"%char] else []) ++
                   intp ++ (match frac with [] => [] | _ => "."%char :: frac end) ++ tail))
  = Some (mk neg (int_of_digits (intp ++ frac)) (e - Z.of_nat (List.length frac))).
Proof.
  intros Hi Hf Hne Ht He.
  unfold parse. rewrite chars_of_chars.
  assert (Hs : parse_sign ((if neg then ["-"%char] else []) ++
                intp ++ (match frac with [] => [] | _ => "."%char :: frac end) ++ tail)
               = (neg, intp ++ (match frac with [] => [] | _ => "."%char :: frac end) ++ tail)).
  { destruct neg; [reflexivity|].
    destruct intp as [|c intp]; [done|].
    simpl. apply parse_sign_digit. by inversion Hi. }
  rewrite Hs.
  destruct frac as [|f frac].
  - simpl app at 2. rewrite span_digits; [|exact Hi|by apply exp_tail_not_digit].
    assert (Hl : match tail with
                 | c :: rest => if Ascii.eqb c "." then span is_digit rest else ([], tail)
                 | [] => ([], [])
                 end = ([], tail)).
    { destruct tail as [|c t]; [done|]. simpl in Ht. by subst c. }
    rewrite Hl. cbv iota beta. rewrite !app_nil_r.
    destruct intp as [|c intp]; [done|].
    rewrite He. simpl List.length. by rewrite Z.sub_0_r.
  - rewrite span_digits; [|exact Hi|reflexivity].
    change (("."%char :: f :: frac) ++ tail) with ("."%char :: (f :: frac) ++ tail).
    cbv iota beta. change (Ascii.eqb "." ".") with true. cbv iota.
    rewrite span_digits; [|exact Hf|by apply exp_tail_not_digit].
    destruct intp as [|c intp]; [done|].
    simpl app at 1. cbv iota. by rewrite He.
Qed.

Lemma parse_numeral_frac (neg : bool) (intp frac tail : list ascii) (e : Z) :
  Forall (fun c => is_digit c = true) intp ->
  Forall (fun c => is_digit c = true) frac ->
  intp <> [] -> frac <> [] -> exp_tail tail -> parse_exp tail = Some e ->
  parse (of_chars ((if neg then ["-"%char] else []) ++
                   (intp ++ "."%char :: frac) ++ tail))
  = Some (mk neg (int_of_digits (intp ++ frac)) (e - Z.of_nat (List.length frac))).
Proof.
  intros Hi Hf Hne Hfne Ht He.
  rewrite <- (parse_numeral neg intp frac tail e) by assumption.
  destruct frac as [|f frac]; [done|].
  by rewrite <- app_assoc.
Qed.

Lemma parse_numeral_int (neg : bool) (intp tail : list ascii) (e : Z) :
  Forall (fun c => is_digit c = true) intp ->
  intp <> [] -> exp_tail tail -> parse_exp tail = Some e ->
  parse (of_chars ((if neg then ["-"%char] else []) ++ intp ++ tail))
  = Some (mk neg (int_of_digits intp) e).
Proof.
  intros Hi Hne Ht He.
  pose proof (parse_numeral neg intp [] tail e Hi (Forall_nil_2 _) Hne Ht He) as H.
  simpl in H. rewrite app_nil_r, Z.sub_0_r in H. exact H.
Qed.

Lemma parse_exp_signed (z : Z) :
  parse_exp ("E"%char :: signed_int_str z) = Some z.
Proof.
  unfold parse_exp, signed_int_str.
  change (Ascii.eqb "E" "E" || Ascii.eqb "E" "e") with true. cbv iota.
  assert (Hsp : span is_digit (digits (Z.to_N (Z.abs z)))
                = (digits (Z.to_N (Z.abs z)), [])).
  { rewrite <- (app_nil_r (digits _)) at 1.
    apply span_digits; [apply digits_all_digit|done]. }
  pose proof (digits_nonempty (Z.to_N (Z.abs z))) as Hne.
  destruct (Z.ltb_spec z 0) as [Hneg|Hpos].
  - change (parse_sign ("-"%char :: digits (Z.to_N (Z.abs z))))
      with (true, digits (Z.to_N (Z.abs z))).
    cbv iota beta. rewrite Hsp.
    destruct (digits (Z.to_N (Z.abs z))) as [|c ds] eqn:E; [done|].
    rewrite <- E, int_of_digits_digits. f_equal. lia.
  - change (parse_sign ("+"%char :: digits (Z.to_N (Z.abs z))))
      with (false, digits (Z.to_N (Z.abs z))).
    cbv iota beta. rewrite Hsp.
    destruct (digits (Z.to_N (Z.abs z))) as [|c ds] eqn:E; [done|].
    rewrite <- E, int_of_digits_digits. f_equal. lia.
Qed.

(** Reading back what [str] writes gives the same sign, coefficient and
    exponent, in each of the layouts of [Decimal.__str__]. *)
Lemma parse_str (d : Decimal) : parse (str d) = Some d.
Proof.
  destruct d as [sg c e]. unfold str. cbn [d_sign d_int d_exp].
  pose proof (digits_all_digit c) as Hd.
  pose proof (digits_nonempty c) as Hne.
  pose proof (int_of_digits_digits c) as Hv.
  set (ds := digits c) in *.
  assert (Hlen : (1 <= List.length ds)%nat) by (destruct ds; [done|simpl; lia]).
  set (len := Z.of_nat (List.length ds)).
  assert (Hlen' : (1 <= len)%Z) by (unfold len; lia).
  destruct ((e <=? 0)%Z && (-6 <? e + len)%Z) eqn:HA.
  - (* plain notation *)
    apply andb_true_iff in HA. destruct HA as [He0 _]. apply Z.leb_le in He0.
    rewrite Z.eqb_refl. rewrite app_nil_r.
    destruct (Z.leb_spec (e + len) 0) as [Hdp|Hdp].
    + (* 0.000ddd *)
      change ("0"%char :: "."%char :: List.repeat "0"%char (Z.to_nat (- (e + len))) ++ ds)
        with (["0"%char] ++ "."%char :: (List.repeat "0"%char (Z.to_nat (- (e + len))) ++ ds)).
      rewrite <- (app_nil_r (_ ++ "."%char :: _)).
      rewrite (parse_numeral_frac sg _ _ [] 0); try done.
      * f_equal. f_equal.
        -- change (["0"%char] ++ ?l ++ ds)
             with (List.repeat "0"%char (S (Z.to_nat (- (e + len)))) ++ ds).
           by rewrite int_of_digits_zeros.
        -- rewrite length_app, repeat_length. fold len. lia.
      * repeat constructor.
      * apply Forall_app; split; [apply repeat_all_digit|exact Hd].
      * intros E. apply app_eq_nil in E. by destruct E.
    + destruct (Z.leb_spec len (e + len)) as [Hfull|Hpart].
      * (* an integer *)
        assert (e = 0)%Z as -> by lia.
        replace (Z.to_nat (0 + len - len)) with 0%nat by lia.
        simpl List.repeat. rewrite app_nil_r.
        rewrite <- (app_nil_r ds) at 1.
        rewrite (parse_numeral_int sg ds [] 0); try done.
        by rewrite Hv.
      * (* ddd.ddd *)
        rewrite <- (app_nil_r (_ ++ "."%char :: _)).
        rewrite (parse_numeral_frac sg _ _ [] 0); try done.
        -- rewrite firstn_skipn, Hv. f_equal. f_equal.
           rewrite length_skipn. fold len. lia.
        -- by apply Forall_take.
        -- by apply Forall_drop.
        -- intros E. apply (f_equal (@List.length _)) in E.
           rewrite length_firstn in E. cbn [List.length] in E. lia.
        -- intros E. apply (f_equal (@List.length _)) in E.
           rewrite length_skipn in E. cbn [List.length] in E. lia.
  - (* scientific notation *)
    assert (Hnot : (e + len <> 1)%Z).
    { intros E. apply andb_false_iff in HA.
      destruct HA as [H|H]; [apply Z.leb_gt in H|apply Z.ltb_ge in H]; lia. }
    destruct (Z.eqb_spec (e + len) 1) as [|_]; [done|].
    change (1 <=? 0)%Z with false. cbv iota.
    destruct (Z.leb_spec len 1) as [Hone|Hmany].
    + replace (Z.to_nat (1 - len)) with 0%nat by lia.
      simpl List.repeat. rewrite app_nil_r.
      rewrite (parse_numeral_int sg ds _ (e + len - 1));
        [|done|done|done|apply parse_exp_signed].
      rewrite Hv. f_equal. f_equal. lia.
    + rewrite (parse_numeral_frac sg _ _ _ (e + len - 1));
        [| | | | |done|apply parse_exp_signed].
      * rewrite firstn_skipn, Hv. f_equal. f_equal.
        rewrite length_skipn. fold len. lia.
      * by apply Forall_take.
      * by apply Forall_drop.
      * intros E. apply (f_equal (@List.length _)) in E.
        rewrite length_firstn in E. cbn [List.length] in E. lia.
      * intros E. apply (f_equal (@List.length _)) in E.
        rewrite length_skipn in E. cbn [List.length] in E. lia.
Qed.

End NumeralFacts.

(* ------------------------------------------------------------------ *)
(** ** The display string of an amount and what is read back from it *)

Section FormatFacts.
Import PyStr Dec Wallet Ledger.

Lemma plain_digits (l : list ascii) :
  Forall (fun c => is_digit c = true) l -> plain l.
Proof. intros H. induction H; constructor; auto. Qed.

(** Removing a character that is neither a digit nor the point leaves an
    unsigned numeral as it is. *)
Lemma filter_plain (c : ascii) (l : list ascii) :
  is_digit c = false -> c <> "."%char -> plain l ->
  List.filter (fun x => negb (Ascii.eqb x c)) l = l.
Proof.
  intros Hc Hdot Hl. induction Hl as [|x l Hx _ IH]; simpl; [done|].
  destruct (Ascii.eqb_spec x c) as [->|_]; simpl.
  - destruct Hx as [Hx|Hx]; congruence.
  - by rewrite IH.
Qed.

Lemma cents_text_plain (c : N) : plain (cents_text c).
Proof.
  unfold cents_text, plain. apply Forall_app; split.
  - apply plain_digits, digits_all_digit.
  - constructor; [by right|]. apply plain_digits, zfill_all_digit.
Qed.

Lemma zfill2_length (r : N) : List.length (zfill 2 (r mod 100)) = 2%nat.
Proof.
  apply zfill_length; [|lia].
  change (10 ^ N.of_nat 2)%N with 100%N. apply N.mod_upper_bound. lia.
Qed.

Lemma parse_cents_text (c : N) :
  parse (of_chars (cents_text c)) = Some (mk false c (-2)).
Proof.
  unfold cents_text.
  pose proof (parse_numeral_frac false (digits (c / 100)) (zfill 2 (c mod 100)) [] 0) as H.
  simpl app at 1 in H. rewrite app_nil_r in H.
  rewrite H; clear H.
  - rewrite int_of_digits_app, int_of_digits_digits, int_of_digits_zfill.
    rewrite zfill2_length.
    f_equal. f_equal. change (10 ^ N.of_nat 2)%N with 100%N.
    pose proof (N.div_mod c 100). lia.
  - apply digits_all_digit.
  - apply zfill_all_digit.
  - apply digits_nonempty.
  - intros E. apply (f_equal (@List.length _)) in E.
    rewrite zfill2_length in E. done.
  - done.
  - done.
Qed.

Lemma format_2f_chars (d : Decimal) :
  chars (format_2f d)
  = (if d_sign (rescale (-2) d) then ["-"%char] else [])
      ++ cents_text (d_int (rescale (-2) d)).
Proof. unfold format_2f. rewrite chars_of_chars. reflexivity. Qed.

(** What [delete_transaction] reads back from a record written by
    [add_transaction]: the amount in hundredths, without a sign. *)
Lemma bare_amount_written (pre : string) (a : Decimal) (t : Transaction) :
  pre = "+$" \/ pre = "-$" ->
  t_amount t = pre +:+ format_2f a ->
  Dec.parse (bare_amount t) = Some (mk false (d_int (rescale (-2) a)) (-2)).
Proof.
  intros Hpre Ht.
  assert (Hb : bare_amount t = of_chars (cents_text (d_int (rescale (-2) a)))).
  { unfold bare_amount. rewrite Ht.
    unfold remove_char at 1. f_equal.
    rewrite !remove_char_chars, chars_append, format_2f_chars.
    pose proof (cents_text_plain (d_int (rescale (-2) a))) as Hp.
    rewrite !List.filter_app.
    rewrite (filter_plain "$" (cents_text _)) by done.
    rewrite (filter_plain "+" (cents_text _)) by done.
    rewrite (filter_plain "-" (cents_text _)) by done.
    destruct Hpre as [-> | ->]; by destruct (d_sign (rescale (-2) a)). }
  rewrite Hb. apply parse_cents_text.
Qed.

(** The same for the reading of the expense sums, which leaves a [+]. *)
Lemma expense_text_written (a : Decimal) (t : Transaction) :
  t_amount t = "-$" +:+ format_2f a ->
  Dec.parse (expense_text t) = Some (mk false (d_int (rescale (-2) a)) (-2)).
Proof.
  intros Ht.
  assert (Hb : expense_text t = of_chars (cents_text (d_int (rescale (-2) a)))).
  { unfold expense_text. rewrite Ht.
    unfold remove_char at 1. f_equal.
    rewrite !remove_char_chars, chars_append, format_2f_chars.
    pose proof (cents_text_plain (d_int (rescale (-2) a))) as Hp.
    rewrite !List.filter_app.
    rewrite (filter_plain "$" (cents_text _)) by done.
    rewrite (filter_plain "-" (cents_text _)) by done.
    by destruct (d_sign (rescale (-2) a)). }
  rewrite Hb. apply parse_cents_text.
Qed.

Lemma compare_antisym (a b : Decimal) :
  Dec.compare a b = CompOpp (Dec.compare b a).
Proof. unfold Dec.compare. rewrite (Z.min_comm (d_exp a)). apply Z.compare_antisym. Qed.

Lemma ltb_not_leb (a b : Decimal) : Dec.ltb a b = true -> Dec.leb b a = false.
Proof.
  unfold Dec.ltb, Dec.leb. rewrite (compare_antisym b a).
  by destruct (Dec.compare a b).
Qed.

End FormatFacts.

(* ------------------------------------------------------------------ *)
(** ** The order of [sorted] on month keys *)

Section OrderFacts.
Import Wallet Ledger.

Lemma ascii_compare_trans (x y z : ascii) (c : comparison) :
  Ascii.compare x y = c -> Ascii.compare y z = c -> Ascii.compare x z = c.
Proof.
  unfold Ascii.compare. intros H1 H2. destruct c.
  - apply N.compare_eq_iff in H1, H2. apply N.compare_eq_iff. congruence.
  - rewrite N.compare_lt_iff in *. lia.
  - rewrite N.compare_gt_iff in *. lia.
Qed.

Lemma string_le_trans (a b c : string) :
  String.leb a b = true -> String.leb b c = true -> String.leb a c = true.
Proof.
  unfold String.leb. revert b c.
  induction a as [|x a IH]; intros [|y b] [|z c]; simpl; try done.
  destruct (Ascii.compare x y) eqn:Hxy; [| |done].
  - apply Ascii.compare_eq_iff in Hxy. subst y.
    destruct (Ascii.compare x z); [apply IH|done|done].
  - intros _. destruct (Ascii.compare y z) eqn:Hyz; [| |done].
    + apply Ascii.compare_eq_iff in Hyz. subst z. by rewrite Hxy.
    + by rewrite (ascii_compare_trans x y z Lt).
Qed.

#[export] Instance str_le_total : Total str_le.
Proof. intros a b. apply String.leb_total. Qed.

#[export] Instance str_le_trans : Transitive str_le.
Proof. intros a b c. apply string_le_trans. Qed.

(** A sorted list without repetition is strictly sorted. *)
Lemma strongly_sorted_strict (l : list string) :
  StronglySorted str_le l -> NoDup l -> StronglySorted str_lt l.
Proof.
  induction 1 as [|x l Hs IH Hx]; intros Hnd; [constructor|].
  apply NoDup_cons in Hnd. destruct Hnd as [Hnotin Hnd].
  constructor; [by apply IH|].
  rewrite Forall_forall in *. intros y Hy. split; [by apply Hx|].
  intros ->. by apply Hnotin.
Qed.

Lemma strongly_sorted_drop {A} (R : relation A) (j : nat) (l : list A) :
  StronglySorted R l -> StronglySorted R (drop j l).
Proof.
  intros H. rewrite <- (take_drop j l) in H.
  by apply StronglySorted_app in H as (_ & _ & H).
Qed.

Lemma slice_last_length {A} (n : Z) (l : list A) :
  (0 < n)%Z ->
  List.length (slice_from (- n) l) = Nat.min (Z.to_nat n) (List.length l).
Proof.
  intros Hn. unfold slice_from.
  destruct (Z.leb_spec 0 (- n)); [lia|].
  rewrite length_drop. lia.
Qed.

Lemma slice_from_drop {A} (i : Z) (l : list A) :
  exists j, slice_from i l = drop j l.
Proof. unfold slice_from. destruct (0 <=? i)%Z; eauto. Qed.

Lemma keys_of_pairs {A B} (f : A -> B) (l : list A) :
  (List.map (fun k => (k, f k)) l).*1 = l.
Proof. induction l as [|x l IH]; [done|]. cbn. by f_equal. Qed.

End OrderFacts.

(* ------------------------------------------------------------------ *)
(** ** Timestamps: [strptime] reads what [strftime] writes *)

Section ClockFacts.
Import PyStr Time.
Local Open Scope N_scope.

Lemma field_zfill (w : nat) (n : N) (rest : list ascii) :
  n < 10 ^ N.of_nat w -> (1 <= w)%nat ->
  field w (zfill w n ++ rest) = Some (n, rest).
Proof.
  intros Hn Hw. unfold field.
  pose proof (zfill_length w n Hn Hw) as Hl.
  rewrite take_app_length' by done.
  rewrite Hl, Nat.eqb_refl.
  assert (Hall : forallb is_digit (zfill w n) = true).
  { apply forallb_forall. intros c Hc.
    pose proof (zfill_all_digit w n) as Hf. rewrite Forall_forall in Hf.
    apply Hf. by apply list_elem_of_In. }
  rewrite Hall. cbn. rewrite int_of_digits_zfill.
  by rewrite drop_app_length'.
Qed.

Lemma strptime_strftime (dt : datetime) :
  valid dt = true ->
  strptime (strftime_YmdHMS dt)
  = Some (mkdt (year dt) (month dt) (day dt) (hour dt) (minute dt) (second dt) 0).
Proof.
  unfold valid. rewrite !andb_true_iff, !N.leb_le.
  intros (((((((((Hy1 & Hy2) & Hm1) & Hm2) & Hd1) & Hd2) & Hh) & Hmi) & Hs) & _).
  assert (Hdm : days_in_month (year dt) (month dt) <= 31).
  { unfold days_in_month.
    repeat match goal with |- context [if ?b then _ else _] => destruct b end; lia. }
  assert (H4 : forall n, n <= 9999 -> n < 10 ^ N.of_nat 4)
    by (intros n; change (10 ^ N.of_nat 4) with 10000; lia).
  assert (H2 : forall n, n <= 99 -> n < 10 ^ N.of_nat 2)
    by (intros n; change (10 ^ N.of_nat 2) with 100; lia).
  unfold strptime, strftime_YmdHMS. rewrite chars_of_chars.
  do 5 (rewrite field_zfill by (try apply H4; try apply H2; lia);
        cbn [mbind option_bind lit app];
        match goal with
        | |- context [Ascii.eqb ?c ?c] => change (Ascii.eqb c c) with true
        end;
        cbv iota; cbn [mbind option_bind]).
  rewrite <- (app_nil_r (zfill 2 (second dt))).
  rewrite field_zfill by (try apply H4; try apply H2; lia). cbn [mbind option_bind].
  repeat match goal with
         | |- context [(?a <=? ?b)%N] =>
             let H := fresh in
             destruct (N.leb_spec a b) as [H|H]; [clear H|lia]
         end.
  reflexivity.
Qed.

End ClockFacts.

(* ------------------------------------------------------------------ *)
(** ** The wallet *)

Section WalletFacts.
Import PyStr Time Wallet Ledger.
Import Dec (Decimal).

Lemma decode_encode (t : Transaction) : decode (encode t) = Some t.
Proof. by destruct t. Qed.

Lemma decode_all_encode (ts : list Transaction) :
  decode_all (List.map encode ts) = Some ts.
Proof.
  induction ts as [|t ts IH]; [done|].
  cbn [List.map decode_all]. by rewrite decode_encode, IH.
Qed.

(** [save_data] writes every record of the store. *)
Lemma save_data_complete (w : PersonalWallet) (now : datetime) :
  exists kv l,
    data_file (save_data w now) = Content (JObj kv) /\
    Json.lookup "transactions" kv = Some (JList l) /\
    decode_all l = Some (transactions w).
Proof.
  eexists _, _. split; [reflexivity|]. split; [reflexivity|].
  apply decode_all_encode.
Qed.

(** A wallet started on the file written by [save_data] is in the state
    that was saved. *)
Lemma init_save (w : PersonalWallet) (now : datetime) :
  init (data_file (save_data w now)) = save_data w now.
Proof.
  unfold init, load_data, save_data, snapshot. cbn.
  rewrite decode_all_encode. cbn.
  rewrite !parse_str. reflexivity.
Qed.

(** *** Looking an identifier up *)

Lemma find_id_none (x : Z) (ts : list Transaction) :
  List.find (fun t => (t_id t =? x)%Z) ts = None <-> x ∉ List.map t_id ts.
Proof.
  induction ts as [|t ts IH]; simpl.
  - split; [intros _; apply not_elem_of_nil|done].
  - destruct (Z.eqb_spec (t_id t) x) as [E|E].
    + split; [done|]. intros H. exfalso. apply H. rewrite E. left.
    + rewrite IH, not_elem_of_cons. split; [by intros H; split|by intros [_ H]].
Qed.

Lemma find_id_some (x : Z) (ts : list Transaction) (t : Transaction) :
  List.find (fun t => (t_id t =? x)%Z) ts = Some t -> t ∈ ts /\ t_id t = x.
Proof.
  intros H. apply List.find_some in H. destruct H as [Hin He].
  split; [by apply list_elem_of_In|by apply Z.eqb_eq].
Qed.

Lemma filter_id_absent (x : Z) (ts : list Transaction) :
  x ∉ List.map t_id (List.filter (fun t => negb (t_id t =? x)%Z) ts).
Proof.
  induction ts as [|t ts IH]; simpl; [apply not_elem_of_nil|].
  destruct (Z.eqb_spec (t_id t) x) as [E|E]; simpl; [done|].
  rewrite not_elem_of_cons. auto.
Qed.

Lemma forall_list_filter {A} (P : A -> Prop) (f : A -> bool) (l : list A) :
  Forall P l -> Forall P (List.filter f l).
Proof.
  induction 1 as [|x l Hx _ IH]; simpl; [constructor|].
  destruct (f x); [by constructor|done].
Qed.

(** *** [delete_transaction] *)

Lemma delete_absent (w : PersonalWallet) (x : Z) (now : datetime) :
  x ∉ ids w ->
  delete_transaction w x now = (w, (false, "Transaction not found")).
Proof.
  intros H. unfold delete_transaction.
  apply find_id_none in H. by rewrite H.
Qed.

Lemma delete_present (w : PersonalWallet) (x : Z) (now : datetime) :
  Forall amount_readable (transactions w) ->
  x ∈ ids w ->
  exists w1,
    delete_transaction w x now = (w1, (true, "Transaction deleted successfully")) /\
    x ∉ ids w1.
Proof.
  intros Hr Hx. unfold delete_transaction.
  destruct (List.find _ (transactions w)) as [t|] eqn:Hf.
  - destruct (find_id_some _ _ _ Hf) as [Hin Hid].
    rewrite Forall_forall in Hr. destruct (Hr t Hin) as [a Ha].
    rewrite Ha. eexists. split; [reflexivity|].
    unfold ids. destruct (String.eqb (t_type t) "Income"); cbn; apply filter_id_absent.
  - apply find_id_none in Hf. done.
Qed.

(** *** [add_transaction] *)

(** A call that is refused changes nothing. *)
Lemma add_failure_keeps (w w' : PersonalWallet) (amount : option Decimal)
    (trans_type category description msg : string) (now now_save : datetime) :
  add_transaction w amount trans_type category description now now_save
  = (w', (false, msg)) -> w' = w.
Proof.
  unfold add_transaction. intros H.
  destruct amount as [a|]; [|by inversion H].
  destruct (Dec.leb a Dec.zero); [by inversion H|].
  destruct (String.eqb trans_type "income"); [by inversion H|].
  destruct (String.eqb trans_type "expense"); [|by inversion H].
  destruct (Dec.ltb (balance w) a); by inversion H.
Qed.

(** An accepted call appends one record, whose identifier is the number
    of records before the call plus one. *)
Lemma add_appends_with_length_id (w w' : PersonalWallet) (amount : option Decimal)
    (trans_type category description msg : string) (now now_save : datetime) :
  add_transaction w amount trans_type category description now now_save
  = (w', (true, msg)) ->
  exists t,
    transactions w' = transactions w ++ [t] /\
    t_id t = (Z.of_nat (List.length (transactions w)) + 1)%Z.
Proof.
  unfold add_transaction. intros H.
  destruct amount as [a|]; [|by inversion H].
  destruct (Dec.leb a Dec.zero); [by inversion H|].
  destruct (String.eqb trans_type "income").
  - inversion H. cbn. by eexists.
  - destruct (String.eqb trans_type "expense"); [|by inversion H].
    destruct (Dec.ltb (balance w) a); [by inversion H|].
    inversion H. cbn. by eexists.
Qed.

(** *** What the records of a run look like *)

Lemma step_records (P : Transaction -> Prop) (w : PersonalWallet) (o : op) :
  (forall a ty c d now now_save n,
     o = Add (Some a) ty c d now now_save -> P (new_transaction n a ty c d now)) ->
  Forall P (transactions w) -> Forall P (transactions (fst (step w o))).
Proof.
  intros Hnew Hw.
  destruct o as [amount ty c d now now_save|i now_save|amount now_save]; simpl.
  - unfold add_transaction.
    destruct amount as [a|]; [|done].
    destruct (Dec.leb a Dec.zero); [done|].
    destruct (String.eqb ty "income").
    + cbn. apply Forall_app; split; [done|].
      constructor; [|constructor]. by eapply Hnew.
    + destruct (String.eqb ty "expense"); [|done].
      destruct (Dec.ltb (balance w) a); [done|].
      cbn. apply Forall_app; split; [done|].
      constructor; [|constructor]. by eapply Hnew.
  - unfold delete_transaction.
    destruct (List.find _ (transactions w)) as [t|]; [|done].
    destruct (Dec.parse (bare_amount t)); [|done].
    destruct (String.eqb (t_type t) "Income"); cbn; by apply forall_list_filter.
  - unfold set_budget. by destruct amount.
Qed.

Lemma run_records (P : Transaction -> Prop) (ops : list op) (w : PersonalWallet) :
  (forall a ty c d now now_save n,
     Add (Some a) ty c d now now_save ∈ ops -> P (new_transaction n a ty c d now)) ->
  Forall P (transactions w) -> Forall P (transactions (run ops w)).
Proof.
  revert w. induction ops as [|o ops IH]; intros w Hnew Hw; [done|].
  cbn. apply IH.
  - intros a ty c d now now_save n Hin. eapply Hnew. right. exact Hin.
  - apply step_records; [|done].
    intros a ty c d now now_save n ->. eapply Hnew. left.
Qed.

Lemma new_transaction_from_add (n : nat) (a : Decimal)
    (ty c d : string) (now : datetime) :
  from_add (new_transaction n a ty c d now).
Proof.
  exists a. unfold new_transaction. cbn.
  destruct (String.eqb ty "income"); auto.
Qed.

Lemma from_add_readable (t : Transaction) : from_add t -> amount_readable t.
Proof.
  intros [a [[_ H]|[_ H]]]; eexists.
  - by eapply (bare_amount_written "+$"); [left|].
  - by eapply (bare_amount_written "-$"); [right|].
Qed.

(** Every record of a store built from the empty one is as
    [add_transaction] writes it, so its amount can be read back. *)
Lemma run_from_add (ops : list op) :
  Forall from_add (transactions (run ops empty)).
Proof.
  apply run_records; [|constructor].
  intros. apply new_transaction_from_add.
Qed.

Lemma run_amount_readable (ops : list op) :
  Forall amount_readable (transactions (run ops empty)).
Proof.
  eapply Forall_impl; [apply run_from_add|]. apply from_add_readable.
Qed.

(** With real clock readings, its date can be read back as well. *)
Lemma run_date_readable (ops : list op) :
  Forall clock_valid ops ->
  Forall date_readable (transactions (run ops empty)).
Proof.
  intros Hc. apply run_records; [|constructor].
  intros a ty c d now now_save n Hin.
  rewrite Forall_forall in Hc. specialize (Hc _ Hin). simpl in Hc.
  unfold date_readable, new_transaction. cbn.
  rewrite strptime_strftime by exact Hc. by eexists.
Qed.

End WalletFacts.

(* ------------------------------------------------------------------ *)
(** ** The projections *)

Section ProjectionFacts.
Import PyStr Time Wallet Ledger.
Import Dec (Decimal).

(** On readable records the loop of [get_monthly_data] ends without an
    exception, and the keys it has added are the months of the records. *)
Lemma monthly_loop_some (ts : list Transaction) (m : gmap string MonthData) :
  Forall date_readable ts -> Forall amount_readable ts ->
  exists m', monthly_loop ts m = Some m' /\
             dom m' = dom m ∪ list_to_set (omap month_key ts).
Proof.
  intros Hd. revert m. induction Hd as [|t ts [dt Hdt] _ IH]; intros m Ha.
  - exists m. split; [done|]. cbn. by rewrite (right_id_L ∅ (∪)).
  - apply Forall_cons in Ha. destruct Ha as [[a Ha] Hts].
    cbn [monthly_loop]. rewrite Hdt. cbn.
    unfold float_of_string. rewrite Ha. cbn.
    match goal with
    | |- exists m', monthly_loop ts ?M = Some m' /\ _ =>
        destruct (IH M Hts) as (m' & Hm' & Hdom)
    end.
    exists m'. split; [exact Hm'|].
    rewrite Hdom, dom_insert_L. unfold month_key at 2. rewrite Hdt. cbn.
    rewrite (comm_L (∪) {[strftime_Ym dt]} (dom m)).
    by rewrite <- (assoc_L (∪)).
Qed.

(** The expense sums read every record written by [add_transaction]. *)
Lemma amounts_expense_some (p : Transaction -> bool) (ts : list Transaction) :
  (forall t, p t = true -> is_expense t = true) ->
  Forall from_add ts ->
  is_Some (amounts p expense_text ts).
Proof.
  intros Hp Hts. induction Hts as [|t ts Ht _ IH]; [by eexists|].
  cbn [amounts]. destruct (p t) eqn:Hpt; [|exact IH].
  destruct IH as [l Hl]. rewrite Hl.
  destruct Ht as [a [[Hty _]|[_ Ham]]].
  - apply Hp in Hpt. unfold is_expense in Hpt. rewrite Hty in Hpt. done.
  - rewrite (expense_text_written a t Ham). by eexists.
Qed.

Lemma month_expenses_some (w : PersonalWallet) (now : datetime) :
  Forall from_add (transactions w) -> is_Some (month_expenses w now).
Proof.
  intros H. unfold month_expenses.
  destruct (amounts_expense_some
              (fun t => is_expense t && startswith (t_date t) (strftime_Ym now))
              (transactions w)) as [l Hl]; [|exact H|].
  - intros t Ht. by apply andb_true_iff in Ht as [Ht _].
  - rewrite Hl. by eexists.
Qed.

End ProjectionFacts.

(* ================================================================== *)
(** * The properties of the record store *)

(** Evaluates the list of records of a concrete store in the goal. *)
Ltac records :=
  match goal with
  | |- Forall ?P (Wallet.transactions ?w) =>
      let ts := eval vm_compute in (Wallet.transactions w) in
      change (Forall P ts)
  end.

Section LedgerProperties.
Import PyStr Time Wallet Ledger.
Import Dec (Decimal).

(** C1. The balance is meant to be the sum of the signed amounts of the
    records present. It is not after this run of five accepted
    operations: the third record gets the identifier 2 again, deleting 2
    then removes both records that carry it and takes back the amount of
    the first one only. The store is empty and the balance is $5.00. *)
Theorem balance_drifts_after_id_reuse :
  let ops := [earn 1000; earn 2000; remove 1; earn 500; remove 2] in
  let w := run ops empty in
  all_ok ops empty = true /\
  transactions w = [] /\
  ledger_sum w = Some Dec.zero /\
  get_balance w = "$5.00" /\
  Dec.eqb (balance w) Dec.zero = false.
Proof. vm_compute. repeat split. Qed.

(** So the balance is not the ledger sum after every run of accepted
    operations. *)
Lemma balance_is_not_always_ledger_sum :
  ~ (forall ops s,
       all_ok ops empty = true ->
       ledger_sum (run ops empty) = Some s ->
       Dec.eqb (balance (run ops empty)) s = true).
Proof.
  intros H.
  specialize (H [earn 1000; earn 2000; remove 1; earn 500; remove 2] Dec.zero).
  vm_compute in H. by specialize (H eq_refl eq_refl).
Qed.

(** A second way to the same drift: the record keeps the amount rounded
    to two places, the balance the amount as given; deleting takes back
    the rounded one. *)
Lemma balance_drifts_below_a_cent :
  let ops := [Add (Some (dec 1 (-3))) "income" "Other" "" noon noon; remove 1] in
  let w := run ops empty in
  all_ok ops empty = true /\
  transactions w = [] /\
  balance w = dec 1 (-3) /\
  Dec.eqb (balance w) Dec.zero = false.
Proof. vm_compute. repeat split. Qed.

(** C2. Identifiers are meant to be distinct and never given twice. The
    next identifier is the number of records plus one, so after a
    deletion it is given again: here two records carry the identifier
    2. *)
Theorem ids_reused_after_delete :
  let ops := [earn 1000; earn 2000; remove 1; earn 500] in
  all_ok ops empty = true /\
  ids (run ops empty) = [2; 2]%Z /\
  ~ NoDup (ids (run ops empty)).
Proof.
  split; [|split]; [by vm_compute|by vm_compute|].
  intros H. vm_compute in H. apply NoDup_cons in H. destruct H as [H _].
  apply H. left.
Qed.

(** C3, as stated, fails where the amount is not positive: on a store
    with a negative balance, an expense of 0 is above the balance and is
    refused for its amount, not for the balance. *)
Lemma zero_expense_on_overdrawn_store :
  let w := run [earn 1000; spend 1000; remove 1] empty in
  Dec.ltb (balance w) (dec 0 0) = true /\
  add_transaction w (Some (dec 0 0)) "expense" "Food" "" noon noon
  = (w, (false, "Amount must be greater than 0")).
Proof. vm_compute. split; reflexivity. Qed.

(** C3, amended. In every state, an expense of a positive amount above
    the balance is refused with the insufficient-balance message, and the
    state after the call is the state before it: same balance, same
    records. *)
Theorem expense_above_balance_rejected (w : PersonalWallet) (amount : Decimal)
    (category description : string) (now now_save : datetime) :
  Dec.ltb Dec.zero amount = true ->
  Dec.ltb (balance w) amount = true ->
  exists w',
    add_transaction w (Some amount) "expense" category description now now_save
    = (w', (false, "Insufficient balance for this expense")) /\
    w' = w /\
    get_balance w' = get_balance w /\
    List.length (transactions w') = List.length (transactions w).
Proof.
  intros Hpos Hgt. exists w. split; [|done].
  unfold add_transaction.
  rewrite (ltb_not_leb _ _ Hpos). cbn. by rewrite Hgt.
Qed.

Lemma expense_above_balance_rejected_witness :
  exists w',
    add_transaction (run [earn 1000] empty) (Some (dec 5000 (-2)))
                    "expense" "Food" "" noon noon
    = (w', (false, "Insufficient balance for this expense")) /\
    w' = run [earn 1000] empty /\
    get_balance w' = get_balance (run [earn 1000] empty) /\
    List.length (transactions w') = List.length (transactions (run [earn 1000] empty)).
Proof.
  apply (expense_above_balance_rejected (run [earn 1000] empty) (dec 5000 (-2)));
    vm_compute; reflexivity.
Defined.

(** C5. Saving and loading gives the state back: a wallet started on the
    file written by [save_data] has the same records, field for field,
    and the same balance and budget with the same sign, digits and
    exponent. *)
Theorem save_load_roundtrip (w : PersonalWallet) (now : datetime) :
  let w' := init (data_file (save_data w now)) in
  transactions w' = transactions w /\
  balance w' = balance w /\
  budget w' = budget w /\
  w' = save_data w now.
Proof. cbv zeta. by rewrite init_save. Qed.

(** C6, as stated, fails on the empty store: a window of six months has
    no key at all. *)
Lemma empty_store_has_no_months : get_monthly_data empty 6 = Some [].
Proof. by vm_compute. Qed.

(** A month without a record between two months with records is not
    filled in either. *)
Lemma gap_months_do_not_appear :
  List.map fst <$> get_monthly_data (run [earn 1000; earn_in_june 500] empty) 6
  = Some ["2024-03"; "2024-06"].
Proof. by vm_compute. Qed.

(** C6, amended. For a window of [n >= 1] months over readable records,
    [get_monthly_data] returns the [n] latest months that have a record,
    or all of them when there are fewer: as many keys as the smaller of
    [n] and the number of such months, in strictly ascending order, each
    the month of some record, and every month left out is before every
    month returned. A month without a record never appears. *)
Theorem monthly_window_keys (w : PersonalWallet) (n : Z) :
  (0 < n)%Z ->
  Forall date_readable (transactions w) ->
  Forall amount_readable (transactions w) ->
  exists res,
    get_monthly_data w n = Some res /\
    List.length res = Nat.min (Z.to_nat n) (size (active_months w)) /\
    StronglySorted str_lt (res.*1) /\
    (forall k, k ∈ res.*1 -> k ∈ active_months w) /\
    (forall k k', k ∈ active_months w -> k ∉ res.*1 -> k' ∈ res.*1 -> str_lt k k').
Proof.
  intros Hn Hd Ha.
  destruct (monthly_loop_some (transactions w) ∅ Hd Ha) as (m & Hm & Hdom).
  rewrite dom_empty_L, (left_id_L ∅ (∪)) in Hdom.
  fold (active_months w) in Hdom.
  unfold get_monthly_data. rewrite Hm. cbn.
  set (L := merge_sort str_le (map_to_list m).*1).
  assert (HP : L ≡ₚ (map_to_list m).*1) by apply merge_sort_Permutation.
  assert (Hnd : NoDup L) by (rewrite HP; apply NoDup_fst_map_to_list).
  assert (Hss : StronglySorted str_lt L).
  { apply strongly_sorted_strict; [|done]. apply StronglySorted_merge_sort; apply _. }
  assert (Hin : forall k, k ∈ L <-> k ∈ active_months w).
  { intros k. rewrite HP, <- Hdom, dom_alt. by rewrite elem_of_list_to_set. }
  assert (Hlen : List.length L = size (active_months w)).
  { rewrite <- Hdom, size_dom, HP, length_fmap. apply length_map_to_list. }
  set (res := List.map (fun k : string => (k, default month_zero (m !! k)))
                       (slice_from (- n) L)).
  assert (Hkeys : res.*1 = slice_from (- n) L) by apply keys_of_pairs.
  exists res. split; [reflexivity|]. rewrite Hkeys.
  split; [|split; [|split]].
  - unfold res. rewrite length_map, slice_last_length, Hlen by done. reflexivity.
  - destruct (slice_from_drop (- n) L) as [j ->].
    by apply strongly_sorted_drop.
  - intros k Hk. apply Hin.
    destruct (slice_from_drop (- n) L) as [j Hj]. rewrite Hj in Hk.
    rewrite <- (take_drop j L). apply elem_of_app. by right.
  - intros k k' Hk Hnot Hk'.
    destruct (slice_from_drop (- n) L) as [j Hj]. rewrite Hj in Hnot, Hk'.
    apply Hin in Hk. rewrite <- (take_drop j L) in Hk, Hss.
    apply elem_of_app in Hk. destruct Hk as [Hk|Hk]; [|done].
    by apply (StronglySorted_app_1_elem_of _ _ _ _ _ Hss).
Qed.

Lemma monthly_window_keys_witness :
  exists res,
    get_monthly_data (run [earn 1000; earn_in_april 500] empty) 1 = Some res /\
    List.length res
    = Nat.min (Z.to_nat 1) (size (active_months (run [earn 1000; earn_in_april 500] empty))) /\
    StronglySorted str_lt (res.*1) /\
    (forall k, k ∈ res.*1 -> k ∈ active_months (run [earn 1000; earn_in_april 500] empty)) /\
    (forall k k', k ∈ active_months (run [earn 1000; earn_in_april 500] empty) ->
                  k ∉ res.*1 -> k' ∈ res.*1 -> str_lt k k').
Proof.
  apply (monthly_window_keys (run [earn 1000; earn_in_april 500] empty) 1).
  - lia.
  - records. repeat (constructor; [eexists; vm_compute; reflexivity|]). constructor.
  - records. repeat (constructor; [eexists; vm_compute; reflexivity|]). constructor.
Defined.

(** Deleting twice, on any store whose amounts can be read back. *)
Lemma delete_twice_readable (w : PersonalWallet) (x : Z) (now now' : datetime) :
  Forall amount_readable (transactions w) ->
  x ∈ ids w ->
  exists w1,
    delete_transaction w x now = (w1, (true, "Transaction deleted successfully")) /\
    delete_transaction w1 x now' = (w1, (false, "Transaction not found")).
Proof.
  intros Hr Hx. destruct (delete_present w x now Hr Hx) as (w1 & Hdel & Hgone).
  exists w1. split; [exact Hdel|]. by apply delete_absent.
Qed.

(** C7, as stated, fails on a store that holds a record whose amount
    is not a numeral, as a wallet started on an edited data file does:
    the identifier is present, and [delete_transaction] is refused with
    the text of the conversion error, which its [except] clause catches;
    the store is as it was. *)
Lemma unreadable_amount_blocks_delete :
  let w := init (Content (JObj
             [("transactions",
               JList [encode (mkT 1 "+$abc" 10 "Income" "Salary" "No description"
                                  "2024-03-05 12:00:00")]);
              ("balance", JStr "10.00"); ("budget", JStr "0.00")])) in
  1%Z ∈ ids w /\
  delete_transaction w 1 noon = (w, (false, conversion_syntax)).
Proof. vm_compute. split; [left|reflexivity]. Qed.

(** C7, amended. In every store built from the empty one by a moderate
    history (at most 100000 operations whose amounts are finite, with an
    exponent of at least -1000 and below 10^1000 in size, so that no
    result reaches the exponent limits of the context), deleting an
    identifier that is present succeeds, and deleting it again at once
    is refused with the not-found message and returns the state it was
    given, so the balance is as it was; deleting an absent identifier is
    refused in the same way and changes nothing. *)
Theorem delete_then_not_found (ops : list op) (x : Z) (now now' : datetime) :
  Accounts.moderate_history ops = true ->
  let w := run ops empty in
  (x ∈ ids w ->
   exists w1,
     delete_transaction w x now = (w1, (true, "Transaction deleted successfully")) /\
     delete_transaction w1 x now' = (w1, (false, "Transaction not found")) /\
     get_balance (fst (delete_transaction w1 x now')) = get_balance w1) /\
  (x ∉ ids w ->
   delete_transaction w x now = (w, (false, "Transaction not found"))).
Proof.
  intros _. cbv zeta. split.
  - intros Hx.
    destruct (delete_twice_readable (run ops empty) x now now'
                (run_amount_readable ops) Hx) as (w1 & Hdel & Hagain).
    exists w1. split; [exact Hdel|]. split; [exact Hagain|]. by rewrite Hagain.
  - apply delete_absent.
Qed.

Lemma delete_then_not_found_witness :
  exists w1,
    delete_transaction (run [earn 1000; spend 250] empty) 1 noon
    = (w1, (true, "Transaction deleted successfully")) /\
    delete_transaction w1 1 april = (w1, (false, "Transaction not found")) /\
    get_balance (fst (delete_transaction w1 1 april)) = get_balance w1.
Proof.
  apply (delete_then_not_found [earn 1000; spend 250] 1 noon april).
  - reflexivity.
  - vm_compute. left.
Defined.

(** C8. The sums per category and per month are meant to be exact
    decimals. They are binary floating-point sums: for expenses of 0.10
    and 0.20 the statistics, which add Decimals, give 0.30, whose nearest
    float is 0x1.3333333333333p-2, while the category total and the month
    total are the next float up, 0.30000000000000004. All three come from
    the same records; the defect is the [float] accumulation of
    [get_expense_by_category] and [get_monthly_data]. *)
Theorem category_totals_are_binary_floats :
  let w := run [earn 3000; spend 10; spend 20] empty in
  total_expenses w = Some (dec 30 (-2)) /\
  Dec.to_float (dec 30 (-2)) = 0x1.3333333333333p-2%float /\
  (get_expense_by_category w ≫= (fun m => m !! "Food"))
    = Some 0x1.3333333333334p-2%float /\
  (expense <$> (get_monthly_data w 6 ≫= (fun l => snd <$> head l)))
    = Some 0x1.3333333333334p-2%float /\
  PrimFloat.ltb 0x1.3333333333333p-2 0x1.3333333333334p-2 = true.
Proof. vm_compute. repeat split. Qed.

(** C9, as stated, fails for a negative budget: the status is returned
    with a percentage of 0, not [spent / budget * 100], which is -0.3
    here. *)
Lemma negative_budget_reports_zero_percent :
  let w := run [earn 3000; spend 30; budget_of (Dec.mk true 100 0)] empty in
  get_budget_status w noon
  = Some (Some (mkB (Dec.mk true 100 0) (dec 30 (-2)) (Dec.mk true 10030 (-2))
                    PrimFloat.zero)) /\
  b_percentage (budget_status_spec (budget w) (dec 30 (-2)))
  = (- 0x1.3333333333333p-2)%float.
Proof. vm_compute. split; reflexivity. Qed.

(** The status on any store whose records are as [add_transaction]
    writes them. *)
Lemma budget_status_on_written (w : PersonalWallet) (now : datetime) :
  Forall from_add (transactions w) ->
  exists spent,
    month_expenses w now = Some spent /\
    get_budget_status w now
    = Some (if Dec.eqb (budget w) Dec.zero then None
            else Some (if Dec.ltb Dec.zero (budget w)
                       then budget_status_spec (budget w) spent
                       else mkB (budget w) spent (Dec.sub (budget w) spent)
                                PrimFloat.zero)).
Proof.
  intros Hw. destruct (month_expenses_some w now Hw) as [spent Hs].
  exists spent. split; [exact Hs|].
  unfold get_budget_status. rewrite Hs. cbn.
  destruct (Dec.eqb (budget w) Dec.zero); [done|].
  by destruct (Dec.ltb Dec.zero (budget w)).
Qed.

(** The amounts that [amounts] returns are those of the selected
    records, in their order. *)
Lemma amounts_selected (p : Transaction -> bool) (strip : Transaction -> string)
    (ts : list Transaction) (l : list Decimal) :
  amounts p strip ts = Some l ->
  Forall2 (fun t a => Dec.parse (strip t) = Some a) (List.filter p ts) l.
Proof.
  revert l. induction ts as [|t ts IH]; intros l H; cbn in H.
  - injection H as <-. constructor.
  - cbn [List.filter]. destruct (p t); [|by apply IH].
    destruct (Dec.parse (strip t)) as [a|] eqn:Ha; [|done].
    destruct (amounts p strip ts) as [l'|]; [|done].
    injection H as <-. constructor; [exact Ha|by apply IH].
Qed.

(** C9, amended. In every store built from the empty one by a moderate
    history (at most 100000 operations whose amounts and budgets are
    finite, with an exponent of at least -1000 and below 10^1000 in
    size, so that no result reaches the exponent limits of the context)
    the status is computed, and it is the none-value exactly when the
    budget equals zero, the value that stands for no budget. Otherwise
    it holds the spending of the month, which is the sum of the amounts
    read from the expense records dated in the month of the clock,
    [budget - spent], and as percentage [spent / budget * 100] for a
    positive budget and 0 for a negative one. The clock readings are
    dates from the year 1000 on, which [strftime] writes with four
    digits. *)
Theorem budget_status_cases (ops : list op) (now : datetime) :
  Accounts.moderate_history ops = true ->
  Forall clock_valid ops -> valid now = true ->
  let w := run ops empty in
  exists (spent : Decimal) (read : list Decimal),
    Forall2 (fun t a => Dec.parse (expense_text t) = Some a)
            (List.filter (fun t => is_expense t && startswith (t_date t) (strftime_Ym now))
                         (transactions w))
            read /\
    spent = Dec.sum read /\
    month_expenses w now = Some spent /\
    get_budget_status w now
    = Some (if Dec.eqb (budget w) Dec.zero then None
            else Some (if Dec.ltb Dec.zero (budget w)
                       then budget_status_spec (budget w) spent
                       else mkB (budget w) spent (Dec.sub (budget w) spent)
                                PrimFloat.zero)) /\
    (get_budget_status w now = Some None <-> Dec.eqb (budget w) Dec.zero = true).
Proof.
  intros _ _ _. cbv zeta.
  destruct (budget_status_on_written (run ops empty) now (run_from_add ops))
    as (spent & Hs & Hst).
  unfold month_expenses in Hs.
  destruct (amounts _ expense_text (transactions (run ops empty))) as [read|] eqn:Hr;
    [|done].
  cbn in Hs. injection Hs as <-.
  exists (Dec.sum read), read. split; [by apply amounts_selected|]. split; [done|].
  split; [unfold month_expenses; by rewrite Hr|]. split; [exact Hst|].
  rewrite Hst. destruct (Dec.eqb (budget (run ops empty)) Dec.zero); by split.
Qed.

Lemma budget_status_cases_witness :
  let w := run [earn 3000; spend 30; budget_of (dec 7 0)] empty in
  exists (spent : Decimal) (read : list Decimal),
    Forall2 (fun t a => Dec.parse (expense_text t) = Some a)
            (List.filter (fun t => is_expense t && startswith (t_date t) (strftime_Ym noon))
                         (transactions w))
            read /\
    spent = Dec.sum read /\
    month_expenses w noon = Some spent /\
    get_budget_status w noon
    = Some (if Dec.eqb (budget w) Dec.zero then None
            else Some (if Dec.ltb Dec.zero (budget w)
                       then budget_status_spec (budget w) spent
                       else mkB (budget w) spent (Dec.sub (budget w) spent)
                                PrimFloat.zero)) /\
    (get_budget_status w noon = Some None <-> Dec.eqb (budget w) Dec.zero = true).
Proof.
  apply (budget_status_cases [earn 3000; spend 30; budget_of (dec 7 0)] noon).
  - reflexivity.
  - repeat constructor.
  - reflexivity.
Defined.

(** The status for a budget of 7 with 0.30 spent: 4.2857...%. *)
Lemma budget_status_at_seven :
  let w := run [earn 3000; spend 30; budget_of (dec 7 0)] empty in
  get_budget_status w noon
  = Some (Some (budget_status_spec (dec 7 0) (dec 30 (-2)))) /\
  budget_status_spec (dec 7 0) (dec 30 (-2))
  = mkB (dec 7 0) (dec 30 (-2)) (dec 670 (-2)) 0x1.1249249249249p+2%float.
Proof. vm_compute. split; reflexivity. Qed.

(** C10. Deleting does not check the balance. In the store with an income
    of 10.00 and an expense of 10.00 the balance, 0.00, is below the
    amount of the income record; deleting that record succeeds and leaves
    the balance at -10.00. *)
Theorem delete_income_overdraws :
  exists (w w' : PersonalWallet) (t : Transaction) (a : Decimal),
    w = run [earn 1000; spend 1000] empty /\
    t ∈ transactions w /\ t_type t = "Income" /\
    signed_amount t = Some a /\ Dec.ltb (balance w) a = true /\
    delete_transaction w (t_id t) noon = (w', (true, "Transaction deleted successfully")) /\
    Dec.ltb (balance w') Dec.zero = true /\ get_balance w' = "$-10.00".
Proof.
  exists (run [earn 1000; spend 1000] empty),
         (fst (delete_transaction (run [earn 1000; spend 1000] empty) 1 noon)),
         (mkT 1 "+$10.00" 10 "Income" "Salary" "No description" "2024-03-05 12:00:00"),
         (dec 1000 (-2)).
  split; [reflexivity|]. split; [vm_compute; left|].
  repeat split; vm_compute; reflexivity.
Qed.

End LedgerProperties.

(* ================================================================== *)
(** * The task panel *)

Section PanelFacts.
Import PyStr Time Panel Board.

Lemma of_chars_inj (l1 l2 : list ascii) : of_chars l1 = of_chars l2 -> l1 = l2.
Proof.
  intros H. apply (f_equal chars) in H. by rewrite !chars_of_chars in H.
Qed.

Lemma digits_inj (a b : N) : digits a = digits b -> a = b.
Proof.
  intros H. apply (f_equal int_of_digits) in H.
  by rewrite !int_of_digits_digits in H.
Qed.

Lemma digits_head_not_minus (n : N) (l : list ascii) :
  digits n <> "-"%char :: l.
Proof.
  intros H. pose proof (digits_all_digit n) as Hd.
  rewrite H in Hd. by inversion Hd.
Qed.

(** Distinct identifiers give distinct rows. *)
Lemma str_of_int_inj (a b : Z) : str_of_int a = str_of_int b -> a = b.
Proof.
  unfold str_of_int. intros H. apply of_chars_inj in H.
  destruct (Z.ltb_spec a 0), (Z.ltb_spec b 0); simpl in H.
  - injection H as H. apply digits_inj in H. lia.
  - symmetry in H. by apply digits_head_not_minus in H.
  - by apply digits_head_not_minus in H.
  - apply digits_inj in H. lia.
Qed.

Lemma rebuild_loop_snoc (p : TaskPanel) (its : list Item) (it : Item) :
  rebuild_loop p (its ++ [it])
  = let '(m, t) := rebuild_loop p its in
    if _passes_filters p it
    then (<[str_of_int (i_id it) := meta_of it]> m, t ++ [str_of_int (i_id it)])
    else (m, t).
Proof.
  unfold rebuild_loop. rewrite fold_left_app. simpl.
  by destruct (fold_left _ its _).
Qed.

Lemma filter_snoc {A} (f : A -> bool) (l : list A) (x : A) :
  List.filter f (l ++ [x]) = List.filter f l ++ (if f x then [x] else []).
Proof. rewrite List.filter_app. simpl. by destruct (f x). Qed.

Lemma omap_ext_in {A B} (f g : A -> option B) (l : list A) :
  (forall x, x ∈ l -> f x = g x) -> omap f l = omap g l.
Proof.
  induction l as [|x l IH]; intros H; [done|].
  cbn. rewrite (H x) by left. rewrite IH; [done|].
  intros y Hy. apply H. by right.
Qed.

(** The rows of the tree are those of the items that pass the filters,
    and their snapshots are found under them. *)
Lemma rebuild_loop_view (p : TaskPanel) (its : list Item) :
  NoDup (List.map i_id its) ->
  let '(m, t) := rebuild_loop p its in
  t = List.map (fun it => str_of_int (i_id it)) (List.filter (_passes_filters p) its) /\
  omap (fun k => m !! k) t = List.map meta_of (List.filter (_passes_filters p) its).
Proof.
  induction its as [|it its IH] using rev_ind; intros Hnd; [done|].
  rewrite rebuild_loop_snoc.
  rewrite map_app in Hnd. apply NoDup_app in Hnd. destruct Hnd as (Hnd & Hfresh & _).
  specialize (IH Hnd). destruct (rebuild_loop p its) as [m t].
  destruct IH as [Ht Hm]. rewrite filter_snoc.
  destruct (_passes_filters p it); [|by rewrite !app_nil_r].
  rewrite !map_app. simpl. split; [by rewrite Ht|].
  rewrite omap_app. cbn. rewrite lookup_insert_eq. cbn. f_equal.
  rewrite <- Hm. apply omap_ext_in.
  intros k Hk. apply lookup_insert_ne. intros <-.
  rewrite Ht in Hk. apply list_elem_of_In, in_map_iff in Hk.
  destruct Hk as (it' & Hkey & Hin). apply str_of_int_inj in Hkey.
  apply List.filter_In in Hin. destruct Hin as [Hin _].
  apply (Hfresh (i_id it)).
  - rewrite <- Hkey. apply list_elem_of_In, in_map. exact Hin.
  - left.
Qed.

(** *** The states of a session *)

Lemma rebuild_in_sync (p : TaskPanel) : in_sync (_rebuild_tree p).
Proof.
  unfold in_sync, _rebuild_tree.
  destruct (rebuild_loop p (items p)) as [m t] eqn:E. exact E.
Qed.

Lemma save_in_sync (p : TaskPanel) : in_sync p -> in_sync (save_tasks p).
Proof. intros H. exact H. Qed.

Lemma rebuild_fresh (p : TaskPanel) : fresh_ids p -> fresh_ids (_rebuild_tree p).
Proof.
  unfold fresh_ids, _rebuild_tree. by destruct (rebuild_loop p (items p)).
Qed.

Lemma load_loop_fresh (now : datetime) (ts : list json) (its : list Item) (nid : Z) :
  NoDup (List.map i_id its) ->
  Forall (fun it => (i_id it < nid)%Z) its ->
  let '(its', nid') := load_loop now ts its nid in
  NoDup (List.map i_id its') /\ Forall (fun it => (i_id it < nid')%Z) its'.
Proof.
  revert its nid. induction ts as [|t ts IH]; intros its nid Hnd Hlt; [done|].
  cbn [load_loop]. destruct (load_item nid now t) as [it|] eqn:E; [|done].
  assert (Hid : i_id it = nid).
  { unfold load_item in E. destruct t; try done.
    repeat match type of E with
           | context [str_field ?k ?kv ?d] => destruct (str_field k kv d); [|done]
           end.
    cbn in E. by inversion E. }
  apply IH.
  - rewrite map_app. apply NoDup_app. split; [done|]. split.
    + intros x Hx Hx'. cbn in Hx'. apply list_elem_of_singleton in Hx'. subst x.
      apply list_elem_of_In, in_map_iff in Hx. destruct Hx as (u & Hu & Hin).
      rewrite Forall_forall in Hlt. apply list_elem_of_In, Hlt in Hin. lia.
    + cbn. apply NoDup_singleton.
  - apply Forall_app. split.
    + eapply Forall_impl; [exact Hlt|]. cbn. intros; lia.
    + constructor; [lia|constructor].
Qed.

Lemma toggle_first_ids (iid : Z) (its : list Item) :
  List.map i_id (toggle_first iid its) = List.map i_id its.
Proof.
  induction its as [|it its IH]; [done|]. cbn.
  destruct (i_id it =? iid)%Z; cbn; [done|by rewrite IH].
Qed.

Lemma fresh_ids_with (p : TaskPanel) (its : list Item) (nid : Z) :
  NoDup (List.map i_id its) -> Forall (fun it => (i_id it < nid)%Z) its ->
  fresh_ids (save_tasks (_rebuild_tree (with_items its nid p))).
Proof.
  intros Hnd Hlt. unfold fresh_ids, save_tasks, _rebuild_tree.
  by destruct (rebuild_loop _ _).
Qed.

Lemma init_good (f : file) (now : datetime) :
  fresh_ids (init f now) /\ in_sync (init f now).
Proof.
  unfold init, load_tasks. cbn [data_file].
  destruct f as [| |j].
  - split; [apply rebuild_fresh|apply rebuild_in_sync]. split; [constructor|constructor].
  - split; [apply rebuild_fresh|apply rebuild_in_sync]. split; [constructor|constructor].
  - assert (Hnil : forall q, items q = [] -> fresh_ids q)
      by (intros q Hq; unfold fresh_ids; rewrite Hq; split; constructor).
    destruct j; try (split; [apply rebuild_fresh, Hnil; reflexivity|apply rebuild_in_sync]).
    pose proof (load_loop_fresh now l [] 1 (NoDup_nil_2) (Forall_nil_2 _)) as H.
    destruct (load_loop now l [] 1) as [its nid].
    split; [apply rebuild_fresh; exact H|apply rebuild_in_sync].
Qed.

Lemma act_good (p : TaskPanel) (a : action) :
  fresh_ids p /\ in_sync p -> fresh_ids (act p a) /\ in_sync (act p a).
Proof.
  intros Hp. pose proof Hp as [[Hnd Hlt] Hs].
  destruct a as [t c pr now|sel|confirmed|sel|q st cat|]; cbn [act].
  - unfold add_task.
    destruct (String.eqb (strip t) ""); [exact Hp|].
    destruct (String.eqb (strip c) "Category"); [exact Hp|].
    split; [|apply save_in_sync, rebuild_in_sync].
    apply fresh_ids_with.
    + rewrite map_app. apply NoDup_app. split; [done|]. split; [|apply NoDup_singleton].
      intros x Hx Hx'. cbn in Hx'. apply list_elem_of_singleton in Hx'. subst x.
      apply list_elem_of_In, in_map_iff in Hx. destruct Hx as (u & Hu & Hin).
      rewrite Forall_forall in Hlt. apply list_elem_of_In, Hlt in Hin. lia.
    + apply Forall_app. split.
      * eapply Forall_impl; [exact Hlt|]. cbn. intros; lia.
      * constructor; [cbn; lia|constructor].
  - unfold delete_selected. destruct sel; [exact Hp|].
    split; [|apply save_in_sync, rebuild_in_sync].
    apply fresh_ids_with.
    + clear -Hnd. induction (items p) as [|it its IH]; [done|].
      cbn in *. apply NoDup_cons in Hnd. destruct Hnd as [Hx Hnd].
      destruct (negb _); cbn; [|by apply IH].
      apply NoDup_cons. split; [|by apply IH].
      intros Hin. apply Hx.
      apply list_elem_of_In, in_map_iff in Hin. destruct Hin as (u & Hu & Hin).
      apply List.filter_In in Hin. destruct Hin as [Hin _].
      rewrite <- Hu. by apply list_elem_of_In, in_map.
    + clear -Hlt. induction Hlt as [|it its Hit _ IH]; [constructor|].
      cbn. destruct (negb _); [by constructor|done].
  - unfold clear_all. destruct (items p); [exact Hp|].
    destruct confirmed; [|exact Hp].
    split; [|apply save_in_sync, rebuild_in_sync].
    apply fresh_ids_with; constructor.
  - unfold mark_one. destruct sel as [|s [|]]; try exact Hp.
    destruct (int_of_str s); [|exact Hp].
    split; [|apply save_in_sync, rebuild_in_sync].
    apply fresh_ids_with.
    + by rewrite toggle_first_ids.
    + clear -Hlt. induction Hlt as [|it its Hit Hrest IH]; [constructor|].
      cbn. destruct (i_id it =? z)%Z; by constructor.
  - split; [by apply rebuild_fresh|apply rebuild_in_sync].
  - exact Hp.
Qed.

Lemma play_good (f : file) (now : datetime) (acts : list action) :
  fresh_ids (play f now acts) /\ in_sync (play f now acts).
Proof.
  unfold play. generalize (init_good f now). generalize (init f now).
  induction acts as [|a acts IH]; intros p Hp; [done|].
  cbn. apply IH. by apply act_good.
Qed.
(** What [save_tasks] writes after a rebuild: the items that pass the
    filters, and no other. *)
Lemma save_writes_the_view (p : TaskPanel) :
  NoDup (List.map i_id (items p)) ->
  records_on_file (save_tasks (_rebuild_tree p))
  = List.map meta_of (List.filter (_passes_filters p) (items p)).
Proof.
  intros Hnd. pose proof (rebuild_loop_view p (items p) Hnd) as H.
  unfold _rebuild_tree. destruct (rebuild_loop p (items p)) as [m t].
  destruct H as [_ H]. exact H.
Qed.
(** In every state of a session, what [save_tasks] writes is the view:
    the records of the items that pass the filters in force. Items hidden
    by a filter are not written. *)
Lemma save_writes_only_the_view (f : file) (now : datetime) (acts : list action) :
  let p := play f now acts in
  records_on_file (save_tasks p)
  = List.map meta_of (List.filter (_passes_filters p) (items p)).
Proof.
  cbv zeta. destruct (play_good f now acts) as [[Hnd _] Hs].
  pose proof (rebuild_loop_view (play f now acts) _ Hnd) as H.
  unfold in_sync in Hs. rewrite Hs in H. destruct H as [_ H]. exact H.
Qed.

End PanelFacts.

Section PanelProperties.
Import Panel Board.

(** C4. Saving is meant to write every record of the store, whatever the
    view shows. [save_tasks] writes the rows of the tree, and the tree
    holds only the items that pass the filters: with two tasks in the
    store and the category filter on the first one, the file gets one
    record, and a panel started on that file has lost the other task.
    (The wallet's [save_data] writes all of [self.transactions].) *)
Theorem filtered_save_drops_records :
  let p := save_tasks filtered in
  List.length (items p) = 2%nat /\
  List.length (records_on_file two_tasks) = 2%nat /\
  List.length (records_on_file p) = 1%nat /\
  List.length (items (init (data_file p) noon)) = 1%nat.
Proof. vm_compute. repeat split. Qed.

(** The save that follows every change does the same: a task added while
    a filter hides it is in the store and not in the file. *)
Lemma autosave_under_filter_drops_records :
  List.length (items third_added) = 3%nat /\
  records_on_file third_added = [meta_of (mkItem 1 "Home" "Medium" "Sweep" "2024-03-05 12:00" false)].
Proof. vm_compute. split; reflexivity. Qed.

End PanelProperties.

(* ================================================================== *)
(** * Further properties of the code *)

(* ------------------------------------------------------------------ *)
(** ** The order of the listings *)

Section ListingFacts.
Import PyStr Time Wallet Ledger Listing.
Context {A : Type} (key : A -> Z).

Lemma insert_desc_perm (x : A) (l : list A) : insert_desc key x l ≡ₚ x :: l.
Proof.
  induction l as [|y l IH]; [done|]. simpl.
  destruct (key y <=? key x)%Z; [done|].
  rewrite IH. apply Permutation_swap.
Qed.

Lemma sorted_desc_perm (l : list A) : sorted_desc key l ≡ₚ l.
Proof.
  induction l as [|x l IH]; [done|].
  cbn [sorted_desc foldr]. fold (sorted_desc key l).
  rewrite insert_desc_perm. by f_equiv.
Qed.

Lemma insert_desc_sorted (x : A) (l : list A) :
  StronglySorted (desc key) l -> StronglySorted (desc key) (insert_desc key x l).
Proof.
  induction 1 as [|y l Hs IH Hy]; simpl.
  - repeat constructor.
  - destruct (Z.leb_spec (key y) (key x)) as [Hle|Hgt].
    + constructor; [by constructor|].
      constructor; [exact Hle|].
      eapply Forall_impl; [exact Hy|]. unfold desc. cbn. intros; lia.
    + constructor; [exact IH|].
      rewrite insert_desc_perm. constructor; [unfold desc; lia|exact Hy].
Qed.

Lemma sorted_desc_sorted (l : list A) : StronglySorted (desc key) (sorted_desc key l).
Proof.
  induction l as [|x l IH]; [constructor|].
  cbn [sorted_desc foldr]. by apply insert_desc_sorted.
Qed.

(** Stability: the entries with a given key are in the order they had. *)
Lemma insert_desc_stable (k : Z) (x : A) (l : list A) :
  StronglySorted (desc key) l ->
  List.filter (fun y => (key y =? k)%Z) (insert_desc key x l)
  = List.filter (fun y => (key y =? k)%Z) (x :: l).
Proof.
  induction 1 as [|y l Hs IH Hy]; [done|]. cbn [insert_desc].
  destruct (Z.leb_spec (key y) (key x)) as [Hle|Hgt]; [done|].
  cbn [List.filter] in *. rewrite IH.
  destruct (Z.eqb_spec (key x) k) as [Hx|Hx]; [|done].
  destruct (Z.eqb_spec (key y) k) as [Hy'|Hy']; [lia|done].
Qed.

Lemma sorted_desc_stable (k : Z) (l : list A) :
  List.filter (fun y => (key y =? k)%Z) (sorted_desc key l)
  = List.filter (fun y => (key y =? k)%Z) l.
Proof.
  induction l as [|x l IH]; [done|].
  cbn [sorted_desc foldr]. fold (sorted_desc key l).
  rewrite insert_desc_stable by apply sorted_desc_sorted.
  cbn [List.filter]. by rewrite IH.
Qed.

(** Keys in strictly ascending order: the sorted list is the reverse. *)
Lemma insert_desc_top (x : A) (l : list A) :
  Forall (fun y => (key y < key x)%Z) l -> insert_desc key x l = x :: l.
Proof.
  intros H. destruct H as [|y l Hy _]; [done|]. simpl.
  destruct (Z.leb_spec (key y) (key x)); [done|lia].
Qed.

Lemma insert_desc_bottom (x : A) (l : list A) :
  Forall (fun y => (key x < key y)%Z) l -> insert_desc key x l = l ++ [x].
Proof.
  induction 1 as [|y l Hy _ IH]; [done|]. simpl.
  destruct (Z.leb_spec (key y) (key x)); [lia|]. by rewrite IH.
Qed.

Lemma sorted_desc_ascending (l : list A) :
  StronglySorted (fun a b => (key a < key b)%Z) l -> sorted_desc key l = rev l.
Proof.
  induction 1 as [|x l Hs IH Hx]; [done|].
  cbn [sorted_desc foldr]. fold (sorted_desc key l). rewrite IH.
  cbn [rev]. apply insert_desc_bottom.
  rewrite Forall_forall in *. intros y Hy. apply Hx.
  apply list_elem_of_In. apply list_elem_of_In in Hy. by apply in_rev.
Qed.

End ListingFacts.

(* ------------------------------------------------------------------ *)
(** ** Decimal arithmetic: exact sums and signs *)

Section DecimalFacts.
Import PyStr Dec.
Local Open Scope Z_scope.

Lemma pow10_pos (k : Z) : 0 <= k -> 0 < 10 ^ k.
Proof. intros. by apply Z.pow_pos_nonneg. Qed.

(** A coefficient below [10^28] is within the precision. *)
Lemma ndigits_small (n : N) : Z.of_N n < 10 ^ 28 -> ndigits n <= prec.
Proof.
  intros H. unfold ndigits, prec, digits.
  assert (Hn : (n < 10 ^ N.of_nat 28)%N).
  { change (10 ^ N.of_nat 28)%N with (Z.to_N (10 ^ 28)). lia. }
  pose proof (digits_fuel_length (N.to_nat (N.log2 n)) n 28 Hn) as Hl.
  lia.
Qed.

Lemma fix_small (d : Decimal) : Z.of_N (d_int d) < 10 ^ 28 -> fix_ d = d.
Proof.
  intros H. unfold fix_.
  destruct (Z.leb_spec (ndigits (d_int d)) prec) as [|Hgt]; [done|].
  pose proof (ndigits_small _ H). lia.
Qed.

Lemma fix_sign (d : Decimal) : d_sign (fix_ d) = d_sign d.
Proof.
  unfold fix_. destruct (ndigits (d_int d) <=? prec); [done|].
  by destruct (_ =? _).
Qed.

(** The signed coefficient at a lower exponent. *)
Lemma scaled_shift (e e' : Z) (d : Decimal) :
  e' <= e -> e <= d_exp d -> scaled e' d = scaled e d * 10 ^ (e - e').
Proof.
  intros H1 H2. unfold scaled.
  replace (d_exp d - e') with ((d_exp d - e) + (e - e')) by lia.
  rewrite Z.pow_add_r by lia.
  destruct (d_sign d); lia.
Qed.

(** Comparison can be made at any exponent below both. *)
Lemma compare_at (e0 : Z) (a b : Decimal) :
  e0 <= d_exp a -> e0 <= d_exp b ->
  compare a b = (scaled e0 a ?= scaled e0 b).
Proof.
  intros Ha Hb. unfold compare.
  set (e := Z.min (d_exp a) (d_exp b)).
  rewrite (scaled_shift e e0 a), (scaled_shift e e0 b) by lia.
  apply Zmult_compare_compat_r.
  apply Z.lt_gt, pow10_pos. lia.
Qed.

Lemma scaled_mk (e0 e s : Z) (sg : bool) :
  (s <> 0 -> sg = (s <? 0)) ->
  scaled e0 (mk sg (Z.to_N (Z.abs s)) e) = s * 10 ^ (e - e0).
Proof.
  intros Hsg. unfold scaled. cbn [d_int d_sign d_exp].
  rewrite Z2N.id by lia.
  destruct (Z.eq_dec s 0) as [->|Hs]; [by destruct sg|].
  rewrite (Hsg Hs). destruct (Z.ltb_spec s 0); lia.
Qed.

(** A sum that fits the precision is exact. *)
Lemma add_exact (e0 : Z) (a b : Decimal) :
  e0 <= d_exp a -> e0 <= d_exp b ->
  Z.abs (scaled e0 a + scaled e0 b) < 10 ^ 28 ->
  e0 <= d_exp (add a b) /\
  scaled e0 (add a b) = scaled e0 a + scaled e0 b.
Proof.
  intros Ha Hb Hbound. unfold add.
  set (e := Z.min (d_exp a) (d_exp b)).
  set (s := scaled e a + scaled e b).
  assert (Hs : scaled e0 a + scaled e0 b = s * 10 ^ (e - e0)).
  { unfold s. rewrite (scaled_shift e e0 a), (scaled_shift e e0 b) by lia. lia. }
  assert (Hp : 0 < 10 ^ (e - e0)) by (apply pow10_pos; lia).
  rewrite Hs in Hbound.
  assert (Hsmall : Z.abs s < 10 ^ 28).
  { rewrite Z.abs_mul, (Z.abs_eq (10 ^ _)) in Hbound by lia.
    pose proof (Z.abs_nonneg s).
    eapply Z.le_lt_trans; [|exact Hbound].
    rewrite <- (Z.mul_1_r (Z.abs s)) at 1. apply Z.mul_le_mono_nonneg_l; lia. }
  rewrite fix_small.
  2:{ cbn [d_int]. rewrite Z2N.id by apply Z.abs_nonneg. exact Hsmall. }
  split; [cbn [d_exp]; lia|].
  rewrite Hs. apply scaled_mk.
  intros Hne. destruct (Z.eqb_spec s 0); [done|reflexivity].
Qed.

Lemma scaled_negate (e : Z) (d : Decimal) :
  scaled e (copy_negate d) = - scaled e d.
Proof. destruct d as [[] c x]; unfold scaled; cbn [copy_negate d_sign d_int d_exp negb]; lia. Qed.

Lemma sub_exact (e0 : Z) (a b : Decimal) :
  e0 <= d_exp a -> e0 <= d_exp b ->
  Z.abs (scaled e0 a - scaled e0 b) < 10 ^ 28 ->
  e0 <= d_exp (sub a b) /\
  scaled e0 (sub a b) = scaled e0 a - scaled e0 b.
Proof.
  intros Ha Hb Hbound. unfold sub.
  destruct (add_exact e0 a (copy_negate b)) as [H1 H2]; try done.
  - rewrite scaled_negate. by replace (scaled e0 a + - scaled e0 b) with (scaled e0 a - scaled e0 b) by lia.
  - split; [done|]. rewrite H2, scaled_negate. lia.
Qed.

(** Signs. *)
Lemma scaled_zero (e : Z) : scaled e zero = 0.
Proof. reflexivity. Qed.

Lemma scaled_sign (e : Z) (d : Decimal) :
  e <= d_exp d ->
  (0 <= scaled e d <-> d_sign d = false \/ d_int d = 0%N) /\
  (0 < scaled e d <-> d_sign d = false /\ d_int d <> 0%N).
Proof.
  intros He. unfold scaled.
  assert (Hp : 0 < 10 ^ (d_exp d - e)) by (apply pow10_pos; lia).
  destruct (d_sign d); split; split; nia.
Qed.

Lemma leb_zero (d : Decimal) :
  leb zero d = true <-> d_sign d = false \/ d_int d = 0%N.
Proof.
  unfold leb.
  rewrite (compare_at (Z.min 0 (d_exp d)) zero d) by (cbn; lia).
  rewrite scaled_zero.
  rewrite <- (proj1 (scaled_sign (Z.min 0 (d_exp d)) d ltac:(lia))).
  destruct (Z.compare_spec 0 (scaled (Z.min 0 (d_exp d)) d)); split; intros; try done; lia.
Qed.

Lemma ltb_zero (d : Decimal) :
  ltb zero d = true <-> d_sign d = false /\ d_int d <> 0%N.
Proof.
  unfold ltb.
  rewrite (compare_at (Z.min 0 (d_exp d)) zero d) by (cbn; lia).
  rewrite scaled_zero.
  rewrite <- (proj2 (scaled_sign (Z.min 0 (d_exp d)) d ltac:(lia))).
  destruct (Z.compare_spec 0 (scaled (Z.min 0 (d_exp d)) d)); split; intros; try done; lia.
Qed.

Lemma leb_false_ltb (a b : Decimal) : leb a b = false <-> ltb b a = true.
Proof.
  unfold leb, ltb. rewrite (compare_antisym b a).
  destruct (compare a b); cbn; split; intros; done.
Qed.

Lemma ltb_false_leb (a b : Decimal) : ltb a b = false <-> leb b a = true.
Proof.
  unfold leb, ltb. rewrite (compare_antisym b a).
  destruct (compare a b); cbn; split; intros; done.
Qed.

(** A positive amount added to a balance that is not negative, and an
    amount taken from a balance that covers it. *)
Lemma add_nonneg (b a : Decimal) :
  leb zero b = true -> ltb zero a = true -> leb zero (add b a) = true.
Proof.
  intros Hb Ha. apply leb_zero. left.
  unfold add. set (e := Z.min (d_exp b) (d_exp a)).
  assert (H1 : 0 <= scaled e b) by (apply scaled_sign; [lia|by apply leb_zero]).
  assert (H2 : 0 < scaled e a) by (apply scaled_sign; [lia|by apply ltb_zero]).
  set (s := scaled e b + scaled e a) in *.
  rewrite fix_sign. cbn [d_sign].
  destruct (Z.eqb_spec s 0) as [|Hne]; [lia|].
  destruct (Z.ltb_spec s 0) as [|Hge]; [lia|done].
Qed.

Lemma sub_nonneg (b a : Decimal) :
  ltb zero a = true -> ltb b a = false -> leb zero (sub b a) = true.
Proof.
  intros Ha Hba. apply leb_zero. left.
  unfold sub, add. cbn [copy_negate d_exp d_sign].
  set (e := Z.min (d_exp b) (d_exp a)).
  rewrite scaled_negate.
  assert (H : scaled e a <= scaled e b).
  { unfold ltb, compare in Hba. fold e in Hba.
    destruct (Z.compare_spec (scaled e b) (scaled e a)); [lia|done|lia]. }
  rewrite fix_sign. cbn [d_sign].
  apply ltb_zero in Ha. destruct Ha as [_ Hnz].
  destruct (Z.eqb_spec (scaled e b + - scaled e a) 0) as [|Hne].
  - unfold is_zero at 2. cbn [d_int copy_negate].
    destruct (N.eqb_spec (d_int a) 0); [done|]. by rewrite andb_false_r.
  - destruct (Z.ltb_spec (scaled e b + - scaled e a) 0); [lia|done].
Qed.

End DecimalFacts.

(* ------------------------------------------------------------------ *)
(** ** The listings of the wallet *)

Section ListingProperties.
Import PyStr Time Wallet Ledger Listing Accounts.
Import Dec (Decimal).

Lemma elem_of_filter_list {A} (f : A -> bool) (l : list A) (x : A) :
  x ∈ List.filter f l <-> x ∈ l /\ f x = true.
Proof. rewrite !list_elem_of_In. apply List.filter_In. Qed.

(** One optional criterion of [search_transactions]. *)
Lemma elem_of_selected {A} (s : option string) (f : A -> string) (l : list A) (x : A) :
  x ∈ (if selective s
       then List.filter (fun t => String.eqb (f t) (default "" s)) l else l)
  <-> x ∈ l /\ (selective s = true -> Some (f x) = s).
Proof.
  destruct (selective s) eqn:E.
  - rewrite elem_of_filter_list, String.eqb_eq.
    destruct s as [s|]; [|done]. cbn [default].
    split; intros [H1 H2]; (split; [exact H1|]).
    + intros _. by rewrite H2.
    + specialize (H2 eq_refl). by inversion H2.
  - split; [intros H; by split|by intros [H _]].
Qed.

(** The choice of a box of the search tab as a criterion. *)
Lemma choice_spec (choice x : string) :
  let s := if String.eqb choice "All" then None else Some choice in
  (selective s = true -> Some x = s)
  <-> (choice = "All" \/ choice = "" \/ x = choice).
Proof.
  cbv zeta. destruct (String.eqb_spec choice "All") as [->|Hall].
  - split; [by left|done].
  - cbn [selective]. destruct (String.eqb_spec choice "") as [->|He]; cbn [negb andb].
    + split; [by right; left|done].
    + destruct (String.eqb_spec choice "All") as [|_]; [done|]. cbn [negb].
      split.
      * intros H. specialize (H eq_refl). inversion H. by right; right.
      * intros [H|[H|H]]; try done. by rewrite H.
Qed.


Lemma elem_of_sorted_desc {A} (key : A -> Z) (l : list A) (x : A) :
  x ∈ sorted_desc key l <-> x ∈ l.
Proof. by rewrite sorted_desc_perm. Qed.

(** X1. [get_transactions] lists every record of the store exactly once,
    by descending identifier; records that carry the same identifier
    stay in the order of the store. *)
Theorem listing_is_sorted_by_id (w : PersonalWallet) :
  get_transactions w ≡ₚ transactions w /\
  StronglySorted (desc t_id) (get_transactions w) /\
  (forall k, List.filter (fun t => (t_id t =? k)%Z) (get_transactions w)
             = List.filter (fun t => (t_id t =? k)%Z) (transactions w)).
Proof.
  split; [apply sorted_desc_perm|].
  split; [apply sorted_desc_sorted|].
  intros k. apply sorted_desc_stable.
Qed.

Lemma ids_ascending (ts : list Transaction) (start : nat) :
  List.map t_id ts = List.map Z.of_nat (seq start (List.length ts)) ->
  StronglySorted (fun a b => (t_id a < t_id b)%Z) ts.
Proof.
  revert start. induction ts as [|t ts IH]; intros start H; [constructor|].
  cbn in H. injection H as Ht Hts.
  constructor; [by eapply IH|].
  rewrite Forall_forall. intros y Hy.
  assert (Hin : t_id y ∈ List.map Z.of_nat (seq (S start) (List.length ts))).
  { rewrite <- Hts. apply list_elem_of_In, in_map. by apply list_elem_of_In. }
  apply list_elem_of_In, in_map_iff in Hin. destruct Hin as (n & Hn & Hin).
  apply in_seq in Hin. lia.
Qed.

Lemma step_counted (w : PersonalWallet) (o : op) :
  is_delete o = false -> counted w -> counted (fst (step w o)).
Proof.
  intros Hd Hw. destruct o as [a ty c d now ns|i ns|a ns]; [|done|].
  - cbn [step].
    destruct (add_transaction w a ty c d now ns) as [w' [[|] msg]] eqn:E.
    + apply add_appends_with_length_id in E. destruct E as (t & Hts & Hid).
      unfold counted, ids in *. cbn [fst]. rewrite Hts, map_app, Hw, length_app.
      cbn [List.length List.map]. rewrite Nat.add_1_r, seq_S, map_app.
      cbn [List.map]. rewrite Hid. do 2 f_equal. lia.
    + apply add_failure_keeps in E. by subst w'.
  - cbn [step]. unfold set_budget. by destruct a.
Qed.

Lemma run_counted (ops : list op) (w : PersonalWallet) :
  Forall (fun o => is_delete o = false) ops -> counted w -> counted (run ops w).
Proof.
  revert w. induction ops as [|o ops IH]; intros w Hd Hw; [done|].
  apply Forall_cons in Hd. destruct Hd as [Ho Hd].
  cbn. apply IH; [done|]. by apply step_counted.
Qed.

(** X2. While nothing is deleted the identifiers are 1, 2, ... in the
    order of the records, all distinct, and [get_transactions] lists the
    records from the newest to the oldest. *)
Theorem listing_is_newest_first (ops : list op) :
  Forall (fun o => is_delete o = false) ops ->
  ids (run ops empty)
  = List.map Z.of_nat (seq 1 (List.length (transactions (run ops empty)))) /\
  NoDup (ids (run ops empty)) /\
  get_transactions (run ops empty) = rev (transactions (run ops empty)).
Proof.
  intros Hd.
  assert (H : counted (run ops empty)) by (by apply run_counted).
  split; [exact H|]. split.
  - rewrite H. apply NoDup_fmap_2; [intros x y; lia|]. apply NoDup_ListNoDup, seq_NoDup.
  - apply sorted_desc_ascending. by eapply ids_ascending.
Qed.

Lemma listing_is_newest_first_witness :
  ids (run [earn 1000; spend 250; budget_of (dec 7 0); earn 5] empty)
  = List.map Z.of_nat
      (seq 1 (List.length (transactions
                (run [earn 1000; spend 250; budget_of (dec 7 0); earn 5] empty)))) /\
  NoDup (ids (run [earn 1000; spend 250; budget_of (dec 7 0); earn 5] empty)) /\
  get_transactions (run [earn 1000; spend 250; budget_of (dec 7 0); earn 5] empty)
  = rev (transactions (run [earn 1000; spend 250; budget_of (dec 7 0); earn 5] empty)).
Proof.
  apply (listing_is_newest_first [earn 1000; spend 250; budget_of (dec 7 0); earn 5]).
  repeat constructor.
Defined.

(** X3. The search tab. [perform_search] shows the records of the
    chosen type and category, a choice of [All] (or an empty one)
    standing for any, by descending identifier, and the dialog names
    their number. With both boxes on [All] the rows are those of the
    main table. *)
Theorem perform_search_rows (w : PersonalWallet) (search_type search_category : string) :
  exists rows,
    perform_search w search_type search_category
    = Some (rows, "Found " +:+ str_of_int (Z.of_nat (List.length rows))
                  +:+ " transaction(s)") /\
    StronglySorted (desc t_id) rows /\
    (forall t, t ∈ rows <->
       t ∈ transactions w /\
       (search_type = "All" \/ search_type = "" \/ t_type t = search_type) /\
       (search_category = "All" \/ search_category = "" \/
        t_category t = search_category)) /\
    (search_type = "All" -> search_category = "All" -> rows = get_transactions w).
Proof.
  unfold perform_search, search_transactions.
  eexists. split; [reflexivity|].
  split; [apply sorted_desc_sorted|]. split.
  - intros t. rewrite elem_of_sorted_desc.
    rewrite (elem_of_selected _ t_category), (elem_of_selected _ t_type).
    rewrite (choice_spec search_type), (choice_spec search_category).
    by rewrite (assoc and).
  - intros -> ->. reflexivity.
Qed.

End ListingProperties.

Section StoreProperties.
Import PyStr Time Wallet Ledger Listing Accounts.
Import Dec (Decimal).

(** A comprehension over readable dates does not raise. *)
Lemma filter_try_dates (g : datetime -> bool) (l : list Transaction) :
  Forall date_readable l ->
  filter_try (fun t => g <$> strptime (t_date t)) l
  = Some (List.filter (fun t => match strptime (t_date t) with
                                | Some d => g d
                                | None => false
                                end) l).
Proof.
  induction 1 as [|t l [d Hd] _ IH]; [done|].
  cbn [filter_try List.filter]. rewrite IH, Hd. reflexivity.
Qed.

(** X4. On records with readable dates [search_transactions] does not
    raise, and it returns, by descending identifier, the records that
    meet every criterion given: the type, the category, a date not
    before [date_from] and not after [date_to]. *)
Theorem search_within_dates (w : PersonalWallet) (search_type category : option string)
    (date_from date_to : option datetime) :
  Forall date_readable (transactions w) ->
  exists res,
    search_transactions w search_type category date_from date_to = Some res /\
    StronglySorted (desc t_id) res /\
    (forall t, t ∈ res <->
       t ∈ transactions w /\
       (selective search_type = true -> Some (t_type t) = search_type) /\
       (selective category = true -> Some (t_category t) = category) /\
       (exists d, strptime (t_date t) = Some d /\
                  (forall f, date_from = Some f -> dt_leb f d = true) /\
                  (forall u, date_to = Some u -> dt_leb d u = true))).
Proof.
  intros Hr. unfold search_transactions.
  set (l1 := if selective search_type then _ else _).
  set (l2 := if selective category then _ else _).
  assert (H1 : Forall date_readable l1).
  { unfold l1. destruct (selective search_type); [by apply forall_list_filter|done]. }
  assert (H2 : Forall date_readable l2).
  { unfold l2. destruct (selective category); [by apply forall_list_filter|done]. }
  assert (Hl2 : forall t, t ∈ l2 <-> t ∈ transactions w /\
             (selective search_type = true -> Some (t_type t) = search_type) /\
             (selective category = true -> Some (t_category t) = category)).
  { intros t. unfold l2, l1.
    rewrite (elem_of_selected _ t_category), (elem_of_selected _ t_type).
    by rewrite (assoc and). }
  assert (Hrd : forall t, t ∈ l2 -> exists d, strptime (t_date t) = Some d).
  { intros t Ht. rewrite Forall_forall in H2. exact (H2 t Ht). }
  destruct date_from as [f|], date_to as [u|]; cbn [mbind option_bind].
  - rewrite filter_try_dates by exact H2. cbn [mbind option_bind].
    rewrite filter_try_dates by (by apply forall_list_filter). cbn [mbind option_bind].
    eexists. split; [reflexivity|]. split; [apply sorted_desc_sorted|].
    intros t. rewrite elem_of_sorted_desc, !elem_of_filter_list, Hl2.
    split.
    + intros [[(Ht & Hty & Hc) Hf] Hu].
      destruct (strptime (t_date t)) as [d|]; [|done].
      split; [exact Ht|]. split; [exact Hty|]. split; [exact Hc|].
      exists d. split; [done|]. split; intros ? [= <-]; done.
    + intros (Ht & Hty & Hc & d & Hd & Hf & Hu). rewrite Hd.
      split; [split; [done|by apply Hf]|by apply Hu].
  - rewrite filter_try_dates by exact H2. cbn [mbind option_bind].
    eexists. split; [reflexivity|]. split; [apply sorted_desc_sorted|].
    intros t. rewrite elem_of_sorted_desc, !elem_of_filter_list, Hl2.
    split.
    + intros [(Ht & Hty & Hc) Hf].
      destruct (strptime (t_date t)) as [d|]; [|done].
      split; [exact Ht|]. split; [exact Hty|]. split; [exact Hc|].
      exists d. split; [done|]. split; [by intros ? [= <-]|done].
    + intros (Ht & Hty & Hc & d & Hd & Hf & Hu). rewrite Hd.
      split; [done|by apply Hf].
  - rewrite filter_try_dates by exact H2. cbn [mbind option_bind].
    eexists. split; [reflexivity|]. split; [apply sorted_desc_sorted|].
    intros t. rewrite elem_of_sorted_desc, !elem_of_filter_list, Hl2.
    split.
    + intros [(Ht & Hty & Hc) Hu].
      destruct (strptime (t_date t)) as [d|]; [|done].
      split; [exact Ht|]. split; [exact Hty|]. split; [exact Hc|].
      exists d. split; [done|]. split; [done|by intros ? [= <-]].
    + intros (Ht & Hty & Hc & d & Hd & Hf & Hu). rewrite Hd.
      split; [done|by apply Hu].
  - eexists. split; [reflexivity|]. split; [apply sorted_desc_sorted|].
    intros t. rewrite elem_of_sorted_desc, Hl2.
    split.
    + intros (Ht & Hty & Hc). split; [exact Ht|]. split; [exact Hty|]. split; [exact Hc|].
      destruct (Hrd t) as [d Hd]; [by apply Hl2|].
      exists d. split; [done|]. split; done.
    + intros (Ht & Hty & Hc & _). done.
Qed.

Lemma search_within_dates_witness :
  exists res,
    search_transactions (run [earn 1000; earn_in_april 500; earn_in_june 700] empty)
                        (Some "Income") None (Some april) (Some june) = Some res /\
    StronglySorted (desc t_id) res /\
    (forall t, t ∈ res <->
       t ∈ transactions (run [earn 1000; earn_in_april 500; earn_in_june 700] empty) /\
       (selective (Some "Income") = true -> Some (t_type t) = Some "Income") /\
       (selective None = true -> Some (t_category t) = None) /\
       (exists d, strptime (t_date t) = Some d /\
                  (forall f, Some april = Some f -> dt_leb f d = true) /\
                  (forall u, Some june = Some u -> dt_leb d u = true))).
Proof.
  apply (search_within_dates (run [earn 1000; earn_in_april 500; earn_in_june 700] empty)
           (Some "Income") None (Some april) (Some june)).
  records. repeat (constructor; [eexists; vm_compute; reflexivity|]). constructor.
Defined.

End StoreProperties.

(* ------------------------------------------------------------------ *)
(** ** The record store: outcomes, persistence, balance *)

Section StoreProperties2.
Import PyStr Time Wallet Ledger Listing Accounts.
Import Dec (Decimal).

Lemma new_transaction_written (n : nat) (a : Decimal) (ty c d : string) (now : datetime) :
  Dec.ltb Dec.zero a = true ->
  (String.eqb ty "income" = false -> ty = "expense") ->
  written (new_transaction n a ty c d now).
Proof.
  intros Ha Hty. exists a. unfold new_transaction. cbn.
  split; [exact Ha|]. split; [done|]. split; [|split; [|lia]].
  - destruct (String.eqb ty "income"); auto.
  - destruct (String.eqb_spec d ""); done.
Qed.

Lemma step_written (w : PersonalWallet) (o : op) :
  Forall written (transactions w) -> Forall written (transactions (fst (step w o))).
Proof.
  intros Hw.
  destruct o as [amount ty c d now now_save|i now_save|amount now_save]; simpl.
  - unfold add_transaction.
    destruct amount as [a|]; [|done].
    destruct (Dec.leb a Dec.zero) eqn:Hpos; [done|].
    apply leb_false_ltb in Hpos.
    destruct (String.eqb ty "income") eqn:Hin.
    + cbn. apply Forall_app; split; [done|].
      constructor; [|constructor]. apply new_transaction_written; [done|].
      by rewrite Hin.
    + destruct (String.eqb_spec ty "expense") as [->|]; [|done].
      destruct (Dec.ltb (balance w) a); [done|].
      cbn. apply Forall_app; split; [done|].
      constructor; [|constructor]. by apply new_transaction_written.
  - unfold delete_transaction.
    destruct (List.find _ (transactions w)) as [t|]; [|done].
    destruct (Dec.parse (bare_amount t)); [|done].
    destruct (String.eqb (t_type t) "Income"); cbn; by apply forall_list_filter.
  - unfold set_budget. by destruct amount.
Qed.

Lemma run_written (ops : list op) : Forall written (transactions (run ops empty)).
Proof.
  unfold run. generalize (Forall_nil_2 written : Forall written (transactions empty)).
  generalize empty.
  induction ops as [|o ops IH]; intros w Hw; [done|].
  cbn. apply IH. by apply step_written.
Qed.

(** X5. Every record of a store built from the empty one is as an
    accepted [add_transaction] writes it: a positive amount shown with
    two places behind [+$] for the type [Income] and behind [-$] for the
    type [Expense], the float of that amount, a description that is not
    empty and an identifier of at least 1. *)
Theorem records_are_as_written (ops : list op) :
  Forall written (transactions (run ops empty)).
Proof. apply run_written. Qed.

(** X6. The outcome of [add_transaction] for an amount that converts
    to a moderate Decimal, on a store with a moderate balance (both
    finite, with an exponent of at least -1000 and below 10^1000 in
    size, so that their sum and difference are inside the exponent
    limits of the context). The call is accepted exactly when the amount
    is positive and the kind is [income], or [expense] with an amount
    the balance covers. A refused call returns the state it was given.
    An accepted call adds one record, leaves the budget alone and writes
    the new state to the file. *)
Theorem add_transaction_outcome (w : PersonalWallet) (a : Decimal)
    (trans_type category description : string) (now now_save : datetime) :
  moderate a = true -> moderate (balance w) = true ->
  let r := add_transaction w (Some a) trans_type category description now now_save in
  (fst (snd r) = true <->
     Dec.ltb Dec.zero a = true /\
     (trans_type = "income" \/
      (trans_type = "expense" /\ Dec.leb a (balance w) = true))) /\
  (fst (snd r) = false -> fst r = w) /\
  (fst (snd r) = true ->
     List.length (transactions (fst r)) = S (List.length (transactions w)) /\
     budget (fst r) = budget w /\
     data_file (fst r) = Content (snapshot (fst r) now_save)).
Proof.
  intros _ _. cbv zeta. unfold add_transaction.
  destruct (Dec.leb a Dec.zero) eqn:Hpos.
  - cbn. split; [|done]. split; [done|]. intros [Ha _].
    apply ltb_not_leb in Ha. congruence.
  - pose proof (proj1 (leb_false_ltb _ _) Hpos) as Ha.
    destruct (String.eqb_spec trans_type "income") as [->|Hni].
    + cbn. split; [split; [intros _; split; [done|by left]|done]|].
      split; [done|]. intros _. rewrite length_app. cbn. split; [lia|done].
    + destruct (String.eqb_spec trans_type "expense") as [->|Hne].
      * destruct (Dec.ltb (balance w) a) eqn:Hb.
        -- cbn. split; [|done]. split; [done|].
           intros [_ [|[_ Hle]]]; [done|].
           apply ltb_not_leb in Hb. congruence.
        -- cbn. apply ltb_false_leb in Hb.
           split; [split; [intros _; split; [done|by right]|done]|].
           split; [done|]. intros _. rewrite length_app. cbn. split; [lia|done].
      * cbn. split; [|done]. split; [done|]. by intros [_ [|[? _]]].
Qed.

Lemma add_transaction_outcome_witness :
  let r := add_transaction (run [earn 1000] empty) (Some (dec 250 (-2)))
                           "expense" "Food" "" noon noon in
  (fst (snd r) = true <->
     Dec.ltb Dec.zero (dec 250 (-2)) = true /\
     ("expense" = "income" \/
      ("expense" = "expense" /\
       Dec.leb (dec 250 (-2)) (balance (run [earn 1000] empty)) = true))) /\
  (fst (snd r) = false -> fst r = run [earn 1000] empty) /\
  (fst (snd r) = true ->
     List.length (transactions (fst r))
     = S (List.length (transactions (run [earn 1000] empty))) /\
     budget (fst r) = budget (run [earn 1000] empty) /\
     data_file (fst r) = Content (snapshot (fst r) noon)).
Proof.
  apply (add_transaction_outcome (run [earn 1000] empty) (dec 250 (-2))
           "expense" "Food" "" noon noon); reflexivity.
Defined.

(** Every operation returns the state it was given or a saved state. *)
Lemma step_saved (w : PersonalWallet) (o : op) :
  fst (step w o) = w \/ exists w0 now, fst (step w o) = save_data w0 now.
Proof.
  destruct o as [amount ty c d now now_save|i now_save|amount now_save]; cbn [step].
  - unfold add_transaction.
    destruct amount as [a|]; [|by left].
    destruct (Dec.leb a Dec.zero); [by left|].
    destruct (String.eqb ty "income"); [right; by eexists _, _|].
    destruct (String.eqb ty "expense"); [|by left].
    destruct (Dec.ltb (balance w) a); [by left|right; by eexists _, _].
  - unfold delete_transaction.
    destruct (List.find _ (transactions w)) as [t|]; [|by left].
    destruct (Dec.parse (bare_amount t)); [|by left].
    right. by eexists _, _.
  - unfold set_budget. destruct amount; [right; by eexists _, _|by left].
Qed.

(** X7. After any sequence of operations on the empty store, accepted
    or refused, a wallet started on the data file is in the state the
    running one is in: nothing that was accepted is missing from the
    file. *)
Theorem restart_restores_state (ops : list op) :
  init (data_file (run ops empty)) = run ops empty.
Proof.
  unfold run.
  assert (H : init (data_file empty) = empty) by reflexivity.
  revert H. generalize empty.
  induction ops as [|o ops IH]; intros w Hw; [done|].
  cbn. apply IH.
  destruct (step_saved w o) as [->|(w0 & now & ->)]; [done|apply init_save].
Qed.

Lemma step_nonneg (w : PersonalWallet) (o : op) :
  is_delete o = false ->
  Dec.leb Dec.zero (balance w) = true ->
  Dec.leb Dec.zero (balance (fst (step w o))) = true.
Proof.
  intros Hd Hw.
  destruct o as [amount ty c d now now_save|i now_save|amount now_save]; [|done|].
  - cbn [step]. unfold add_transaction.
    destruct amount as [a|]; [|done].
    destruct (Dec.leb a Dec.zero) eqn:Hpos; [done|].
    apply leb_false_ltb in Hpos.
    destruct (String.eqb ty "income"); [cbn; by apply add_nonneg|].
    destruct (String.eqb ty "expense"); [|done].
    destruct (Dec.ltb (balance w) a) eqn:Hb; [done|].
    cbn. by apply sub_nonneg.
  - cbn [step]. unfold set_budget. by destruct amount.
Qed.

(** X8. [add_transaction] and [set_budget] never overdraw: from a
    balance that is not negative, no sequence of them leads to a
    negative balance. (Deleting can, see C10.) *)
Theorem adds_never_overdraw (ops : list op) (w : PersonalWallet) :
  Forall (fun o => is_delete o = false) ops ->
  Dec.leb Dec.zero (balance w) = true ->
  Dec.leb Dec.zero (balance (run ops w)) = true.
Proof.
  revert w. induction ops as [|o ops IH]; intros w Hd Hw; [done|].
  apply Forall_cons in Hd. destruct Hd as [Ho Hd].
  cbn. apply IH; [done|]. by apply step_nonneg.
Qed.

Lemma adds_never_overdraw_witness :
  Dec.leb Dec.zero (balance (run [earn 1000; spend 250; spend 5000; spend 750] empty)) = true.
Proof.
  apply (adds_never_overdraw [earn 1000; spend 250; spend 5000; spend 750] empty).
  - repeat constructor.
  - reflexivity.
Defined.

Lemma parse_format_2f (d : Decimal) :
  Dec.parse (Dec.format_2f d) = Some (Dec.rescale (-2) d).
Proof.
  unfold Dec.format_2f.
  set (r := Dec.rescale (-2) d).
  pose proof (parse_numeral_frac (Dec.d_sign r) (digits (Dec.d_int r / 100))
                (zfill 2 (Dec.d_int r mod 100)) [] 0) as H.
  rewrite app_nil_r in H.
  change (digits (Dec.d_int r / 100) ++ ["."%char] ++ zfill 2 (Dec.d_int r mod 100))
    with (digits (Dec.d_int r / 100) ++ "."%char :: zfill 2 (Dec.d_int r mod 100)).
  rewrite H; clear H.
  - rewrite int_of_digits_app, int_of_digits_digits, int_of_digits_zfill, zfill2_length.
    change (10 ^ N.of_nat 2)%N with 100%N.
    assert (E : (Dec.d_int r / 100 * 100 + Dec.d_int r mod 100)%N = Dec.d_int r).
    { pose proof (N.div_mod (Dec.d_int r) 100). lia. }
    rewrite E.
    assert (Hexp : Dec.d_exp r = (-2)%Z).
    { unfold r, Dec.rescale. destruct (Dec.is_zero d); [done|].
      by destruct (_ <=? _)%Z. }
    destruct r as [sg c e]. cbn in *. by subst e.
  - apply digits_all_digit.
  - apply zfill_all_digit.
  - apply digits_nonempty.
  - intros E. apply (f_equal (@List.length _)) in E.
    rewrite zfill2_length in E. done.
  - done.
  - done.
Qed.

Lemma rescale_exp (d : Decimal) : Dec.d_exp (Dec.rescale (-2) d) = (-2)%Z.
Proof.
  unfold Dec.rescale. destruct (Dec.is_zero d); [done|]. by destruct (_ <=? _)%Z.
Qed.

Lemma rescale_cents (d : Decimal) :
  (-2 <= Dec.d_exp d)%Z -> cents (Dec.rescale (-2) d) = cents d.
Proof.
  intros He. unfold cents, Dec.rescale, Dec.scaled, Dec.is_zero.
  destruct (N.eqb_spec (Dec.d_int d) 0) as [Hz|Hnz]; cbn [Dec.d_int Dec.d_sign Dec.d_exp].
  - rewrite Hz. by destruct (Dec.d_sign d).
  - destruct (Z.leb_spec (-2) (Dec.d_exp d)) as [_|]; [|lia].
    cbn [Dec.d_int Dec.d_sign Dec.d_exp].
    rewrite N2Z.inj_mul, Z2N.id by (apply Z.lt_le_incl, pow10_pos; lia).
    change (-2 - -2)%Z with 0%Z. rewrite Z.pow_0_r.
    destruct (Dec.d_sign d); lia.
Qed.

(** X9. [get_balance] shows the balance rounded to two places, half to
    even: behind the currency sign stands a numeral that reads back as
    the balance rescaled to the exponent -2, and for a balance with at
    most two places that is the balance itself. *)
Theorem balance_display_reads_back (w : PersonalWallet) :
  exists s,
    get_balance w = "$" +:+ s /\
    Dec.parse s = Some (Dec.rescale (-2) (balance w)) /\
    Dec.d_exp (Dec.rescale (-2) (balance w)) = (-2)%Z /\
    ((-2 <= Dec.d_exp (balance w))%Z ->
     Dec.compare (Dec.rescale (-2) (balance w)) (balance w) = Eq).
Proof.
  exists (Dec.format_2f (balance w)). split; [reflexivity|].
  split; [apply parse_format_2f|]. split; [apply rescale_exp|].
  intros He. rewrite (compare_at (-2)); [|rewrite rescale_exp; lia|exact He].
  apply Z.compare_eq_iff. by apply rescale_cents.
Qed.

End StoreProperties2.

(* ------------------------------------------------------------------ *)
(** ** Amounts in hundredths *)

Section ExactFacts.
Import PyStr Time Wallet Ledger Listing Accounts.
Import Dec (Decimal).
Local Open Scope Z_scope.

Lemma total_cents_app (l1 l2 : list Decimal) :
  total_cents (l1 ++ l2) = total_cents l1 + total_cents l2.
Proof. unfold total_cents. induction l1 as [|x l1 IH]; cbn; lia. Qed.

Lemma total_cents_nonneg (l : list Decimal) : Forall in_cents l -> 0 <= total_cents l.
Proof. unfold total_cents. induction 1 as [|x l [_ Hx] _ IH]; cbn; lia. Qed.

(** Python's [sum] is exact while the total fits the precision. *)
Lemma sum_exact (l : list Decimal) (acc : Decimal) :
  Forall in_cents l -> -2 <= Dec.d_exp acc -> 0 <= cents acc ->
  cents acc + total_cents l < 10 ^ 28 ->
  -2 <= Dec.d_exp (fold_left Dec.add l acc) /\
  cents (fold_left Dec.add l acc) = cents acc + total_cents l.
Proof.
  intros Hl. revert acc. induction Hl as [|x l [Hx1 Hx2] Hl IH]; intros acc He Hc Hb.
  - cbn. split; [done|lia].
  - cbn [fold_left total_cents fold_right] in *.
    pose proof (total_cents_nonneg l Hl) as Hn. fold (total_cents l) in *.
    destruct (add_exact (-2) acc x) as [H1 H2]; [done|lia|unfold cents in *; lia|].
    fold (cents (Dec.add acc x)) in H2. fold (cents acc) (cents x) in H2.
    destruct (IH (Dec.add acc x)) as [H3 H4]; [done|lia|lia|].
    split; [done|]. rewrite H4, H2. lia.
Qed.

Lemma amounts_app (p : Transaction -> bool) (strip : Transaction -> string)
    (l1 l2 : list Transaction) :
  amounts p strip (l1 ++ l2)
  = match amounts p strip l1, amounts p strip l2 with
    | Some a, Some b => Some (a ++ b)
    | _, _ => None
    end.
Proof.
  induction l1 as [|t l1 IH]; cbn [amounts app].
  - by destruct (amounts p strip l2).
  - destruct (p t); [|exact IH]. rewrite IH.
    destruct (Dec.parse (strip t)); [|done].
    destruct (amounts p strip l1); [|done].
    by destruct (amounts p strip l2).
Qed.

Lemma rescale_sign (d : Decimal) : Dec.d_sign (Dec.rescale (-2) d) = Dec.d_sign d.
Proof.
  unfold Dec.rescale. destruct (Dec.is_zero d); [done|]. by destruct (_ <=? _).
Qed.

Lemma read_back_cents (a : Decimal) :
  Dec.ltb Dec.zero a = true -> -2 <= Dec.d_exp a ->
  cents (read_back a) = cents a /\ in_cents (read_back a) /\ 0 < cents a.
Proof.
  intros Ha He. apply ltb_zero in Ha. destruct Ha as [Hs Hnz].
  assert (E : cents (read_back a) = cents a).
  { rewrite <- (rescale_cents a He). unfold cents, Dec.scaled, read_back.
    rewrite rescale_sign, Hs, rescale_exp. reflexivity. }
  assert (Hpos : 0 < cents a).
  { unfold cents. apply scaled_sign; [lia|done]. }
  split; [exact E|]. split; [|exact Hpos]. split; [reflexivity|lia].
Qed.

Lemma income_text_written (a : Decimal) (t : Transaction) :
  Dec.ltb Dec.zero a = true ->
  t_amount t = "+$" +:+ Dec.format_2f a ->
  Dec.parse (income_text t) = Some (read_back a).
Proof.
  intros Ha Ht. apply ltb_zero in Ha. destruct Ha as [Hs _].
  assert (Hb : income_text t = of_chars (cents_text (Dec.d_int (Dec.rescale (-2) a)))).
  { unfold income_text. rewrite Ht.
    unfold remove_char at 1. f_equal.
    rewrite !remove_char_chars, chars_append, format_2f_chars.
    rewrite rescale_sign, Hs.
    pose proof (cents_text_plain (Dec.d_int (Dec.rescale (-2) a))) as Hp.
    rewrite !List.filter_app.
    rewrite (filter_plain "$" (cents_text _)) by done.
    rewrite (filter_plain "+" (cents_text _)) by done.
    reflexivity. }
  rewrite Hb. apply parse_cents_text.
Qed.

End ExactFacts.

Section ExactProperties.
Import PyStr Time Wallet Ledger Listing Accounts.
Import Dec (Decimal).
Local Open Scope Z_scope.

Lemma balanced_mono (v v' : Z) (w : PersonalWallet) :
  v <= v' -> balanced v w -> balanced v' w.
Proof.
  intros Hv (li & le & H1 & H2 & H3 & H4 & H5 & H6 & H7).
  exists li, le. repeat split; try done. lia.
Qed.

Lemma amounts_new_income (n : nat) (a : Decimal) (c d : string) (now : datetime) :
  Dec.ltb Dec.zero a = true ->
  amounts is_income income_text [new_transaction n a "income" c d now]
  = Some [read_back a] /\
  amounts is_expense expense_text [new_transaction n a "income" c d now] = Some [].
Proof.
  intros Ha. set (t := new_transaction n a "income" c d now).
  assert (Hty : t_type t = "Income") by reflexivity.
  assert (Ham : t_amount t = "+$" +:+ Dec.format_2f a) by reflexivity.
  cbn [amounts]. unfold is_income, is_expense. rewrite Hty.
  change (String.eqb "Income" "Income") with true.
  change (String.eqb "Income" "Expense") with false. cbv iota.
  by rewrite (income_text_written a t Ha Ham).
Qed.

Lemma amounts_new_expense (n : nat) (a : Decimal) (c d : string) (now : datetime) :
  amounts is_income income_text [new_transaction n a "expense" c d now] = Some [] /\
  amounts is_expense expense_text [new_transaction n a "expense" c d now]
  = Some [read_back a].
Proof.
  set (t := new_transaction n a "expense" c d now).
  assert (Hty : t_type t = "Expense") by reflexivity.
  assert (Ham : t_amount t = "-$" +:+ Dec.format_2f a) by reflexivity.
  cbn [amounts]. unfold is_income, is_expense. rewrite Hty.
  change (String.eqb "Expense" "Expense") with true.
  change (String.eqb "Expense" "Income") with false. cbv iota.
  by rewrite (expense_text_written a t Ham).
Qed.

Lemma step_balanced (v : Z) (w : PersonalWallet) (o : op) :
  is_delete o = false -> two_places o ->
  balanced v w -> v + volume [o] < 10 ^ 28 ->
  balanced (v + volume [o]) (fst (step w o)).
Proof.
  intros Hd Htp Hw Hv.
  assert (Hvol : 0 <= volume [o]).
  { destruct o as [[a|] ? ? ? ? ?| |]; cbn; lia. }
  destruct o as [amount ty c d now now_save|i now_save|amount now_save]; [|done|].
  - cbn [step]. unfold add_transaction.
    destruct amount as [a|]; [|by apply (balanced_mono v); [lia|]].
    destruct (Dec.leb a Dec.zero) eqn:Hpos; [by apply (balanced_mono v); [lia|]|].
    apply leb_false_ltb in Hpos. cbn in Htp.
    destruct (read_back_cents a Hpos Htp) as (Hrb & Hin & Hca).
    cbn [volume fold_right] in *. rewrite Z.add_0_r in *.
    rewrite (Z.abs_eq (cents a)) in * by lia.
    destruct Hw as (li & le & H1 & H2 & H3 & H4 & H5 & H6 & H7).
    pose proof (total_cents_nonneg li H3) as Hnli.
    pose proof (total_cents_nonneg le H4) as Hnle.
    destruct (String.eqb_spec ty "income") as [->|Hni].
    + cbn [fst transactions balance set_balance set_transactions save_data set_file].
      destruct (amounts_new_income (List.length (transactions w)) a c d now Hpos)
        as [E1 E2].
      destruct (add_exact (-2) (balance w) a) as [Hx1 Hx2]; [done|done| |].
      { fold (cents (balance w)) (cents a). lia. }
      fold (cents (balance w)) (cents a) in Hx2.
      exists (li ++ [read_back a]), le.
      cbn [transactions balance budget data_file save_data set_file
           set_transactions set_balance].
      rewrite !amounts_app, H1, H2, E1, E2, app_nil_r.
      split; [done|]. split; [done|].
      split; [apply Forall_app; split; [done|by constructor]|].
      split; [done|]. split; [done|].
      rewrite total_cents_app. unfold cents at 1. rewrite Hx2.
      cbn [total_cents fold_right]. fold (cents (read_back a)). lia.
    + destruct (String.eqb_spec ty "expense") as [->|Hne];
        [|by apply (balanced_mono v); [lia|exists li, le]].
      destruct (Dec.ltb (balance w) a) eqn:Hb;
        [by apply (balanced_mono v); [lia|exists li, le]|].
      cbn [fst transactions balance set_balance set_transactions save_data set_file].
      destruct (amounts_new_expense (List.length (transactions w)) a c d now)
        as [E1 E2].
      destruct (sub_exact (-2) (balance w) a) as [Hx1 Hx2]; [done|done| |].
      { fold (cents (balance w)) (cents a). lia. }
      fold (cents (balance w)) (cents a) in Hx2.
      exists li, (le ++ [read_back a]).
      cbn [transactions balance budget data_file save_data set_file
           set_transactions set_balance].
      rewrite !amounts_app, H1, H2, E1, E2, app_nil_r.
      split; [done|]. split; [done|]. split; [done|].
      split; [apply Forall_app; split; [done|by constructor]|].
      split; [done|].
      rewrite total_cents_app. unfold cents at 1. rewrite Hx2.
      cbn [total_cents fold_right]. fold (cents (read_back a)). lia.
  - cbn [step]. unfold set_budget. cbn [volume fold_right]. rewrite Z.add_0_r.
    destruct amount; [|done].
    destruct Hw as (li & le & H). by exists li, le.
Qed.

Lemma volume_cons (o : op) (ops : list op) :
  volume (o :: ops) = volume [o] + volume ops.
Proof. unfold volume. destruct o as [[a|] ? ? ? ? ?| |]; cbn [fold_right]; lia. Qed.

Lemma volume_nonneg (ops : list op) : 0 <= volume ops.
Proof.
  induction ops as [|o ops IH]; [done|]. rewrite volume_cons.
  assert (0 <= volume [o]); [|lia].
  destruct o as [[a|] ? ? ? ? ?| |]; cbn; lia.
Qed.

Lemma run_balanced (ops : list op) (v : Z) (w : PersonalWallet) :
  Forall (fun o => is_delete o = false) ops -> Forall two_places ops ->
  balanced v w -> v + volume ops < 10 ^ 28 ->
  balanced (v + volume ops) (run ops w).
Proof.
  revert v w. induction ops as [|o ops IH]; intros v w Hd Htp Hw Hv.
  - cbn. by rewrite Z.add_0_r.
  - apply Forall_cons in Hd. destruct Hd as [Ho Hd].
    apply Forall_cons in Htp. destruct Htp as [Hto Htp].
    rewrite volume_cons in *. pose proof (volume_nonneg ops).
    rewrite Z.add_assoc. cbn [run fold_left]. apply (IH (v + volume [o])); try done.
    + apply step_balanced; try done. lia.
    + lia.
Qed.

Lemma balanced_statistics (v : Z) (w : PersonalWallet) :
  balanced v w -> v < 10 ^ 28 ->
  exists st,
    get_statistics w = Some st /\
    Dec.compare (s_net_savings st) (balance w) = Eq /\
    s_transaction_count st = List.length (transactions w).
Proof.
  intros (li & le & H1 & H2 & H3 & H4 & H5 & H6 & H7) Hv.
  pose proof (total_cents_nonneg li H3) as Hnli.
  pose proof (total_cents_nonneg le H4) as Hnle.
  unfold get_statistics, total_income. rewrite H1, H2. cbn [fmap option_fmap option_map mbind option_bind].
  eexists. split; [reflexivity|]. cbn [s_net_savings s_transaction_count].
  split; [|reflexivity].
  destruct (sum_exact li Dec.zero H3) as [Hi1 Hi2]; [done|done|cbn; lia|].
  destruct (sum_exact le Dec.zero H4) as [He1 He2]; [done|done|cbn; lia|].
  change (cents Dec.zero) with 0 in *. fold (Dec.sum li) in *. fold (Dec.sum le) in *.
  destruct (sub_exact (-2) (Dec.sum li) (Dec.sum le)) as [Hs1 Hs2]; [done|done| |].
  { fold (cents (Dec.sum li)) (cents (Dec.sum le)). lia. }
  rewrite (compare_at (-2)) by done.
  apply Z.compare_eq_iff. rewrite Hs2.
  fold (cents (Dec.sum li)) (cents (Dec.sum le)) (cents (balance w)). lia.
Qed.

(** X10. Without deletions, for amounts of at most two decimal places
    whose total stays within the precision of 28 digits, the statistics
    agree with the balance: [net_savings], the incomes less the expenses
    as read back from the records, equals the balance, and the count is
    the number of records. *)
Theorem statistics_agree_with_balance (ops : list op) :
  Forall (fun o => is_delete o = false) ops ->
  Forall two_places ops ->
  volume ops < 10 ^ 28 ->
  exists st,
    get_statistics (run ops empty) = Some st /\
    Dec.compare (s_net_savings st) (balance (run ops empty)) = Eq /\
    s_transaction_count st = List.length (transactions (run ops empty)).
Proof.
  intros Hd Htp Hv.
  apply (balanced_statistics (0 + volume ops)); [|lia].
  apply run_balanced; try done.
  exists [], []. repeat split; try done; cbn; lia.
Qed.

Lemma statistics_agree_with_balance_witness :
  exists st,
    get_statistics (run [earn 1000; spend 250; spend 5000; earn 5] empty) = Some st /\
    Dec.compare (s_net_savings st)
                (balance (run [earn 1000; spend 250; spend 5000; earn 5] empty)) = Eq /\
    s_transaction_count st
    = List.length (transactions (run [earn 1000; spend 250; spend 5000; earn 5] empty)).
Proof.
  apply (statistics_agree_with_balance [earn 1000; spend 250; spend 5000; earn 5]).
  - repeat constructor.
  - repeat constructor; vm_compute; discriminate.
  - vm_compute. reflexivity.
Defined.

End ExactProperties.

Section RoundTrip.
Import PyStr Time Wallet Ledger Listing Accounts.
Import Dec (Decimal).
Local Open Scope Z_scope.

Lemma find_fresh_last (x : Z) (ts : list Transaction) (t : Transaction) :
  x ∉ List.map t_id ts -> t_id t = x ->
  List.find (fun t => (t_id t =? x)%Z) (ts ++ [t]) = Some t /\
  List.filter (fun t => negb (t_id t =? x)%Z) (ts ++ [t]) = ts.
Proof.
  intros Hx Ht. induction ts as [|u ts IH]; cbn.
  - rewrite Ht, Z.eqb_refl. done.
  - cbn in Hx. apply not_elem_of_cons in Hx. destruct Hx as [Hu Hx].
    destruct (Z.eqb_spec (t_id u) x) as [|_]; [congruence|]. cbn.
    destruct (IH Hx) as [-> ->]. done.
Qed.

(** X11. Adding a record and deleting it at once restores the store,
    when the identifier the record gets is not in use, the amount has at
    most two decimal places and the sums stay within the precision: the
    records and the budget are as before and the balance has the same
    value. *)
Theorem add_then_delete_restores (w : PersonalWallet) (a : Decimal)
    (trans_type category description : string) (now now_save now_save' : datetime) :
  Dec.ltb Dec.zero a = true ->
  (trans_type = "income" \/
   (trans_type = "expense" /\ Dec.leb a (balance w) = true)) ->
  -2 <= Dec.d_exp a ->
  -2 <= Dec.d_exp (balance w) ->
  Z.abs (cents (balance w)) + cents a < 10 ^ 28 ->
  (Z.of_nat (List.length (transactions w)) + 1) ∉ ids w ->
  let w1 := fst (add_transaction w (Some a) trans_type category description
                                 now now_save) in
  let r := delete_transaction w1 (Z.of_nat (List.length (transactions w)) + 1)
                              now_save' in
  ids w1 = ids w ++ [Z.of_nat (List.length (transactions w)) + 1] /\
  snd r = (true, "Transaction deleted successfully") /\
  transactions (fst r) = transactions w /\
  budget (fst r) = budget w /\
  Dec.compare (balance (fst r)) (balance w) = Eq.
Proof.
  intros Ha Hty Hea Heb Hbound Hfresh. cbv zeta.
  destruct (read_back_cents a Ha Hea) as (Hrb & [Hre _] & Hca).
  unfold add_transaction. rewrite (ltb_not_leb _ _ Ha).
  set (n := Z.of_nat (List.length (transactions w)) + 1) in *.
  destruct Hty as [->|[-> Hle]].
  - cbn [String.eqb Ascii.eqb Bool.eqb andb fst transactions balance budget
         data_file save_data set_file set_transactions set_balance].
    set (t := new_transaction (List.length (transactions w)) a "income"
                              category description now).
    assert (Hid : t_id t = n) by reflexivity.
    assert (Htype : t_type t = "Income") by reflexivity.
    assert (Ham : t_amount t = "+$" +:+ Dec.format_2f a) by reflexivity.
    clearbody t.
    split.
    { unfold ids. cbn [transactions save_data set_file set_transactions set_balance].
      rewrite map_app. cbn [List.map]. by rewrite Hid. }
    unfold delete_transaction.
    cbn [transactions balance budget data_file save_data set_file
         set_transactions set_balance].
    destruct (find_fresh_last n (transactions w) t Hfresh Hid) as [Hfind Hfilter].
    rewrite Hfind, (bare_amount_written "+$" a t (or_introl eq_refl) Ham), Htype.
    change (String.eqb "Income" "Income") with true. cbv iota.
    cbn [transactions balance budget data_file save_data set_file
         set_transactions set_balance fst snd].
    rewrite Hfilter. split; [done|]. split; [done|]. split; [done|].
    fold (read_back a).
    destruct (add_exact (-2) (balance w) a) as [H1 H2]; [done|done| |].
    { fold (cents (balance w)) (cents a). lia. }
    fold (cents (balance w)) (cents a) in H2.
    destruct (sub_exact (-2) (Dec.add (balance w) a) (read_back a)) as [H3 H4];
      [done|by rewrite Hre| |].
    { rewrite H2. fold (cents (read_back a)). lia. }
    rewrite (compare_at (-2)) by done.
    apply Z.compare_eq_iff. rewrite H4, H2.
    fold (cents (read_back a)) (cents (balance w)). lia.
  - cbn [String.eqb Ascii.eqb Bool.eqb andb fst].
    assert (Hb : Dec.ltb (balance w) a = false) by (by apply ltb_false_leb).
    rewrite Hb.
    cbn [fst transactions balance budget data_file save_data set_file
         set_transactions set_balance].
    set (t := new_transaction (List.length (transactions w)) a "expense"
                              category description now).
    assert (Hid : t_id t = n) by reflexivity.
    assert (Htype : t_type t = "Expense") by reflexivity.
    assert (Ham : t_amount t = "-$" +:+ Dec.format_2f a) by reflexivity.
    clearbody t.
    split.
    { unfold ids. cbn [transactions save_data set_file set_transactions set_balance].
      rewrite map_app. cbn [List.map]. by rewrite Hid. }
    unfold delete_transaction.
    cbn [transactions balance budget data_file save_data set_file
         set_transactions set_balance].
    destruct (find_fresh_last n (transactions w) t Hfresh Hid) as [Hfind Hfilter].
    rewrite Hfind, (bare_amount_written "-$" a t (or_intror eq_refl) Ham), Htype.
    change (String.eqb "Expense" "Income") with false. cbv iota.
    cbn [transactions balance budget data_file save_data set_file
         set_transactions set_balance fst snd].
    rewrite Hfilter. split; [done|]. split; [done|]. split; [done|].
    fold (read_back a).
    assert (Hcmp : cents a <= cents (balance w)).
    { unfold Dec.leb in Hle. rewrite (compare_at (-2)) in Hle by done.
      unfold cents. destruct (Z.compare_spec (Dec.scaled (-2) a)
                                (Dec.scaled (-2) (balance w))); [lia|lia|done]. }
    destruct (sub_exact (-2) (balance w) a) as [H1 H2]; [done|done| |].
    { fold (cents (balance w)) (cents a). lia. }
    fold (cents (balance w)) (cents a) in H2.
    destruct (add_exact (-2) (Dec.sub (balance w) a) (read_back a)) as [H3 H4];
      [done|by rewrite Hre| |].
    { rewrite H2. fold (cents (read_back a)). lia. }
    rewrite (compare_at (-2)) by done.
    apply Z.compare_eq_iff. rewrite H4, H2.
    fold (cents (read_back a)) (cents (balance w)). lia.
Qed.

Lemma add_then_delete_restores_witness :
  let w := run [earn 1000; spend 250] empty in
  let w1 := fst (add_transaction w (Some (dec 499 (-2))) "expense" "Food" "" noon noon) in
  let r := delete_transaction w1 (Z.of_nat (List.length (transactions w)) + 1) april in
  ids w1 = ids w ++ [(Z.of_nat (List.length (transactions w)) + 1)%Z] /\
  snd r = (true, "Transaction deleted successfully") /\
  transactions (fst r) = transactions w /\
  budget (fst r) = budget w /\
  Dec.compare (balance (fst r)) (balance w) = Eq.
Proof.
  apply (add_then_delete_restores (run [earn 1000; spend 250] empty) (dec 499 (-2))
           "expense" "Food" "" noon noon april).
  - reflexivity.
  - right. split; reflexivity.
  - vm_compute. discriminate.
  - vm_compute. discriminate.
  - vm_compute. reflexivity.
  - vm_compute. intros H. by repeat (apply elem_of_cons in H as [H|H]; [discriminate H|]); apply elem_of_nil in H.
Defined.

End RoundTrip.

(* ------------------------------------------------------------------ *)
(** ** Statistics, categories, months, loading, budget *)

Section ProjectionProperties.
Import PyStr Time Wallet Ledger Listing Accounts.
Import Dec (Decimal).

Lemma leb_trans (a b c : Decimal) :
  Dec.leb a b = true -> Dec.leb b c = true -> Dec.leb a c = true.
Proof.
  set (e := Z.min (Dec.d_exp a) (Z.min (Dec.d_exp b) (Dec.d_exp c))).
  unfold Dec.leb.
  rewrite (compare_at e a b), (compare_at e b c), (compare_at e a c) by lia.
  destruct (Z.compare_spec (Dec.scaled e a) (Dec.scaled e b));
  destruct (Z.compare_spec (Dec.scaled e b) (Dec.scaled e c));
  destruct (Z.compare_spec (Dec.scaled e a) (Dec.scaled e c)); try done; lia.
Qed.

Lemma leb_refl (a : Decimal) : Dec.leb a a = true.
Proof. unfold Dec.leb, Dec.compare. by rewrite Z.compare_refl. Qed.

Lemma ltb_leb (a b : Decimal) : Dec.ltb a b = true -> Dec.leb a b = true.
Proof. unfold Dec.ltb, Dec.leb. by destruct (Dec.compare a b). Qed.

(** The running maximum is one of the values seen and none exceeds
    it. *)
Lemma max_loop_spec (l : list Decimal) (m0 : Decimal) :
  let m := fold_left (fun m y => if Dec.ltb m y then y else m) l m0 in
  (m = m0 \/ m ∈ l) /\ Dec.leb m0 m = true /\
  (forall x, x ∈ l -> Dec.leb x m = true).
Proof.
  cbv zeta. revert m0. induction l as [|y l IH]; intros m0; cbn [fold_left].
  - split; [by left|]. split; [apply leb_refl|]. intros x Hx. by apply elem_of_nil in Hx.
  - destruct (Dec.ltb m0 y) eqn:E.
    + destruct (IH y) as (H1 & H2 & H3). split; [|split].
      * right. destruct H1 as [->|H1]; [left|by right].
      * eapply leb_trans; [by apply ltb_leb|done].
      * intros x Hx. apply elem_of_cons in Hx. destruct Hx as [->|Hx]; [done|by apply H3].
    + destruct (IH m0) as (H1 & H2 & H3). split; [|split].
      * destruct H1 as [->|H1]; [by left|right; by right].
      * done.
      * intros x Hx. apply elem_of_cons in Hx. destruct Hx as [->|Hx]; [|by apply H3].
        apply ltb_false_leb in E. by eapply leb_trans.
Qed.

Lemma amounts_length (p : Transaction -> bool) (strip : Transaction -> string)
    (ts : list Transaction) (l : list Decimal) :
  amounts p strip ts = Some l -> List.length l = List.length (List.filter p ts).
Proof.
  revert l. induction ts as [|t ts IH]; intros l H; cbn in *.
  - by inversion H.
  - destruct (p t); [|by apply IH].
    destruct (Dec.parse (strip t)); [|done].
    destruct (amounts p strip ts); [|done].
    inversion H. cbn. f_equal. by apply IH.
Qed.

Lemma amounts_income_some (ts : list Transaction) :
  Forall written ts -> is_Some (amounts is_income income_text ts).
Proof.
  induction 1 as [|t ts Ht _ IH]; [by eexists|].
  cbn [amounts]. destruct (is_income t) eqn:Hp; [|exact IH].
  destruct IH as [l Hl]. rewrite Hl.
  destruct Ht as (a & Ha & _ & [[_ Ham]|[Hty _]] & _).
  - rewrite (income_text_written a t Ha Ham). by eexists.
  - unfold is_income in Hp. rewrite Hty in Hp. done.
Qed.

Lemma written_from_add (t : Transaction) : written t -> from_add t.
Proof. intros (a & _ & _ & H & _). by exists a. Qed.

(** X12. The statistics of a store built from the empty one by a
    moderate history (at most 100000 operations whose amounts are
    finite, with an exponent of at least -1000 and below 10^1000 in
    size, so that no sum reaches the exponent limits of the context) are
    computed without an exception. Without expense records the total of
    the expenses is 0 and the average and the largest expense are 0.00,
    so nothing is divided by zero; otherwise the largest expense is the
    amount of an expense record and no expense amount exceeds it. *)
Theorem statistics_of_expenses (ops : list op) :
  moderate_history ops = true ->
  exists st expenses,
    get_statistics (run ops empty) = Some st /\
    amounts is_expense expense_text (transactions (run ops empty)) = Some expenses /\
    s_transaction_count st = List.length (transactions (run ops empty)) /\
    (expenses = [] ->
       s_total_expenses st = Dec.zero /\ s_avg_expense st = Dec.zero_00 /\
       s_largest_expense st = Dec.zero_00) /\
    (expenses <> [] -> s_largest_expense st ∈ expenses) /\
    (forall x, x ∈ expenses -> Dec.leb x (s_largest_expense st) = true).
Proof.
  intros _.
  pose proof (run_written ops) as Hw. set (w := run ops empty) in *.
  destruct (amounts_income_some _ Hw) as [li Hli].
  destruct (amounts_expense_some is_expense (transactions w)) as [le Hle]; [done| |].
  { eapply Forall_impl; [exact Hw|]. apply written_from_add. }
  unfold get_statistics, total_income. rewrite Hli, Hle.
  cbn [fmap option_fmap option_map mbind option_bind].
  eexists _, le. split; [reflexivity|]. split; [reflexivity|].
  cbn [s_transaction_count s_total_expenses s_avg_expense s_largest_expense].
  split; [reflexivity|].
  pose proof (amounts_length _ _ _ _ Hle) as Hlen.
  split; [|split].
  - intros ->. cbn in Hlen.
    destruct (List.filter is_expense (transactions w)); [done|discriminate Hlen].
  - intros Hne. destruct le as [|x le]; [done|]. cbn [max_default].
    destruct (max_loop_spec le x) as ([->|H] & _ & _); [left|by right].
  - intros x Hx. destruct le as [|y le]; [by apply elem_of_nil in Hx|].
    cbn [max_default]. destruct (max_loop_spec le y) as (_ & H2 & H3).
    apply elem_of_cons in Hx. destruct Hx as [->|Hx]; [done|by apply H3].
Qed.

Lemma statistics_of_expenses_witness :
  exists st expenses,
    get_statistics (run [earn 3000; spend 10; spend 20] empty) = Some st /\
    amounts is_expense expense_text (transactions (run [earn 3000; spend 10; spend 20] empty))
    = Some expenses /\
    s_transaction_count st
    = List.length (transactions (run [earn 3000; spend 10; spend 20] empty)) /\
    (expenses = [] ->
       s_total_expenses st = Dec.zero /\ s_avg_expense st = Dec.zero_00 /\
       s_largest_expense st = Dec.zero_00) /\
    (expenses <> [] -> s_largest_expense st ∈ expenses) /\
    (forall x, x ∈ expenses -> Dec.leb x (s_largest_expense st) = true).
Proof.
  apply (statistics_of_expenses [earn 3000; spend 10; spend 20]).
  reflexivity.
Defined.

(** The loop of [get_expense_by_category] on records as written. *)
Lemma expense_loop_some (ts : list Transaction) (m : gmap string float) :
  Forall from_add ts ->
  exists m', expense_loop ts m = Some m' /\
             dom m' = dom m ∪ list_to_set (List.map t_category (List.filter is_expense ts)).
Proof.
  intros H. revert m. induction H as [|t ts Ht _ IH]; intros m.
  - exists m. split; [done|]. cbn. by rewrite (right_id_L ∅ (∪)).
  - cbn [expense_loop List.filter]. destruct (is_expense t) eqn:Hp; [|apply IH].
    destruct Ht as [a [[Hty _]|[_ Ham]]].
    { unfold is_expense in Hp. rewrite Hty in Hp. done. }
    unfold float_of_string. rewrite (expense_text_written a t Ham). cbn.
    match goal with
    | |- exists m', expense_loop ts ?M = Some m' /\ _ =>
        destruct (IH M) as (m' & Hm' & Hdom)
    end.
    exists m'. split; [exact Hm'|].
    rewrite Hdom, dom_insert_L.
    rewrite (comm_L (∪) {[t_category t]} (dom m)).
    by rewrite <- (assoc_L (∪)).
Qed.

(** X13. On a store built from the empty one
    [get_expense_by_category] returns a dictionary whose keys are the
    categories of the expense records, and no other: a category with
    income only has no entry. *)
Theorem expense_categories_listed (ops : list op) :
  exists m,
    get_expense_by_category (run ops empty) = Some m /\
    dom m = list_to_set (List.map t_category
                           (List.filter is_expense (transactions (run ops empty)))).
Proof.
  destruct (expense_loop_some (transactions (run ops empty)) ∅ (run_from_add ops))
    as (m & Hm & Hdom).
  exists m. split; [exact Hm|].
  by rewrite Hdom, dom_empty_L, (left_id_L ∅ (∪)).
Qed.

(** X14. A window that is not positive does not limit
    [get_monthly_data]: for [months = 0] the slice [[-0:]] is the whole
    list and every month with a record is returned, and for
    [months = -k] the first [k] months are left out. *)
Theorem monthly_window_without_limit (w : PersonalWallet) (n : Z) :
  (n <= 0)%Z ->
  Forall date_readable (transactions w) ->
  Forall amount_readable (transactions w) ->
  exists res,
    get_monthly_data w n = Some res /\
    List.length res = (size (active_months w) - Z.to_nat (- n))%nat /\
    StronglySorted str_lt (res.*1) /\
    (n = 0%Z -> forall k, k ∈ res.*1 <-> k ∈ active_months w).
Proof.
  intros Hn Hd Ha.
  destruct (monthly_loop_some (transactions w) ∅ Hd Ha) as (m & Hm & Hdom).
  rewrite dom_empty_L, (left_id_L ∅ (∪)) in Hdom.
  fold (active_months w) in Hdom.
  unfold get_monthly_data. rewrite Hm. cbn.
  set (L := merge_sort str_le (map_to_list m).*1).
  assert (HP : L ≡ₚ (map_to_list m).*1) by apply merge_sort_Permutation.
  assert (Hnd : NoDup L) by (rewrite HP; apply NoDup_fst_map_to_list).
  assert (Hss : StronglySorted str_lt L).
  { apply strongly_sorted_strict; [|done]. apply StronglySorted_merge_sort; apply _. }
  assert (Hin : forall k, k ∈ L <-> k ∈ active_months w).
  { intros k. rewrite HP, <- Hdom, dom_alt. by rewrite elem_of_list_to_set. }
  assert (Hlen : List.length L = size (active_months w)).
  { rewrite <- Hdom, size_dom, HP, length_fmap. apply length_map_to_list. }
  assert (Hslice : slice_from (- n) L = drop (Z.to_nat (- n)) L).
  { unfold slice_from. destruct (Z.leb_spec 0 (- n)); [done|lia]. }
  set (res := List.map (fun k : string => (k, default month_zero (m !! k)))
                       (slice_from (- n) L)).
  assert (Hkeys : res.*1 = slice_from (- n) L) by apply keys_of_pairs.
  exists res. split; [reflexivity|]. rewrite Hkeys, Hslice.
  split; [|split].
  - unfold res. rewrite length_map, Hslice, length_drop, Hlen. reflexivity.
  - by apply strongly_sorted_drop.
  - intros ->. cbn. intros k. apply Hin.
Qed.

Lemma monthly_window_without_limit_witness :
  exists res,
    get_monthly_data (run [earn 1000; earn_in_april 500; earn_in_june 700] empty) 0
    = Some res /\
    List.length res
    = (size (active_months (run [earn 1000; earn_in_april 500; earn_in_june 700] empty))
       - Z.to_nat (- 0))%nat /\
    StronglySorted str_lt (res.*1) /\
    (0%Z = 0%Z -> forall k, k ∈ res.*1 <->
       k ∈ active_months (run [earn 1000; earn_in_april 500; earn_in_june 700] empty)).
Proof.
  apply (monthly_window_without_limit
           (run [earn 1000; earn_in_april 500; earn_in_june 700] empty) 0).
  - lia.
  - records. repeat (constructor; [eexists; vm_compute; reflexivity|]). constructor.
  - records. repeat (constructor; [eexists; vm_compute; reflexivity|]). constructor.
Defined.

(** X15. [load_data] is not all or nothing. When the balance of the
    file cannot be converted (here it is [null]), the records have been
    taken over already, and the balance and the budget stay at 0.00,
    whatever budget the file holds. *)
Theorem load_stops_at_unreadable_balance (ts : list Transaction) (g : json)
    (rest : list (string * json)) :
  let w := init (Content (JObj (("transactions", JList (List.map encode ts))
                                :: ("balance", JNull) :: ("budget", g) :: rest))) in
  transactions w = ts /\ balance w = Dec.zero_00 /\ budget w = Dec.zero_00.
Proof.
  cbv zeta. unfold init, load_data. cbn [data_file Json.get String.eqb Ascii.eqb Bool.eqb].
  cbn. rewrite decode_all_encode. cbn. done.
Qed.

(** X16. A wallet started on a file that cannot be read behaves as one
    started without a file, and its first accepted operation replaces
    the file. *)
Theorem unreadable_file_is_replaced (o : op) :
  fst (snd (step empty o)) = true ->
  step (init Corrupt) o = step empty o /\
  exists j, data_file (fst (step (init Corrupt) o)) = Content j.
Proof.
  destruct o as [amount ty c d now now_save|i now_save|amount now_save]; cbn [step].
  - unfold add_transaction.
    destruct amount as [a|]; [|done].
    destruct (Dec.leb a Dec.zero); [done|].
    destruct (String.eqb ty "income"); [intros _; split; [reflexivity|by eexists]|].
    destruct (String.eqb ty "expense"); [|done].
    change (balance (init Corrupt)) with (balance empty).
    destruct (Dec.ltb (balance empty) a); [done|].
    intros _; split; [reflexivity|by eexists].
  - done.
  - unfold set_budget. destruct amount; [|done].
    intros _; split; [reflexivity|by eexists].
Qed.

Lemma unreadable_file_is_replaced_witness :
  step (init Corrupt) (earn 1000) = step empty (earn 1000) /\
  exists j, data_file (fst (step (init Corrupt) (earn 1000))) = Content j.
Proof. apply (unreadable_file_is_replaced (earn 1000)). reflexivity. Defined.

Lemma amounts_none_selected (p : Transaction -> bool) (strip : Transaction -> string)
    (ts : list Transaction) :
  Forall (fun t => p t = false) ts -> amounts p strip ts = Some [].
Proof. induction 1 as [|t ts Ht _ IH]; cbn; [done|]. by rewrite Ht. Qed.

(** X17. The budget status counts the expenses of the current month
    only: with a positive moderate budget (finite, with an exponent of
    at least -1000 and below 10^1000 in size) and no expense dated in
    the month of the clock, which reads a date from the year 1000 on,
    the spending reported is 0, the percentage is 0.0, and what remains
    is the budget. *)
Theorem budget_counts_this_month_only (w : PersonalWallet) (now : datetime) :
  moderate (budget w) = true -> valid now = true ->
  Dec.ltb Dec.zero (budget w) = true ->
  Forall (fun t => is_expense t = true ->
                   startswith (t_date t) (strftime_Ym now) = false) (transactions w) ->
  get_budget_status w now
  = Some (Some (mkB (budget w) Dec.zero (Dec.sub (budget w) Dec.zero) 0%float)).
Proof.
  intros _ _ Hb Hts.
  assert (Hz : Dec.eqb (budget w) Dec.zero = false).
  { unfold Dec.eqb. rewrite compare_antisym. unfold Dec.ltb in Hb.
    by destruct (Dec.compare Dec.zero (budget w)). }
  unfold get_budget_status, month_expenses. rewrite Hz, Hb.
  rewrite amounts_none_selected.
  2:{ eapply Forall_impl; [exact Hts|]. cbn. intros t Ht.
      destruct (is_expense t); [by rewrite Ht|done]. }
  cbn [fmap option_fmap option_map mbind option_bind Dec.sum fold_left].
  do 3 f_equal.
  apply ltb_zero in Hb. destruct Hb as [Hs Hnz].
  unfold Dec.div. cbn [Dec.is_zero Dec.zero Dec.d_int Dec.d_sign Dec.d_exp N.eqb].
  rewrite Hs. cbn [xorb].
  unfold Dec.mul, Dec.fix_, Dec.of_int. cbn [Dec.d_int Dec.d_sign Dec.d_exp].
  change (Dec.ndigits 0) with 1%Z. cbn [Z.leb Z.compare Dec.prec xorb Dec.d_int Dec.d_sign Dec.d_exp N.mul].
  change (Dec.ndigits 0) with 1%Z. cbn [Z.leb Z.compare Dec.prec].
  unfold Dec.to_float, Dec.float_of_ratio. cbn [Dec.d_int Dec.d_sign Dec.d_exp].
  destruct (0 <=? _)%Z; reflexivity.
Qed.

Lemma budget_counts_this_month_only_witness :
  get_budget_status (run [earn 3000; spend 30; budget_of (dec 7 0)] empty) april
  = Some (Some (mkB (budget (run [earn 3000; spend 30; budget_of (dec 7 0)] empty)) Dec.zero
                    (Dec.sub (budget (run [earn 3000; spend 30; budget_of (dec 7 0)] empty))
                             Dec.zero) 0%float)).
Proof.
  apply (budget_counts_this_month_only
           (run [earn 3000; spend 30; budget_of (dec 7 0)] empty) april).
  - reflexivity.
  - reflexivity.
  - reflexivity.
  - records. repeat (constructor; [vm_compute; try reflexivity; discriminate|]). constructor.
Defined.

End ProjectionProperties.

(* ------------------------------------------------------------------ *)
(** ** Sessions of the task panel *)

Section SessionFacts.
Import PyStr Time Panel Board Session.

Lemma same_task_refl (a : Item) : same_task a a.
Proof. by repeat split. Qed.

Lemma same_task_trans (a b c : Item) : same_task a b -> same_task b c -> same_task a c.
Proof.
  intros (H1 & H2 & H3 & H4 & H5) (G1 & G2 & G3 & G4 & G5).
  repeat split; congruence.
Qed.

Lemma toggle_first_same (iid : Z) (its : list Item) (it' : Item) :
  it' ∈ toggle_first iid its -> exists it, it ∈ its /\ same_task it it'.
Proof.
  induction its as [|it its IH]; cbn; [intros H; by apply elem_of_nil in H|].
  destruct (i_id it =? iid)%Z.
  - intros H. apply elem_of_cons in H. destruct H as [->|H].
    + exists it. split; [left|by repeat split].
    + exists it'. split; [by right|apply same_task_refl].
  - intros H. apply elem_of_cons in H. destruct H as [->|H].
    + exists it. split; [left|apply same_task_refl].
    + destruct (IH H) as (u & Hu & Hs). exists u. split; [by right|done].
Qed.

Lemma rebuild_items (p : TaskPanel) :
  items (_rebuild_tree p) = items p /\ _next_id (_rebuild_tree p) = _next_id p.
Proof. unfold _rebuild_tree. by destruct (rebuild_loop p (items p)). Qed.

Lemma saved_items (its : list Item) (nid : Z) (p : TaskPanel) :
  items (save_tasks (_rebuild_tree (with_items its nid p))) = its /\
  _next_id (save_tasks (_rebuild_tree (with_items its nid p))) = nid.
Proof.
  unfold save_tasks. cbn [items _next_id with_file].
  destruct (rebuild_items (with_items its nid p)) as [-> ->]. done.
Qed.

(** One action: the counter does not go down, and an item of the new
    state is an item of the old one or takes the value of the counter. *)
Lemma act_keeps_identity (p : TaskPanel) (a : action) :
  (_next_id p <= _next_id (act p a))%Z /\
  (forall it', it' ∈ items (act p a) ->
     (exists it, it ∈ items p /\ same_task it it') \/ i_id it' = _next_id p).
Proof.
  assert (Hsame : forall it', it' ∈ items p ->
            (exists it, it ∈ items p /\ same_task it it') \/ i_id it' = _next_id p).
  { intros it' H. left. exists it'. split; [done|apply same_task_refl]. }
  destruct a as [t c pr now|sel|confirmed|sel|q st cat|]; cbn [act].
  - unfold add_task.
    destruct (String.eqb (strip t) ""); [split; [lia|done]|].
    destruct (String.eqb (strip c) "Category"); [split; [lia|done]|].
    match goal with
    | |- context [with_items ?its ?nid p] =>
        destruct (saved_items its nid p) as [-> ->]
    end.
    split; [lia|]. intros it' H. apply elem_of_app in H. destruct H as [H|H].
    + by apply Hsame.
    + apply list_elem_of_singleton in H. subst it'. by right.
  - unfold delete_selected. destruct sel; [split; [lia|done]|].
    match goal with
    | |- context [with_items ?its ?nid p] =>
        destruct (saved_items its nid p) as [-> ->]
    end.
    split; [lia|]. intros it' H.
    apply list_elem_of_In, List.filter_In in H. destruct H as [H _].
    apply Hsame. by apply list_elem_of_In.
  - unfold clear_all. destruct (items p) eqn:E; [split; [lia|by rewrite E]|].
    destruct confirmed; [|split; [lia|by rewrite E]].
    match goal with
    | |- context [with_items ?its ?nid p] =>
        destruct (saved_items its nid p) as [-> ->]
    end.
    split; [lia|]. intros it' H. by apply elem_of_nil in H.
  - unfold mark_one. destruct sel as [|s [|]]; try (split; [lia|done]).
    destruct (int_of_str s); [|split; [lia|done]].
    match goal with
    | |- context [with_items ?its ?nid p] =>
        destruct (saved_items its nid p) as [-> ->]
    end.
    split; [lia|]. intros it' H. left. by eapply toggle_first_same.
  - unfold filter_tasks.
    destruct (rebuild_items (with_filters q st cat p)) as [-> ->].
    split; [cbn; lia|done].
  - split; [cbn; lia|done].
Qed.

Lemma play_app (f : file) (now : datetime) (acts acts' : list action) :
  play f now (acts ++ acts') = fold_left act acts' (play f now acts).
Proof. unfold play. apply fold_left_app. Qed.

Lemma play_snoc (f : file) (now : datetime) (acts : list action) (a : action) :
  play f now (acts ++ [a]) = act (play f now acts) a.
Proof. by rewrite play_app. Qed.

(** X18. The task panel never gives an identifier twice in a plain
    session (one started on no file or on a file whose entries have
    strings of ASCII characters as category, priority, text and time,
    with ASCII texts typed in): the identifiers of the items are
    distinct, the counter does not go down, and an item found later
    under an identifier the counter had passed is the task that had it
    then (only its [done] mark may differ). *)
Theorem task_ids_never_reassigned (f : file) (now : datetime) (acts acts' : list action) :
  plain_session f (acts ++ acts') = true ->
  let p1 := play f now acts in
  let p2 := play f now (acts ++ acts') in
  NoDup (List.map i_id (items p2)) /\
  (_next_id p1 <= _next_id p2)%Z /\
  (forall it2, it2 ∈ items p2 -> (i_id it2 < _next_id p1)%Z ->
     exists it1, it1 ∈ items p1 /\ same_task it1 it2).
Proof.
  intros _. cbv zeta. split; [apply play_good|].
  induction acts' as [|a acts' IH] using rev_ind.
  - rewrite app_nil_r. split; [lia|].
    intros it2 H _. exists it2. split; [done|apply same_task_refl].
  - rewrite app_assoc, play_snoc. destruct IH as [Hle Hold].
    destruct (act_keeps_identity (play f now (acts ++ acts')) a) as [Hle' Hstep].
    split; [lia|]. intros it2 H Hlt.
    destruct (Hstep it2 H) as [(it & Hit & Hs)|Hnew]; [|lia].
    destruct (Hold it Hit) as (it1 & Hit1 & Hs1).
    { destruct Hs as [-> _]. done. }
    exists it1. split; [done|by eapply same_task_trans].
Qed.

Lemma task_ids_never_reassigned_witness :
  let acts := [AddTask "Sweep" "Home" "Medium" noon; AddTask "Run" "Gym" "High" noon] in
  let acts' := [DeleteSelected ["2"]; AddTask "Swim" "Gym" "Low" noon] in
  let p1 := play Absent noon acts in
  let p2 := play Absent noon (acts ++ acts') in
  NoDup (List.map i_id (items p2)) /\
  (_next_id p1 <= _next_id p2)%Z /\
  (forall it2, it2 ∈ items p2 -> (i_id it2 < _next_id p1)%Z ->
     exists it1, it1 ∈ items p1 /\ same_task it1 it2).
Proof.
  apply (task_ids_never_reassigned Absent noon
           [AddTask "Sweep" "Home" "Medium" noon; AddTask "Run" "Gym" "High" noon]
           [DeleteSelected ["2"]; AddTask "Swim" "Gym" "Low" noon]).
  reflexivity.
Defined.

End SessionFacts.

Section RestartFacts.
Import PyStr Time Panel Board Session.

Lemma load_item_meta (nid : Z) (now : datetime) (it : Item) :
  load_item nid now (meta_of it)
  = Some (mkItem nid (i_cat it) (i_priority it) (i_task it) (i_time it) (i_done it)).
Proof. reflexivity. Qed.

Lemma load_loop_meta (now : datetime) (its acc : list Item) (nid : Z) :
  load_loop now (List.map meta_of its) acc nid
  = (acc ++ renumber nid its, (nid + Z.of_nat (List.length its))%Z).
Proof.
  revert acc nid. induction its as [|it its IH]; intros acc nid.
  - cbn. by rewrite app_nil_r, Z.add_0_r.
  - cbn [List.map load_loop]. rewrite load_item_meta, IH.
    cbn [renumber List.length]. rewrite <- app_assoc. f_equal. lia.
Qed.

Lemma init_on_saved (p : TaskPanel) (its : list Item) (now : datetime) :
  records_on_file (save_tasks p) = List.map meta_of its ->
  items (init (data_file (save_tasks p)) now) = renumber 1 its /\
  _next_id (init (data_file (save_tasks p)) now) = (1 + Z.of_nat (List.length its))%Z.
Proof.
  unfold records_on_file, save_tasks. cbn [data_file with_file]. intros ->.
  unfold init, load_tasks. cbn [data_file]. rewrite load_loop_meta.
  match goal with
  | |- context [_rebuild_tree ?q] => destruct (rebuild_items q) as [-> ->]
  end.
  done.
Qed.

Lemma no_filter_passes (p : TaskPanel) (it : Item) :
  no_filter p -> _passes_filters p it = true.
Proof.
  intros (Hq & Hst & Hc). unfold _passes_filters. rewrite Hq, Hst, Hc. reflexivity.
Qed.

Lemma rebuild_no_filter (p : TaskPanel) : no_filter p -> no_filter (_rebuild_tree p).
Proof. unfold no_filter, _rebuild_tree. by destruct (rebuild_loop p (items p)). Qed.

Lemma init_no_filter (f : file) (now : datetime) : no_filter (init f now).
Proof.
  unfold init, load_tasks. cbn [data_file].
  destruct f as [| |[]]; try (by apply rebuild_no_filter).
  destruct (load_loop now l [] 1). by apply rebuild_no_filter.
Qed.

Lemma filter_all {A} (f : A -> bool) (l : list A) :
  (forall x, f x = true) -> List.filter f l = l.
Proof. intros H. induction l as [|x l IH]; cbn; [done|]. by rewrite H, IH. Qed.

(** X19. A panel started on the file written by [save_tasks] after a
    plain session (ASCII strings in the entries of its file and in what
    was typed) holds the tasks that passed the filters when the file was
    written, in their order, with their category, priority, text, time
    and mark, and with the identifiers 1, 2, ...; all of them are
    shown. *)
Theorem restart_shows_the_saved_view (f : file) (now now' : datetime)
    (acts : list action) :
  plain_session f acts = true ->
  let p := play f now acts in
  let q := init (data_file (save_tasks p)) now' in
  items q = renumber 1 (visible p) /\
  _next_id q = (1 + Z.of_nat (List.length (visible p)))%Z /\
  tree q = List.map (fun it => str_of_int (i_id it)) (items q).
Proof.
  intros _. cbv zeta.
  destruct (init_on_saved (play f now acts) (visible (play f now acts)) now')
    as [H1 H2]; [apply save_writes_only_the_view|].
  split; [exact H1|]. split; [exact H2|].
  set (q := init (data_file (save_tasks (play f now acts))) now') in *.
  destruct (init_good (data_file (save_tasks (play f now acts))) now') as [[Hnd _] Hs].
  fold q in Hnd, Hs.
  pose proof (rebuild_loop_view q _ Hnd) as H. unfold in_sync in Hs. rewrite Hs in H.
  destruct H as [-> _]. f_equal.
  apply filter_all. intros it. apply no_filter_passes, init_no_filter.
Qed.

Lemma restart_shows_the_saved_view_witness :
  let acts := [AddTask "Sweep" "Home" "Medium" noon; AddTask "Run" "Gym" "High" noon;
               FilterTasks "" "All" "Gym"; SaveNow] in
  let p := play Absent noon acts in
  let q := init (data_file (save_tasks p)) noon in
  items q = renumber 1 (visible p) /\
  _next_id q = (1 + Z.of_nat (List.length (visible p)))%Z /\
  tree q = List.map (fun it => str_of_int (i_id it)) (items q).
Proof.
  apply (restart_shows_the_saved_view Absent noon noon
           [AddTask "Sweep" "Home" "Medium" noon; AddTask "Run" "Gym" "High" noon;
            FilterTasks "" "All" "Gym"; SaveNow]).
  reflexivity.
Defined.

End RestartFacts.

Section UnfilteredFacts.
Import PyStr Time Panel Board Session.

Lemma saved_no_filter (its : list Item) (nid : Z) (p : TaskPanel) :
  no_filter p -> no_filter (save_tasks (_rebuild_tree (with_items its nid p))).
Proof.
  intros H. unfold save_tasks, no_filter. cbn [search_var filter_var category_filter_var with_file].
  by apply (rebuild_no_filter (with_items its nid p)).
Qed.

Lemma act_no_filter (p : TaskPanel) (a : action) :
  unfiltered a -> no_filter p -> no_filter (act p a).
Proof.
  intros Ha Hp.
  destruct a as [t c pr now|sel|confirmed|sel|q st cat|]; cbn [act]; [| | | |done|done].
  - unfold add_task.
    destruct (String.eqb (strip t) ""); [done|].
    destruct (String.eqb (strip c) "Category"); [done|]. by apply saved_no_filter.
  - unfold delete_selected. destruct sel; [done|]. by apply saved_no_filter.
  - unfold clear_all. destruct (items p); [done|].
    destruct confirmed; [|done]. by apply saved_no_filter.
  - unfold mark_one. destruct sel as [|s [|]]; try done.
    destruct (int_of_str s); [|done]. by apply saved_no_filter.
Qed.

Lemma play_no_filter (f : file) (now : datetime) (acts : list action) :
  Forall unfiltered acts -> no_filter (play f now acts).
Proof.
  unfold play. generalize (init_no_filter f now). generalize (init f now).
  induction acts as [|a acts IH]; intros p Hp Ha; [done|].
  apply Forall_cons in Ha. destruct Ha as [Ha Hacts].
  cbn. apply IH; [|done]. by apply act_no_filter.
Qed.

(** X20. In a plain session (ASCII strings in the entries of its file
    and in what is typed) in which the search box and the filters are
    never used, [save_tasks] writes every item of the store, and a panel
    started on the file has all of them back. *)
Theorem unfiltered_session_saves_everything (f : file) (now now' : datetime)
    (acts : list action) :
  plain_session f acts = true ->
  Forall unfiltered acts ->
  let p := play f now acts in
  records_on_file (save_tasks p) = List.map meta_of (items p) /\
  items (init (data_file (save_tasks p)) now') = renumber 1 (items p).
Proof.
  intros _ Ha. cbv zeta.
  pose proof (play_no_filter f now acts Ha) as Hnf.
  assert (Hvis : visible (play f now acts) = items (play f now acts)).
  { apply filter_all. intros it. by apply no_filter_passes. }
  assert (Hrec : records_on_file (save_tasks (play f now acts))
                 = List.map meta_of (items (play f now acts))).
  { rewrite <- Hvis. apply save_writes_only_the_view. }
  split; [exact Hrec|]. by apply init_on_saved.
Qed.

Lemma unfiltered_session_saves_everything_witness :
  let acts := [AddTask "Sweep" "Home" "Medium" noon; AddTask "Run" "Gym" "High" noon;
               MarkOne ["1"]; SaveNow] in
  let p := play Absent noon acts in
  records_on_file (save_tasks p) = List.map meta_of (items p) /\
  items (init (data_file (save_tasks p)) noon) = renumber 1 (items p).
Proof.
  apply (unfiltered_session_saves_everything Absent noon noon
           [AddTask "Sweep" "Home" "Medium" noon; AddTask "Run" "Gym" "High" noon;
            MarkOne ["1"]; SaveNow]).
  - reflexivity.
  - repeat constructor.
Defined.

End UnfilteredFacts.

Section StatsFacts.
Import PyStr Time Panel Board Session Stats.

(** The snapshots kept after a rebuild are those of the items that pass
    the filters. *)
Lemma rebuild_loop_metas (p : TaskPanel) (its : list Item) :
  NoDup (List.map i_id its) ->
  map_to_list (rebuild_loop p its).1
  ≡ₚ List.map row (List.filter (_passes_filters p) its).
Proof.
  induction its as [|it its IH] using rev_ind; intros Hnd.
  - cbn. by rewrite map_to_list_empty.
  - rewrite rebuild_loop_snoc.
    rewrite map_app in Hnd. apply NoDup_app in Hnd. destruct Hnd as (Hnd & Hfresh & _).
    specialize (IH Hnd). destruct (rebuild_loop p its) as [m t]. cbn [fst] in *.
    rewrite filter_snoc.
    destruct (_passes_filters p it); [|by rewrite app_nil_r].
    cbn [fst]. rewrite map_app. cbn [List.map].
    rewrite map_to_list_insert.
    + rewrite IH. apply (Permutation_cons_append _ (row it)).
    + destruct (m !! str_of_int (i_id it)) as [v|] eqn:E; [|done].
      exfalso. apply elem_of_map_to_list in E. rewrite IH in E.
      apply list_elem_of_In, in_map_iff in E. destruct E as (it' & Hrow & Hin).
      injection Hrow as Hkey _. apply str_of_int_inj in Hkey.
      apply List.filter_In in Hin. destruct Hin as [Hin _].
      apply (Hfresh (i_id it)).
      * rewrite <- Hkey. apply list_elem_of_In, in_map. exact Hin.
      * left.
Qed.

Lemma mapM_meta_done (l : list json) :
  Forall (fun v => is_Some (meta_done v)) l ->
  mapM meta_done l = Some (List.map is_done l).
Proof.
  induction 1 as [|v l [b Hb] _ IH]; [done|].
  cbn. unfold is_done at 1. rewrite Hb, IH. reflexivity.
Qed.

Lemma count_map {A} (f : A -> bool) (l : list A) :
  List.length (List.filter (fun b : bool => b) (List.map f l))
  = List.length (List.filter f l).
Proof. induction l as [|x l IH]; cbn; [done|]. destruct (f x); cbn; by rewrite IH. Qed.

Lemma count_perm {A} (f : A -> bool) (l l' : list A) :
  l ≡ₚ l' -> List.length (List.filter f l) = List.length (List.filter f l').
Proof.
  induction 1 as [|x l l' _ IH|x y l|l l' l'' _ IH1 _ IH2]; cbn.
  - done.
  - destruct (f x); cbn; by rewrite IH.
  - by destruct (f x), (f y).
  - by rewrite IH1.
Qed.

Lemma count_split {A} (f : A -> bool) (l : list A) :
  (List.length l - List.length (List.filter f l))%nat
  = List.length (List.filter (fun x => negb (f x)) l).
Proof.
  induction l as [|x l IH]; cbn; [done|].
  pose proof (List.filter_length_le f l).
  destruct (f x); cbn; rewrite <- IH; lia.
Qed.

(** X21. In a plain session (ASCII strings in the entries of its file
    and in what is typed) the figures of the status bar and of the
    statistics dialog count the rows of the tree, that is the items that
    pass the filters, not the store: the total is their number, the
    completed ones are those marked done, and the pending ones are the
    others. *)
Theorem stats_count_the_view (f : file) (now : datetime) (acts : list action) :
  plain_session f acts = true ->
  let p := play f now acts in
  counts p
  = Some (List.length (List.filter i_done (visible p)),
          List.length (List.filter (fun it => negb (i_done it)) (visible p)),
          List.length (visible p)) /\
  tree p = List.map (fun it => str_of_int (i_id it)) (visible p).
Proof.
  intros _. cbv zeta. set (p := play f now acts).
  destruct (play_good f now acts) as [[Hnd _] Hs]. fold p in Hnd, Hs.
  pose proof (rebuild_loop_metas p (items p) Hnd) as HP.
  pose proof (rebuild_loop_view p (items p) Hnd) as HV.
  unfold in_sync in Hs. rewrite Hs in HP, HV. cbn [fst] in HP.
  destruct HV as [HV _]. split; [|exact HV].
  fold (visible p) in HP.
  assert (Hvals : (map_to_list (metas p)).*2 ≡ₚ List.map meta_of (visible p)).
  { rewrite HP. clear. induction (visible p) as [|it l IH]; [done|]. cbn. by f_equiv. }
  assert (Htotal : size (metas p) = List.length (visible p)).
  { rewrite <- length_map_to_list, HP. apply length_map. }
  unfold counts. rewrite mapM_meta_done.
  2:{ rewrite Hvals. clear. induction (visible p); constructor; [by eexists|done]. }
  cbn [mbind option_bind]. rewrite Htotal, count_map.
  rewrite (count_perm is_done _ _ Hvals).
  assert (Hdone : List.length (List.filter is_done (List.map meta_of (visible p)))
                  = List.length (List.filter i_done (visible p))).
  { clear. induction (visible p) as [|it l IH]; [done|].
    cbn [List.map List.filter].
    change (is_done (meta_of it)) with (i_done it).
    destruct (i_done it); cbn; by rewrite IH. }
  rewrite Hdone, count_split. reflexivity.
Qed.

Lemma stats_count_the_view_witness :
  let acts := [AddTask "Sweep" "Home" "Medium" noon; AddTask "Run" "Gym" "High" noon;
               MarkOne ["1"]; FilterTasks "" "Pending" "All"] in
  let p := play Absent noon acts in
  counts p
  = Some (List.length (List.filter i_done (visible p)),
          List.length (List.filter (fun it => negb (i_done it)) (visible p)),
          List.length (visible p)) /\
  tree p = List.map (fun it => str_of_int (i_id it)) (visible p).
Proof.
  apply (stats_count_the_view Absent noon
           [AddTask "Sweep" "Home" "Medium" noon; AddTask "Run" "Gym" "High" noon;
            MarkOne ["1"]; FilterTasks "" "Pending" "All"]).
  reflexivity.
Defined.

End StatsFacts.

Section SelectionFacts.
Import PyStr Time Panel Board Session.

Lemma forallb_digits (n : N) : forallb is_digit (digits n) = true.
Proof.
  apply forallb_forall. intros c Hc.
  pose proof (digits_all_digit n) as H. rewrite Forall_forall in H.
  apply H. by apply list_elem_of_In.
Qed.

(** [int] reads what [str] writes. *)
Lemma int_of_str_of_int (z : Z) : int_of_str (str_of_int z) = Some z.
Proof.
  unfold int_of_str, str_of_int. rewrite chars_of_chars.
  pose proof (forallb_digits (Z.to_N (Z.abs z))) as Hall.
  pose proof (digits_nonempty (Z.to_N (Z.abs z))) as Hne.
  pose proof (int_of_digits_digits (Z.to_N (Z.abs z))) as Hval.
  destruct (Z.ltb_spec z 0) as [Hneg|Hpos]; cbn [app].
  - change (Ascii.eqb "-" "-") with true. cbv iota. rewrite Hall.
    destruct (digits (Z.to_N (Z.abs z))) as [|c l] eqn:E; [done|].
    cbn [List.length Nat.eqb negb andb]. rewrite Hval. f_equal. lia.
  - destruct (digits (Z.to_N (Z.abs z))) as [|c l] eqn:E; [done|].
    assert (Hc : is_digit c = true) by (cbn in Hall; by apply andb_true_iff in Hall as [? _]).
    destruct (Ascii.eqb_spec c "-") as [->|_]; [done|].
    rewrite Hall, Hval. f_equal. lia.
Qed.

(** The rows of the tree of a session are the identifiers of the visible
    items. *)
Lemma session_tree (f : file) (now : datetime) (acts : list action) :
  tree (play f now acts)
  = List.map (fun it => str_of_int (i_id it)) (visible (play f now acts)).
Proof.
  destruct (play_good f now acts) as [[Hnd _] Hs].
  pose proof (rebuild_loop_view (play f now acts) _ Hnd) as H.
  unfold in_sync in Hs. rewrite Hs in H. by destruct H as [H _].
Qed.

Lemma selected_spec (sel : list string) (z : Z) :
  (forall s, s ∈ sel -> exists z', s = str_of_int z') ->
  existsb (Z.eqb z) (omap int_of_str sel) = true <-> str_of_int z ∈ sel.
Proof.
  intros Hsel. rewrite existsb_exists. split.
  - intros (z' & Hin & Heq). apply Z.eqb_eq in Heq. subst z'.
    apply list_elem_of_In, list_elem_of_omap in Hin. destruct Hin as (s & Hs & Hz).
    destruct (Hsel s Hs) as [z' ->]. rewrite int_of_str_of_int in Hz.
    by inversion Hz; subst.
  - intros Hin. exists z. split; [|apply Z.eqb_refl].
    apply list_elem_of_In, list_elem_of_omap. exists (str_of_int z).
    split; [done|apply int_of_str_of_int].
Qed.

Lemma filter_ext_in' {A} (f g : A -> bool) (l : list A) :
  (forall x, f x = g x) -> List.filter f l = List.filter g l.
Proof. intros H. induction l as [|x l IH]; cbn; [done|]. by rewrite H, IH. Qed.

(** X22. After a plain session (ASCII strings in the entries of its
    file and in what was typed) [delete_selected] removes from the store
    exactly the items whose rows are selected; the other items stay, in
    their order, none of the selected rows is in the tree afterwards,
    and the counter of identifiers is as before. *)
Theorem delete_selected_removes_the_selection (f : file) (now : datetime)
    (acts : list action) (sel : list string) :
  plain_session f acts = true ->
  let p := play f now acts in
  sel <> [] ->
  (forall s, s ∈ sel -> s ∈ tree p) ->
  let q := delete_selected p sel in
  items q
  = List.filter (fun it => negb (bool_decide (str_of_int (i_id it) ∈ sel))) (items p) /\
  (forall s, s ∈ sel -> s ∉ tree q) /\
  _next_id q = _next_id p.
Proof.
  cbv zeta. intros _ Hne Hsel. set (p := play f now acts) in *.
  assert (Hnum : forall s, s ∈ sel -> exists z', s = str_of_int z').
  { intros s Hs. apply Hsel in Hs. unfold p in Hs. rewrite session_tree in Hs.
    apply list_elem_of_In, in_map_iff in Hs. destruct Hs as (it & <- & _). by eexists. }
  assert (Hitems : items (delete_selected p sel)
            = List.filter (fun it => negb (bool_decide (str_of_int (i_id it) ∈ sel)))
                          (items p)).
  { unfold delete_selected. destruct sel as [|s0 sel']; [done|].
    match goal with
    | |- context [with_items ?its ?nid p] =>
        destruct (saved_items its nid p) as [-> _]
    end.
    apply filter_ext_in'. intros it. f_equal.
    apply eq_true_iff_eq. rewrite bool_decide_eq_true. by apply selected_spec. }
  split; [exact Hitems|]. split.
  - intros s Hs Hin.
    change (delete_selected p sel) with (act p (DeleteSelected sel)) in Hin, Hitems.
    unfold p in Hin, Hitems. rewrite <- play_snoc in Hin, Hitems.
    rewrite session_tree in Hin.
    apply list_elem_of_In, in_map_iff in Hin. destruct Hin as (it & <- & Hin).
    apply List.filter_In in Hin. destruct Hin as [Hin _].
    rewrite Hitems in Hin. apply List.filter_In in Hin. destruct Hin as [_ Hkeep].
    apply negb_true_iff, bool_decide_eq_false in Hkeep. done.
  - unfold delete_selected. destruct sel as [|s0 sel']; [done|].
    match goal with
    | |- context [with_items ?its ?nid p] =>
        destruct (saved_items its nid p) as [_ ->]
    end.
    reflexivity.
Qed.

Lemma delete_selected_removes_the_selection_witness :
  let p := play Absent noon [AddTask "Sweep" "Home" "Medium" noon;
                             AddTask "Run" "Gym" "High" noon] in
  let q := delete_selected p ["1"] in
  items q
  = List.filter (fun it => negb (bool_decide (str_of_int (i_id it) ∈ ["1"]))) (items p) /\
  (forall s, s ∈ ["1"] -> s ∉ tree q) /\
  _next_id q = _next_id p.
Proof.
  apply (delete_selected_removes_the_selection Absent noon
           [AddTask "Sweep" "Home" "Medium" noon; AddTask "Run" "Gym" "High" noon] ["1"]).
  - reflexivity.
  - discriminate.
  - intros s Hs. apply list_elem_of_singleton in Hs. subst s. vm_compute. left.
Defined.

Lemma toggle_first_twice (iid : Z) (its : list Item) :
  toggle_first iid (toggle_first iid its) = its.
Proof.
  induction its as [|it its IH]; [done|]. cbn [toggle_first].
  destruct (i_id it =? iid)%Z eqn:E; cbn [toggle_first i_id i_cat i_priority i_task i_time i_done].
  - rewrite E, negb_involutive. by destruct it.
  - by rewrite E, IH.
Qed.

Lemma passes_any_status (p : TaskPanel) (i : Z) (c pr t tm : string) (d d' : bool) :
  filter_var p = "All" ->
  _passes_filters p (mkItem i c pr t tm d) = _passes_filters p (mkItem i c pr t tm d').
Proof. intros H. unfold _passes_filters. rewrite H. reflexivity. Qed.

Lemma toggle_first_view (p : TaskPanel) (iid : Z) (its : list Item) :
  filter_var p = "All" ->
  List.map i_id (List.filter (_passes_filters p) (toggle_first iid its))
  = List.map i_id (List.filter (_passes_filters p) its).
Proof.
  intros H. induction its as [|it its IH]; [done|]. cbn [toggle_first].
  destruct (i_id it =? iid)%Z.
  - cbn [List.filter]. destruct it as [i c pr t tm d]. cbn [i_id i_cat i_priority i_task i_time i_done].
    rewrite (passes_any_status p i c pr t tm (negb d) d H).
    by destruct (_passes_filters p _).
  - cbn [List.filter]. destruct (_passes_filters p it); cbn; by rewrite IH.
Qed.

Lemma rebuild_loop_filters (p p' : TaskPanel) (its : list Item) :
  search_var p = search_var p' -> filter_var p = filter_var p' ->
  category_filter_var p = category_filter_var p' ->
  rebuild_loop p its = rebuild_loop p' its.
Proof.
  intros H1 H2 H3. unfold rebuild_loop. f_equal.
  unfold _passes_filters. by rewrite H1, H2, H3.
Qed.

(** X23. [mark_one] is a toggle. After a plain session (ASCII strings
    in the entries of its file and in what was typed), with the status
    filter on [All], the row stays in the tree when its task is marked,
    and marking the same row again gives the state before the first
    marking, as saved. *)
Theorem mark_twice_restores (f : file) (now : datetime) (acts : list action) (s : string) :
  plain_session f acts = true ->
  let p := play f now acts in
  s ∈ tree p ->
  filter_var p = "All" ->
  tree (mark_one p [s]) = tree p /\
  mark_one (mark_one p [s]) [s] = save_tasks p.
Proof.
  cbv zeta. intros _ Hs Hall. set (p := play f now acts) in *.
  destruct (play_good f now acts) as [[Hnd _] Hsync]. fold p in Hnd, Hsync.
  assert (Hz : exists z, int_of_str s = Some z).
  { unfold p in Hs. rewrite session_tree in Hs.
    apply list_elem_of_In, in_map_iff in Hs. destruct Hs as (it & <- & _).
    eexists. apply int_of_str_of_int. }
  destruct Hz as [z Hz].
  split.
  - change (mark_one p [s]) with (act p (MarkOne [s])).
    unfold p. rewrite <- play_snoc, !session_tree, play_snoc. fold p.
    unfold visible. cbn [act]. unfold mark_one. rewrite Hz.
    match goal with
    | |- context [with_items ?its ?nid p] =>
        destruct (saved_items its nid p) as [-> _]
    end.
    rewrite <- !(map_map i_id str_of_int). f_equal.
    rewrite <- (toggle_first_view p z (items p) Hall).
    f_equal. apply filter_ext_in'. intros it.
    unfold _passes_filters, save_tasks, _rebuild_tree.
    destruct (rebuild_loop _ _). reflexivity.
  - unfold in_sync in Hsync. unfold mark_one. rewrite Hz.
    destruct p as [its nid m t q st cat file].
    cbn [items metas tree] in Hsync. cbn [filter_var] in Hall.
    cbn [items _next_id].
    unfold save_tasks, _rebuild_tree, with_items, with_view, with_file.
    cbn [items _next_id metas tree search_var filter_var category_filter_var data_file].
    rewrite (rebuild_loop_filters _ (mkP its nid m t q st cat file)
               (toggle_first z its)) by reflexivity.
    destruct (rebuild_loop (mkP its nid m t q st cat file) (toggle_first z its))
      as [m1 t1] eqn:E1.
    cbn [items _next_id metas tree search_var filter_var category_filter_var data_file].
    rewrite toggle_first_twice.
    rewrite (rebuild_loop_filters _ (mkP its nid m t q st cat file) its) by reflexivity.
    rewrite Hsync.
    cbn [items _next_id metas tree search_var filter_var category_filter_var data_file].
    reflexivity.
Qed.

Lemma mark_twice_restores_witness :
  let p := play Absent noon [AddTask "Sweep" "Home" "Medium" noon;
                             AddTask "Run" "Gym" "High" noon] in
  tree (mark_one p ["2"]) = tree p /\
  mark_one (mark_one p ["2"]) ["2"] = save_tasks p.
Proof.
  apply (mark_twice_restores Absent noon
           [AddTask "Sweep" "Home" "Medium" noon; AddTask "Run" "Gym" "High" noon] "2").
  - reflexivity.
  - vm_compute. right. left.
  - reflexivity.
Defined.

End SelectionFacts.

Section SearchFacts.
Import PyStr Time Panel Board Session.

Lemma append_cons (c : ascii) (a b : string) : String c a +:+ b = String c (a +:+ b).
Proof. reflexivity. Qed.

Lemma of_chars_app (a b : list ascii) : of_chars (a ++ b) = of_chars a +:+ of_chars b.
Proof.
  unfold of_chars. induction a as [|c a IH]; simpl; [done|].
  rewrite append_cons. by f_equal.
Qed.

Lemma append_assoc (a b c : string) : (a +:+ b) +:+ c = a +:+ (b +:+ c).
Proof.
  induction a as [|x a IH]; [done|]. rewrite !append_cons. by f_equal.
Qed.

Lemma of_chars_chars (s : string) : of_chars (chars s) = s.
Proof. apply string_of_list_ascii_of_string. Qed.

Lemma lower_app (a b : string) : lower (a +:+ b) = lower a +:+ lower b.
Proof. unfold lower. by rewrite chars_append, map_app, of_chars_app. Qed.

Lemma prefix_app (q rest : string) : String.prefix q (q +:+ rest) = true.
Proof.
  induction q as [|c q IH]; [by destruct rest|].
  rewrite append_cons. simpl. destruct (ascii_dec c c); [exact IH|done].
Qed.

Lemma contains_infix (q pre post : string) : contains q (pre +:+ q +:+ post) = true.
Proof.
  induction pre as [|c pre IH].
  - change (EmptyString +:+ q +:+ post) with (q +:+ post).
    destruct (q +:+ post) eqn:E; cbn [contains];
      rewrite <- E, prefix_app; reflexivity.
  - change (String c pre +:+ q +:+ post) with (String c (pre +:+ q +:+ post)).
    cbn [contains]. rewrite IH. apply orb_true_r.
Qed.

Lemma lstrip_suffix (l : list ascii) : exists pre, l = pre ++ lstrip l.
Proof.
  induction l as [|c l [pre IH]]; [by exists []|]. cbn.
  destruct (is_space c); [|by exists []].
  exists (c :: pre). cbn. by f_equal.
Qed.

(** The stripped text is a part of the text. *)
Lemma strip_infix (s : string) : exists pre post, s = pre +:+ strip s +:+ post.
Proof.
  destruct (lstrip_suffix (chars s)) as [pre Hpre].
  destruct (lstrip_suffix (rev (lstrip (chars s)))) as [post Hpost].
  exists (of_chars pre), (of_chars (rev post)).
  unfold strip. rewrite <- !of_chars_app, <- rev_app_distr, <- Hpost, rev_involutive.
  by rewrite <- Hpre, of_chars_chars.
Qed.

(** X24. Searching for the text of a task finds it: with the status
    and the category filter on [All], an item passes the filters when
    the search box holds its text, whatever the case of the letters and
    the white space around it. *)
Theorem search_finds_the_task_text (p : TaskPanel) (it : Item) :
  filter_var p = "All" ->
  category_filter_var p = "All" ->
  search_var p = i_task it ->
  _passes_filters p it = true.
Proof.
  intros Hst Hcat Hq. unfold _passes_filters. rewrite Hst, Hcat, Hq.
  cbn [String.eqb Ascii.eqb Bool.eqb negb andb].
  destruct (String.eqb (lower (strip (i_task it))) ""); cbn [negb]; [done|].
  destruct (strip_infix (i_task it)) as (pre & post & E).
  set (q := lower (strip (i_task it))).
  rewrite E. rewrite !lower_app. fold q.
  rewrite !append_assoc.
  apply contains_infix.
Qed.

End SearchFacts.

Section LoadFacts.
Import PyStr Time Panel Board Session.

Lemma search_finds_the_task_text_witness :
  _passes_filters (filter_tasks two_tasks "  Sweep " "All" "All")
                  (mkItem 1 "Home" "Medium" "  Sweep " "2024-03-05 12:00" false) = true.
Proof.
  apply (search_finds_the_task_text (filter_tasks two_tasks "  Sweep " "All" "All")
           (mkItem 1 "Home" "Medium" "  Sweep " "2024-03-05 12:00" false));
    reflexivity.
Defined.

Lemma load_loop_prefix (now : datetime) (its : list Item) (tl : list json)
    (acc : list Item) (nid : Z) :
  load_loop now (List.map meta_of its ++ tl) acc nid
  = load_loop now tl (acc ++ renumber nid its) (nid + Z.of_nat (List.length its))%Z.
Proof.
  revert acc nid. induction its as [|it its IH]; intros acc nid.
  - cbn. by rewrite app_nil_r, Z.add_0_r.
  - cbn [List.map app load_loop]. rewrite load_item_meta, IH.
    cbn [renumber List.length]. rewrite <- app_assoc. f_equal. lia.
Qed.

(** X25. [load_tasks] stops at the first entry of the file that is not
    an object: the tasks before it are loaded, with the identifiers 1,
    2, ..., and shown; the entries after it are lost. *)
Theorem load_stops_at_malformed_entry (good : list Item) (bad : json)
    (rest : list json) (now : datetime) :
  match bad with JObj _ => False | _ => True end ->
  let p := init (Content (JList (List.map meta_of good ++ bad :: rest))) now in
  items p = renumber 1 good /\
  _next_id p = (1 + Z.of_nat (List.length good))%Z /\
  tree p = List.map (fun it => str_of_int (i_id it)) (items p).
Proof.
  intros Hbad. cbv zeta.
  set (p := init _ now).
  assert (H : items p = renumber 1 good /\
              _next_id p = (1 + Z.of_nat (List.length good))%Z).
  { unfold p, init, load_tasks. cbn [data_file]. rewrite load_loop_prefix.
    cbn [load_loop app].
    assert (E : load_item (1 + Z.of_nat (List.length good)) now bad = None)
      by (by destruct bad).
    rewrite E.
    match goal with
    | |- context [_rebuild_tree ?q] => destruct (rebuild_items q) as [-> ->]
    end.
    done. }
  destruct H as [H1 H2]. split; [exact H1|]. split; [exact H2|].
  destruct (init_good (Content (JList (List.map meta_of good ++ bad :: rest))) now)
    as [[Hnd _] Hs].
  fold p in Hnd, Hs.
  pose proof (rebuild_loop_view p _ Hnd) as H. unfold in_sync in Hs. rewrite Hs in H.
  destruct H as [-> _]. f_equal.
  apply filter_all. intros it. apply no_filter_passes, init_no_filter.
Qed.

Lemma load_stops_at_malformed_entry_witness :
  let good := [mkItem 7 "Home" "Low" "Sweep" "2024-03-05 12:00" true] in
  let p := init (Content (JList (List.map meta_of good ++ JStr "Run"
                                   :: [meta_of (mkItem 9 "Gym" "High" "Swim" "" false)])))
                noon in
  items p = renumber 1 good /\
  _next_id p = (1 + Z.of_nat (List.length good))%Z /\
  tree p = List.map (fun it => str_of_int (i_id it)) (items p).
Proof.
  apply (load_stops_at_malformed_entry
           [mkItem 7 "Home" "Low" "Sweep" "2024-03-05 12:00" true] (JStr "Run")
           [meta_of (mkItem 9 "Gym" "High" "Swim" "" false)] noon).
  exact I.
Defined.

End LoadFacts.

Section AddTaskFacts.
Import PyStr Time Panel Board Session.

(** X26. The outcome of [add_task] for a text, a category and a
    priority of ASCII characters, after a plain session (ASCII strings
    in the entries of its file and in what was typed). Without a text or
    without a category nothing changes. Otherwise one item is added at
    the end, not done, with the stripped text and category, the priority
    or [Medium] when none is given, the time of the clock and an
    identifier that no item has; and the file holds the items then
    shown. *)
Theorem add_task_outcome (f : file) (now now' : datetime) (acts : list action)
    (task_var category_var priority_var : string) :
  plain_session f (acts ++ [AddTask task_var category_var priority_var now']) = true ->
  let p := play f now acts in
  let q := add_task p task_var category_var priority_var now' in
  (strip task_var = "" \/ strip category_var = "Category" -> q = p) /\
  (strip task_var <> "" -> strip category_var <> "Category" ->
   items q
   = (items p ++
      [mkItem (_next_id p) (strip category_var)
              (if String.eqb (strip priority_var) "" then "Medium" else strip priority_var)
              (strip task_var) (strftime_YmdHM now') false]) /\
   _next_id q = (_next_id p + 1)%Z /\
   (_next_id p ∉ List.map i_id (items p)) /\
   records_on_file q = List.map meta_of (visible q)).
Proof.
  intros _. cbv zeta. set (p := play f now acts). split.
  - unfold add_task. intros [->| ->]; [reflexivity|].
    by destruct (String.eqb (strip task_var) "").
  - intros Ht Hc.
    assert (E : add_task p task_var category_var priority_var now'
                = act p (AddTask task_var category_var priority_var now')) by reflexivity.
    assert (Hfile : records_on_file (add_task p task_var category_var priority_var now')
              = List.map meta_of (visible (add_task p task_var category_var priority_var now'))).
    { rewrite E. unfold p. rewrite <- play_snoc.
      destruct (play_good f now (acts ++ [AddTask task_var category_var priority_var now']))
        as [[Hnd _] Hs].
      rewrite play_snoc. fold p. rewrite <- E. unfold add_task.
      destruct (String.eqb_spec (strip task_var) ""); [done|].
      destruct (String.eqb_spec (strip category_var) "Category"); [done|].
      rewrite play_snoc in Hnd. fold p in Hnd. rewrite <- E in Hnd. unfold add_task in Hnd.
      destruct (String.eqb_spec (strip task_var) ""); [done|].
      destruct (String.eqb_spec (strip category_var) "Category"); [done|].
      match goal with
      | |- context [save_tasks (_rebuild_tree ?r)] =>
          destruct (rebuild_items r) as [Hi _];
          pose proof (save_writes_the_view r) as Hw
      end.
      rewrite Hw.
      - unfold visible, save_tasks. cbn [items with_file]. rewrite Hi. f_equal.
        apply filter_ext_in'. intros it. unfold _passes_filters, _rebuild_tree.
        by destruct (rebuild_loop _ _).
      - unfold save_tasks in Hnd. cbn [items with_file] in Hnd. by rewrite Hi in Hnd. }
    split; [|split; [|split; [|exact Hfile]]].
    + unfold add_task.
      destruct (String.eqb_spec (strip task_var) ""); [done|].
      destruct (String.eqb_spec (strip category_var) "Category"); [done|].
      match goal with
      | |- context [with_items ?its ?nid p] => by destruct (saved_items its nid p) as [-> _]
      end.
    + unfold add_task.
      destruct (String.eqb_spec (strip task_var) ""); [done|].
      destruct (String.eqb_spec (strip category_var) "Category"); [done|].
      match goal with
      | |- context [with_items ?its ?nid p] => by destruct (saved_items its nid p) as [_ ->]
      end.
    + destruct (play_good f now acts) as [[_ Hlt] _]. fold p in Hlt.
      intros Hin. apply list_elem_of_In, in_map_iff in Hin. destruct Hin as (it & Hid & Hin).
      rewrite Forall_forall in Hlt. apply list_elem_of_In, Hlt in Hin. lia.
Qed.

Lemma add_task_outcome_witness :
  let p := play Absent noon [AddTask "Sweep" "Home" "Medium" noon;
                             FilterTasks "" "All" "Home"] in
  let q := add_task p " Run " "Gym" "" noon in
  (strip " Run " = "" \/ strip "Gym" = "Category" -> q = p) /\
  (strip " Run " <> "" -> strip "Gym" <> "Category" ->
   items q
   = (items p ++
      [mkItem (_next_id p) (strip "Gym")
              (if String.eqb (strip "") "" then "Medium" else strip "")
              (strip " Run ") (strftime_YmdHM noon) false]) /\
   _next_id q = (_next_id p + 1)%Z /\
   (_next_id p ∉ List.map i_id (items p)) /\
   records_on_file q = List.map meta_of (visible q)).
Proof.
  apply (add_task_outcome Absent noon noon
           [AddTask "Sweep" "Home" "Medium" noon; FilterTasks "" "All" "Home"]
           " Run " "Gym" "").
  reflexivity.
Defined.

End AddTaskFacts.


(* ------------------------------------------------------------------ *)
(** ** The first task panel *)

Section Panel1Facts.
Import PyStr Time Panel1.

Lemma unselected_below (sel : list nat) (j pos : nat) (l : list Row) :
  (j < pos)%nat -> unselected (j :: sel) pos l = unselected sel pos l.
Proof.
  revert pos. induction l as [|r l IH]; intros pos Hj; [done|]. cbn [unselected].
  rewrite (IH (S pos)) by lia.
  destruct (decide (pos ∈ sel)) as [Hin|Hnin].
  - rewrite !bool_decide_eq_true_2; [done|done|by right].
  - rewrite !bool_decide_eq_false_2; [done|done|].
    intros H. apply elem_of_cons in H. destruct H as [H|H]; [lia|done].
Qed.

Lemma delete_unselected (sel : list nat) (i pos : nat) (l : list Row) :
  Forall (fun j => (pos + i < j)%nat) sel ->
  delete i (unselected sel pos l) = unselected ((pos + i)%nat :: sel) pos l.
Proof.
  revert i pos. induction l as [|r l IH]; intros i pos Hsel; [done|].
  cbn [unselected].
  assert (Hpos : pos ∉ sel).
  { intros H. rewrite Forall_forall in Hsel. apply Hsel in H. lia. }
  rewrite (bool_decide_eq_false_2 (pos ∈ sel)) by done.
  destruct i as [|i].
  - rewrite Nat.add_0_r. rewrite bool_decide_eq_true_2 by left.
    cbn. by rewrite unselected_below by lia.
  - rewrite bool_decide_eq_false_2.
    2:{ intros H. apply elem_of_cons in H. destruct H as [H|H]; [lia|done]. }
    cbn. f_equal. replace (pos + S i)%nat with (S pos + i)%nat by lia.
    apply IH. eapply Forall_impl; [exact Hsel|]. cbn. intros; lia.
Qed.

Lemma unselected_none (pos : nat) (l : list Row) : unselected [] pos l = l.
Proof.
  revert pos. induction l as [|r l IH]; intros pos; [done|]. cbn.
  by rewrite IH.
Qed.

Lemma delete_loop (sel : list nat) (l : list Row) :
  StronglySorted lt sel ->
  fold_left (fun l idx => delete idx l) (rev sel) l = unselected sel 0 l.
Proof.
  induction 1 as [|i sel Hs IH Hi].
  - cbn. by rewrite unselected_none.
  - cbn [rev]. rewrite fold_left_app. cbn [fold_left]. rewrite IH.
    by apply (delete_unselected sel i 0).
Qed.

(** X27. [delete_selected] of [panel1.py], which deletes the selected
    positions from the last to the first, removes exactly the rows at
    those positions: the rows left are the others, in their order. The
    positions are in ascending order, as the list box reports them. *)
Theorem delete_selected_keeps_the_rest (listbox : list Row) (sel : list nat) :
  StronglySorted lt sel ->
  delete_selected listbox sel = unselected sel 0 listbox /\
  (forall r, r ∈ delete_selected listbox sel -> r ∈ listbox).
Proof.
  intros Hs.
  assert (E : delete_selected listbox sel = unselected sel 0 listbox).
  { unfold delete_selected. destruct sel as [|i sel]; [by rewrite unselected_none|].
    by apply delete_loop. }
  split; [exact E|]. rewrite E. clear E. generalize 0%nat.
  induction listbox as [|x l IH]; intros pos r Hr; [by apply elem_of_nil in Hr|].
  cbn [unselected] in Hr. destruct (bool_decide (pos ∈ sel)).
  - right. by eapply IH.
  - apply elem_of_cons in Hr. destruct Hr as [->|Hr]; [left|right; by eapply IH].
Qed.

Lemma delete_selected_keeps_the_rest_witness :
  let listbox := play [AddTask "Sweep" "Home" Board.noon; AddTask "Run" "Gym" Board.noon;
                       AddTask "Read" "College" Board.noon; AddTask "Swim" "Gym" Board.noon] in
  delete_selected listbox [0; 2]%nat = unselected [0; 2]%nat 0 listbox /\
  (forall r, r ∈ delete_selected listbox [0; 2]%nat -> r ∈ listbox).
Proof.
  apply (delete_selected_keeps_the_rest
           (play [AddTask "Sweep" "Home" Board.noon; AddTask "Run" "Gym" Board.noon;
                  AddTask "Read" "College" Board.noon; AddTask "Swim" "Gym" Board.noon]) [0; 2]%nat).
  repeat constructor.
Defined.

Lemma act_rows (l : list Row) (a : action) :
  Forall (fun r => plain_row r \/ marked_row r) l ->
  Forall (fun r => plain_row r \/ marked_row r) (act l a).
Proof.
  intros H. destruct a as [t c now|sel|confirmed|sel]; cbn [act].
  - unfold add_task.
    destruct (String.eqb (strip t) ""); [done|].
    destruct (String.eqb (strip c) "Category"); [done|].
    apply Forall_app. split; [done|]. constructor; [|constructor].
    left. split; [done|]. cbn [r_text]. by eexists.
  - unfold delete_selected. destruct sel as [|i sel]; [done|].
    generalize (rev (i :: sel)). intros s. revert l H.
    induction s as [|j s IH]; intros l H; [done|].
    cbn [fold_left]. apply IH. by apply Forall_delete.
  - unfold clear_all. destruct l; [done|]. by destruct confirmed.
  - unfold mark_one. destruct sel as [|idx [|]]; try done.
    destruct (l !! idx) as [r|] eqn:E; [|done].
    pose proof (Forall_lookup_1 _ _ _ _ H E) as [[_ [rest Hr]]|[_ [rest Hr]]].
    + rewrite Hr. change (startswith ("[" +:+ rest) check) with false. cbv iota.
      apply Forall_insert; [done|]. right. split; [done|]. by exists rest.
    + rewrite Hr.
      assert (Hsw : startswith (check +:+ "[" +:+ rest) check = true)
        by apply prefix_app.
      rewrite Hsw. apply Forall_insert; [done|]. left. split; [done|].
      exists rest. cbn [r_text].
      change (of_chars (drop 4 (chars (check +:+ "[" +:+ rest))))
        with (of_chars (chars ("[" +:+ rest))).
      apply of_chars_chars.
Qed.

Lemma play_rows (acts : list action) :
  Forall (fun r => plain_row r \/ marked_row r) (play acts).
Proof.
  unfold play. generalize (Forall_nil_2 (fun r => plain_row r \/ marked_row r)).
  generalize (@nil Row).
  induction acts as [|a acts IH]; intros l H; [done|]. cbn. apply IH. by apply act_rows.
Qed.

(** X28. [mark_one] of [panel1.py] is a toggle: in every list built by
    the four actions, marking a row twice gives back its text and its
    colour, and the list is as before. *)
Theorem mark_one_twice_restores (acts : list action) (idx : nat) :
  (idx < List.length (play acts))%nat ->
  mark_one (mark_one (play acts) [idx]) [idx] = play acts.
Proof.
  intros Hidx. pose proof (play_rows acts) as H. set (l := play acts) in *.
  destruct (lookup_lt_is_Some_2 l idx Hidx) as [r E].
  pose proof (Forall_lookup_1 _ _ _ _ H E) as [[Hfg [rest Hr]]|[Hfg [rest Hr]]].
  - unfold mark_one at 2. rewrite E, Hr.
    change (startswith ("[" +:+ rest) check) with false. cbv iota.
    unfold mark_one. rewrite list_lookup_insert_eq by done. cbn [r_text].
    assert (Hsw : startswith (check +:+ "[" +:+ rest) check = true)
      by apply prefix_app.
    rewrite Hsw. rewrite list_insert_insert_eq.
    change (of_chars (drop 4 (chars (check +:+ "[" +:+ rest))))
      with (of_chars (chars ("[" +:+ rest))).
    rewrite of_chars_chars.
    apply list_insert_id. rewrite E. f_equal.
    destruct r as [text fg]. cbn in *. by subst.
  - unfold mark_one at 2. rewrite E, Hr.
    assert (Hsw : startswith (check +:+ "[" +:+ rest) check = true)
      by apply prefix_app.
    rewrite Hsw.
    unfold mark_one. rewrite list_lookup_insert_eq by done. cbn [r_text].
    change (of_chars (drop 4 (chars (check +:+ "[" +:+ rest))))
      with (of_chars (chars ("[" +:+ rest))).
    rewrite of_chars_chars.
    change (startswith ("[" +:+ rest) check) with false. cbv iota.
    rewrite list_insert_insert_eq.
    apply list_insert_id. rewrite E. f_equal.
    destruct r as [text fg]. cbn in *. by subst.
Qed.

Lemma mark_one_twice_restores_witness :
  mark_one (mark_one (play [AddTask "Sweep" "Home" Board.noon; AddTask "Run" "Gym" Board.noon;
                            MarkOne [0%nat]]) [0%nat]) [0%nat]
  = play [AddTask "Sweep" "Home" Board.noon; AddTask "Run" "Gym" Board.noon; MarkOne [0%nat]].
Proof.
  apply (mark_one_twice_restores
           [AddTask "Sweep" "Home" Board.noon; AddTask "Run" "Gym" Board.noon; MarkOne [0%nat]] 0).
  vm_compute. lia.
Defined.

End Panel1Facts.

(* ------------------------------------------------------------------ *)
(** ** Moderate amounts stay inside the limits of the context *)

Section LimitFacts.
Import PyStr Dec.
Import Limits.
Local Open Scope Z_scope.

Lemma digit_val_lt (c : ascii) : is_digit c = true -> (digit_val c < 10)%N.
Proof.
  unfold is_digit, digit_val. intros H. apply andb_true_iff in H.
  destruct H as [H1 H2]. apply N.leb_le in H1, H2. lia.
Qed.

Lemma int_of_digits_lt (l : list ascii) :
  Forall (fun c => is_digit c = true) l ->
  (int_of_digits l < 10 ^ N.of_nat (List.length l))%N.
Proof.
  induction l as [|c l IH] using rev_ind; intros H.
  - cbn. lia.
  - apply Forall_app in H. destruct H as [Hl Hc]. apply Forall_inv in Hc.
    rewrite int_of_digits_snoc, length_app. cbn [List.length].
    replace (N.of_nat (List.length l + 1)) with (N.succ (N.of_nat (List.length l))) by lia.
    rewrite N.pow_succ_r'. specialize (IH Hl). pose proof (digit_val_lt c Hc). lia.
Qed.

Lemma ndigits_pos (n : N) : 1 <= ndigits n.
Proof.
  unfold ndigits. pose proof (digits_nonempty n).
  destruct (digits n); [done|cbn [List.length]; lia].
Qed.

(** A number is below the power of ten of its number of digits. *)
Lemma ndigits_upper (n : N) : Z.of_N n < 10 ^ ndigits n.
Proof.
  pose proof (int_of_digits_lt (digits n) (digits_all_digit n)) as H.
  rewrite int_of_digits_digits in H. unfold ndigits.
  apply N2Z.inj_lt in H. rewrite N2Z.inj_pow, nat_N_Z in H. exact H.
Qed.

Lemma ndigits_le (n : N) (m : Z) : 1 <= m -> Z.of_N n < 10 ^ m -> ndigits n <= m.
Proof.
  intros Hm H. unfold ndigits, digits.
  assert (Hn : (n < 10 ^ N.of_nat (Z.to_nat m))%N).
  { apply N2Z.inj_lt. rewrite N2Z.inj_pow, nat_N_Z, Z2Nat.id by lia. exact H. }
  pose proof (digits_fuel_length (N.to_nat (N.log2 n)) n (Z.to_nat m) Hn) as Hl.
  lia.
Qed.

(** A number other than 0 is at least the power of ten of its number of
    digits less one. *)
Lemma ndigits_lower (n : N) : n <> 0%N -> 10 ^ (ndigits n - 1) <= Z.of_N n.
Proof.
  intros Hn. destruct (Z.le_gt_cases (10 ^ (ndigits n - 1)) (Z.of_N n)) as [|Hlt]; [done|].
  pose proof (ndigits_pos n).
  destruct (Z.eq_dec (ndigits n) 1) as [E|E].
  - rewrite E in Hlt. cbn in Hlt. lia.
  - pose proof (ndigits_le n (ndigits n - 1) ltac:(lia) Hlt). lia.
Qed.

Lemma pow10_le_inv (a b : Z) : 0 <= a -> 0 <= b -> 10 ^ a <= 10 ^ b -> a <= b.
Proof.
  intros Ha Hb H. destruct (Z.le_gt_cases a b); [done|].
  assert (10 ^ b < 10 ^ a) by (apply Z.pow_lt_mono_r; lia). lia.
Qed.

Lemma pow10_split (a b : Z) : 0 <= a -> 0 <= b -> 10 ^ (a + b) = 10 ^ a * 10 ^ b.
Proof. intros. by apply Z.pow_add_r. Qed.

(** Rounding does not pass a power of ten. *)
Lemma round_half_even_le (c k j : Z) :
  0 <= c -> 0 < k -> 0 <= j -> c <= 10 ^ (k + j) ->
  0 <= round_half_even c k <= 10 ^ j.
Proof.
  intros Hc Hk Hj H. unfold round_half_even.
  assert (Hp : 0 < 10 ^ k) by (apply pow10_pos; lia).
  assert (Hpj : 0 < 10 ^ j) by (apply pow10_pos; lia).
  assert (Hh : 0 < 5 * 10 ^ (k - 1)) by (pose proof (pow10_pos (k - 1)); lia).
  rewrite pow10_split in H by lia.
  pose proof (Z.div_mod c (10 ^ k) ltac:(lia)) as Hdm.
  pose proof (Z.mod_pos_bound c (10 ^ k) Hp) as Hm.
  assert (Hq : 0 <= c / 10 ^ k) by (apply Z.div_pos; lia).
  set (q := c / 10 ^ k) in *. set (r := c mod 10 ^ k) in *.
  destruct (Z.le_gt_cases (10 ^ j) q) as [Hge|Hlt].
  - assert (H1 : 10 ^ k * 10 ^ j <= 10 ^ k * q) by (apply Z.mul_le_mono_nonneg_l; lia).
    assert (Hr : r = 0) by lia.
    assert (H2 : 10 ^ k * q <= 10 ^ k * 10 ^ j) by lia.
    apply Z.mul_le_mono_pos_l in H2; [|done].
    rewrite Hr.
    destruct (Z.ltb_spec (5 * 10 ^ (k - 1)) 0); [lia|].
    destruct (Z.eqb_spec 0 (5 * 10 ^ (k - 1))); [lia|]. cbn. lia.
  - destruct (_ || _); lia.
Qed.

Lemma bounded_mono (l l' k k' : Z) (d : Decimal) :
  l' <= l -> k <= k' -> bounded l k d -> bounded l' k' d.
Proof.
  intros Hl Hk (H1 & H2 & H3). split; [lia|]. split; [lia|].
  etrans; [exact H3|]. apply Z.pow_le_mono_r; lia.
Qed.

(** The coefficient and the exponent that bound a value. *)
Lemma bounded_mk (l k e c : Z) (sg : bool) :
  l <= e -> e <= k -> 0 <= c -> c <= 10 ^ (k - e) -> bounded l k (mk sg (Z.to_N c) e).
Proof.
  intros. split; [done|]. split; [done|]. cbn [d_int d_exp]. by rewrite Z2N.id.
Qed.

(** [_fix] keeps the bounds. *)
Lemma fix_bounded (l k : Z) (d : Decimal) : bounded l k d -> bounded l k (fix_ d).
Proof.
  intros (He & Hek & Hc). unfold fix_.
  destruct (Z.leb_spec (ndigits (d_int d)) prec) as [|Hgt]; [done|].
  unfold prec in *.
  assert (Hnz : d_int d <> 0%N).
  { intros E. rewrite E in Hgt. change (ndigits 0) with 1 in Hgt. lia. }
  pose proof (ndigits_lower _ Hnz) as Hlow.
  set (n := ndigits (d_int d)) in *. set (c := Z.of_N (d_int d)) in *.
  set (e := d_exp d) in *.
  assert (Hn : n - 1 <= k - e).
  { apply pow10_le_inv. 1: lia. 1: lia. lia. }
  set (kk := n - 28) in *. set (j := k - e - kk).
  assert (Hkk : 0 < kk) by (unfold kk; lia).
  assert (Hj : 27 <= j) by (unfold j, kk; lia).
  assert (Hkj : kk + j = k - e) by (unfold j; lia).
  assert (Hj1 : k - (e + kk + 1) = j - 1) by (unfold j; lia).
  assert (Hj0 : k - (e + kk) = j) by (unfold j; lia).
  clearbody j kk.
  assert (Hr : 0 <= round_half_even c kk <= 10 ^ j).
  { apply round_half_even_le; [lia|lia|lia|]. by rewrite Hkj. }
  set (q := round_half_even c kk) in *.
  destruct (Z.eqb_spec q (10 ^ 28)) as [Hq|Hq].
  - assert (28 <= j).
    { apply pow10_le_inv. 1: lia. 1: lia. lia. }
    apply bounded_mk; [lia|lia|apply Z.lt_le_incl, pow10_pos; lia|].
    rewrite Hj1. apply Z.pow_le_mono_r; lia.
  - apply bounded_mk; [lia|lia|lia|]. rewrite Hj0. lia.
Qed.

Lemma abs_scaled (e : Z) (d : Decimal) :
  e <= d_exp d -> Z.abs (scaled e d) = Z.of_N (d_int d) * 10 ^ (d_exp d - e).
Proof.
  intros H. unfold scaled.
  assert (0 <= Z.of_N (d_int d) * 10 ^ (d_exp d - e)).
  { apply Z.mul_nonneg_nonneg; [lia|]. apply Z.lt_le_incl, pow10_pos. lia. }
  destruct (d_sign d); lia.
Qed.

Lemma bounded_scaled (l k e : Z) (d : Decimal) :
  e <= d_exp d -> bounded l k d -> Z.abs (scaled e d) <= 10 ^ (k - e).
Proof.
  intros He (H1 & H2 & H3). rewrite abs_scaled by done.
  replace (k - e) with ((k - d_exp d) + (d_exp d - e)) by lia.
  rewrite pow10_split by lia.
  apply Z.mul_le_mono_nonneg_r; [apply Z.lt_le_incl, pow10_pos; lia|done].
Qed.

(** A sum is at most one digit longer than the longer operand. *)
Lemma add_bounded (l k : Z) (a b : Decimal) :
  bounded l k a -> bounded l k b -> bounded l (k + 1) (add a b).
Proof.
  intros Ha Hb. unfold add.
  set (e := Z.min (d_exp a) (d_exp b)). set (s := scaled e a + scaled e b).
  pose proof (bounded_scaled l k e a ltac:(lia) Ha) as Sa.
  pose proof (bounded_scaled l k e b ltac:(lia) Hb) as Sb.
  destruct Ha as (Ha1 & Ha2 & _). destruct Hb as (Hb1 & Hb2 & _).
  apply fix_bounded, bounded_mk; [lia|lia|apply Z.abs_nonneg|].
  replace (k + 1 - e) with (1 + (k - e)) by lia.
  rewrite (pow10_split 1 (k - e)) by lia. change (10 ^ 1) with 10.
  pose proof (Z.abs_triangle (scaled e a) (scaled e b)). fold s in H. lia.
Qed.

Lemma sub_bounded (l k : Z) (a b : Decimal) :
  bounded l k a -> bounded l k b -> bounded l (k + 1) (sub a b).
Proof. intros Ha Hb. unfold sub. by apply add_bounded. Qed.

Lemma mul_bounded (l l' k k' : Z) (a b : Decimal) :
  bounded l k a -> bounded l' k' b -> bounded (l + l') (k + k') (mul a b).
Proof.
  intros (Ha1 & Ha2 & Ha3) (Hb1 & Hb2 & Hb3). unfold mul.
  apply fix_bounded. split; [cbn [d_exp]; lia|]. split; [cbn [d_exp]; lia|].
  cbn [d_int d_exp]. rewrite N2Z.inj_mul.
  replace (k + k' - (d_exp a + d_exp b)) with ((k - d_exp a) + (k' - d_exp b)) by lia.
  rewrite pow10_split by lia.
  apply Z.mul_le_mono_nonneg; lia.
Qed.

(** A quotient of integers between powers of ten. *)
Lemma div_le_pow (num den A B : Z) :
  0 <= num -> 0 <= B -> B <= A -> num <= 10 ^ A -> 10 ^ B <= den ->
  0 <= num / den <= 10 ^ (A - B) /\
  (num / den = 10 ^ (A - B) -> num mod den = 0).
Proof.
  intros Hn HB HA Hnum Hden.
  assert (HpB : 0 < 10 ^ B) by (apply pow10_pos; lia).
  assert (HpQ : 0 < 10 ^ (A - B)) by (apply pow10_pos; lia).
  assert (Hd : 0 < den) by lia.
  assert (HA' : 10 ^ A = 10 ^ (A - B) * 10 ^ B).
  { rewrite <- pow10_split by lia. f_equal. lia. }
  assert (Hle : num <= den * 10 ^ (A - B)).
  { rewrite HA' in Hnum. etrans; [exact Hnum|]. rewrite (Z.mul_comm den).
    apply Z.mul_le_mono_nonneg_l; lia. }
  pose proof (Z.div_le_upper_bound num den (10 ^ (A - B)) Hd Hle) as Hq.
  pose proof (Z.div_pos num den Hn Hd).
  split; [lia|]. intros E.
  pose proof (Z.div_mod num den ltac:(lia)) as Hdm.
  pose proof (Z.mod_pos_bound num den Hd). rewrite E in Hdm. lia.
Qed.

(** The loop that strips zeros keeps the value and stops at the ideal
    exponent. *)
Lemma strip_zeros_spec (fuel : nat) (coeff e ideal : Z) :
  0 <= coeff ->
  let r := strip_zeros fuel coeff e ideal in
  0 <= fst r /\ e <= snd r /\ snd r <= Z.max e ideal /\
  fst r * 10 ^ (snd r - e) = coeff.
Proof.
  revert coeff e. induction fuel as [|f IH]; intros coeff e Hc; cbn [strip_zeros].
  - cbn. rewrite Z.sub_diag. lia.
  - destruct (Z.ltb_spec e ideal) as [Hlt|Hge]; cbn [andb].
    2:{ cbn. rewrite Z.sub_diag. lia. }
    destruct (Z.eqb_spec (coeff mod 10) 0) as [Hm|Hm].
    2:{ cbn. rewrite Z.sub_diag. lia. }
    assert (H10 : coeff = 10 * (coeff / 10)).
    { pose proof (Z.div_mod coeff 10 ltac:(lia)). lia. }
    assert (Hq : 0 <= coeff / 10) by (apply Z.div_pos; lia).
    destruct (IH (coeff / 10) (e + 1) Hq) as (H1 & H2 & H3 & H4).
    cbv zeta. split; [done|]. split; [lia|]. split; [lia|].
    replace (snd (strip_zeros f (coeff / 10) (e + 1) ideal) - e)
      with (1 + (snd (strip_zeros f (coeff / 10) (e + 1) ideal) - (e + 1))) by lia.
    rewrite pow10_split by lia. change (10 ^ 1) with 10.
    rewrite Z.mul_assoc, (Z.mul_comm _ 10), <- Z.mul_assoc, H4. lia.
Qed.

(** A bounded value is inside the limits of the context. *)
Lemma bounded_adjusted (l k : Z) (d : Decimal) : bounded l k d -> adjusted d <= k.
Proof.
  intros (H1 & H2 & H3). unfold adjusted.
  assert (ndigits (d_int d) <= k - d_exp d + 1); [|lia].
  apply ndigits_le; [lia|]. eapply Z.le_lt_trans; [exact H3|].
  apply Z.pow_lt_mono_r; lia.
Qed.

Lemma bounded_in_context (l k : Z) (d : Decimal) :
  Etiny <= l -> k <= Emax -> bounded l k d -> in_context d.
Proof.
  intros Hl Hk Hb. pose proof (bounded_adjusted l k d Hb). destruct Hb as (H1 & _).
  unfold in_context. split; lia.
Qed.

(** A quotient: its size is bounded by the size of the dividend and the
    first digit of the divisor, and its exponent is at most 29 places
    below. *)
Lemma div_bounded (l k : Z) (a b : Decimal) :
  bounded l k a -> d_int b <> 0%N ->
  bounded (l - adjusted b - 29) (k - d_exp b) (div a b).
Proof.
  intros Ha Hb. pose proof (bounded_adjusted l k a Ha) as Hadj.
  destruct Ha as (Ha1 & Ha2 & Ha3).
  pose proof (ndigits_pos (d_int a)) as Hna. pose proof (ndigits_pos (d_int b)) as Hnb.
  pose proof (ndigits_lower _ Hb) as Hlow.
  unfold adjusted in *. unfold div.
  destruct (is_zero a).
  { apply fix_bounded. split; [cbn [d_exp]; lia|]. split; [cbn [d_exp]; lia|].
    cbn [d_int]. change (Z.of_N 0) with 0. apply Z.lt_le_incl, pow10_pos.
    cbn [d_exp]. lia. }
  set (na := ndigits (d_int a)) in *. set (nb := ndigits (d_int b)) in *.
  set (ca := Z.of_N (d_int a)) in *. set (cb := Z.of_N (d_int b)) in *.
  set (ea := d_exp a) in *. set (eb := d_exp b) in *.
  unfold prec.
  set (shift := nb - na + 28 + 1).
  set (e := ea - eb - shift).
  set (J := k - ea + shift - nb + 1).
  assert (HJ : 29 <= J) by (unfold J, shift; lia).
  assert (He : e = ea + na - 1 - (eb + nb - 1) - 29) by (unfold e, shift; lia).
  assert (HJe : J + e = k - (eb + nb - 1)) by (unfold J, e; lia).
  assert (Hca : 0 <= ca) by (unfold ca; lia).
  assert (Hcb : 0 < cb) by (unfold cb; lia).
  set (num := if 0 <=? shift then ca * 10 ^ shift else ca).
  set (den := if 0 <=? shift then cb else cb * 10 ^ (- shift)).
  assert (Hq : 0 <= num / den <= 10 ^ J /\ (num / den = 10 ^ J -> num mod den = 0)).
  { unfold num, den. destruct (Z.leb_spec 0 shift) as [Hs|Hs].
    - replace J with ((k - ea + shift) - (nb - 1)) by (unfold J; lia).
      apply div_le_pow.
      + apply Z.mul_nonneg_nonneg; [done|]. apply Z.lt_le_incl, pow10_pos; lia.
      + lia.
      + unfold J in HJ. lia.
      + rewrite pow10_split by lia.
        apply Z.mul_le_mono_nonneg_r; [apply Z.lt_le_incl, pow10_pos; lia|done].
      + done.
    - replace J with ((k - ea) - (nb - 1 - shift)) by (unfold J; lia).
      apply div_le_pow.
      + done.
      + lia.
      + unfold J in HJ. lia.
      + done.
      + replace (nb - 1 - shift) with ((nb - 1) + (- shift)) by lia.
        rewrite pow10_split by lia.
        apply Z.mul_le_mono_nonneg_r; [apply Z.lt_le_incl, pow10_pos; lia|done]. }
  destruct Hq as [[Hq0 Hq1] Hq2].
  set (coeff := num / den) in *. set (remainder := num mod den) in *.
  assert (HpJ : 0 < 10 ^ J) by (apply pow10_pos; lia).
  assert (Hres : forall c' e', 0 <= c' -> e <= e' -> e' <= Z.max e (ea - eb) ->
                   c' * 10 ^ (e' - e) <= 10 ^ J ->
                   bounded (l - (eb + nb - 1) - 29) (k - eb) (fix_ (mk (xorb (d_sign a) (d_sign b)) (Z.to_N c') e'))).
  { intros c' e' Hc' He1 He2 Hv. apply fix_bounded, bounded_mk; [lia|lia|done|].
    assert (Hk : 0 <= k - eb - e') by lia.
    assert (Hp : 0 < 10 ^ (e' - e)) by (apply pow10_pos; lia).
    assert (Hle : 10 ^ J <= 10 ^ (k - eb - e') * 10 ^ (e' - e)).
    { rewrite <- pow10_split by lia. apply Z.pow_le_mono_r; lia. }
    apply (Z.mul_le_mono_pos_r _ _ (10 ^ (e' - e))); [done|]. lia. }
  destruct (Z.eqb_spec remainder 0) as [Hr|Hr]; cbn [negb].
  - pose proof (strip_zeros_spec (Z.to_nat (ndigits (Z.to_N coeff))) coeff e (ea - eb) Hq0) as Hs.
    cbv zeta in Hs. destruct (strip_zeros _ coeff e (ea - eb)) as [c' e'].
    cbn [fst snd] in Hs. destruct Hs as (H1 & H2 & H3 & H4).
    apply Hres; [done|done|done|]. by rewrite H4.
  - assert (Hlt : coeff < 10 ^ J).
    { destruct (Z.eq_dec coeff (10 ^ J)) as [E|E]; [by apply Hq2 in E|lia]. }
    apply Hres; [destruct (_ =? _); lia|lia|lia|].
    rewrite Z.sub_diag, Z.mul_1_r. destruct (_ =? _); lia.
Qed.

Lemma moderate_bounded (a : Decimal) : Accounts.moderate a = true -> bounded (-1000) 1000 a.
Proof.
  unfold Accounts.moderate. intros H. apply andb_true_iff in H. destruct H as [H1 H2].
  apply Z.leb_le in H1, H2.
  pose proof (ndigits_pos (d_int a)). pose proof (ndigits_upper (d_int a)) as Hu.
  split; [done|]. split; [lia|].
  apply Z.lt_le_incl. eapply Z.lt_le_trans; [exact Hu|].
  apply Z.pow_le_mono_r; lia.
Qed.

(** The amount read back from the record of a moderate amount. *)
Lemma read_back_bounded (a : Decimal) :
  bounded (-1000) 1000 a -> bounded (-1000) 1000 (mk false (d_int (rescale (-2) a)) (-2)).
Proof.
  intros (H1 & H2 & H3).
  split; [cbn [d_exp]; lia|]. split; [cbn [d_exp]; lia|].
  cbn [d_int d_exp]. unfold rescale.
  change (1000 - -2) with 1002.
  destruct (is_zero a); [cbn; lia|].
  destruct (Z.leb_spec (-2) (d_exp a)) as [Hge|Hlt]; cbn [d_int].
  - rewrite N2Z.inj_mul, Z2N.id by (apply Z.lt_le_incl, pow10_pos; lia).
    replace 1002 with ((1000 - d_exp a) + (d_exp a - -2)) by lia.
    rewrite pow10_split by lia.
    apply Z.mul_le_mono_nonneg_r; [apply Z.lt_le_incl, pow10_pos; lia|done].
  - pose proof (round_half_even_le (Z.of_N (d_int a)) (-2 - d_exp a) 1002
                  ltac:(lia) ltac:(lia) ltac:(lia)) as Hr.
    replace (-2 - d_exp a + 1002) with (1000 - d_exp a) in Hr by lia.
    specialize (Hr H3). rewrite Z2N.id by lia. lia.
Qed.

(** A sum of bounded amounts has at most one more digit for each. *)
Lemma sum_bounded (l k : Z) (xs : list Decimal) (acc : Decimal) :
  Forall (bounded l k) xs -> forall k', k <= k' -> bounded l k' acc ->
  bounded l (k' + Z.of_nat (List.length xs)) (fold_left add xs acc).
Proof.
  intros H. revert acc. induction H as [|x xs Hx _ IH]; intros acc k' Hk Hacc.
  - cbn. by rewrite Z.add_0_r.
  - cbn [fold_left List.length].
    replace (k' + Z.of_nat (S (List.length xs))) with (k' + 1 + Z.of_nat (List.length xs)) by lia.
    apply IH; [lia|]. apply add_bounded; [done|].
    eapply bounded_mono; [| |exact Hx]; lia.
Qed.

End LimitFacts.

Section LimitProperties.
Import PyStr Time Wallet Ledger Listing Accounts Limits.
Import Dec (Decimal).
Local Open Scope Z_scope.

Lemma kept_read (t : Transaction) :
  kept t ->
  exists x, bounded (-1000) 1000 x /\
    Dec.parse (bare_amount t) = Some x /\
    (is_income t = true -> Dec.parse (income_text t) = Some x) /\
    (is_expense t = true -> Dec.parse (expense_text t) = Some x).
Proof.
  intros (a & Ha & Hpos & Ht).
  exists (Dec.mk false (Dec.d_int (Dec.rescale (-2) a)) (-2)).
  split; [by apply read_back_bounded, moderate_bounded|].
  destruct Ht as [[Hty Ht]|[Hty Ht]].
  - split; [by apply (bare_amount_written "+$" a t); [left|]|]. split.
    + intros _. by apply income_text_written.
    + unfold is_expense. rewrite Hty. done.
  - split; [by apply (bare_amount_written "-$" a t); [right|]|]. split.
    + unfold is_income. rewrite Hty. done.
    + intros _. by apply expense_text_written.
Qed.

Lemma new_transaction_kept (n : nat) (a : Decimal) (ty c d : string) (now : datetime) :
  moderate a = true -> Dec.ltb Dec.zero a = true ->
  (String.eqb ty "income" = false -> ty = "expense") ->
  kept (new_transaction n a ty c d now).
Proof.
  intros Ha Hpos Hty. exists a. split; [done|]. split; [done|].
  unfold new_transaction. cbn. destruct (String.eqb ty "income"); auto.
Qed.

(** An operation on a moderate amount adds at most one digit to the
    bound of the balance. *)
Lemma step_tame (k : Z) (w : PersonalWallet) (o : op) :
  1000 <= k -> moderate_op o = true -> tame k w -> tame (k + 1) (fst (step w o)).
Proof.
  intros Hk Ho (Hb & Hg & Hr & Hn).
  assert (Hsame : tame (k + 1) w).
  { split; [eapply bounded_mono; [| |exact Hb]; lia|]. split; [done|]. split; [done|lia]. }
  destruct o as [amount ty c d now now_save|i now_save|amount now_save]; cbn [step].
  - unfold add_transaction. destruct amount as [a|]; [|done].
    cbn in Ho. pose proof (moderate_bounded a Ho) as Ha.
    assert (Ha' : bounded (-1000) k a) by (eapply bounded_mono; [| |exact Ha]; lia).
    destruct (Dec.leb a Dec.zero) eqn:Hpos; [done|].
    apply leb_false_ltb in Hpos.
    destruct (String.eqb ty "income") eqn:Hin.
    + cbn. split; [by apply add_bounded|]. split; [done|]. split.
      * apply Forall_app; split; [done|]. constructor; [|constructor].
        apply new_transaction_kept; [done|done|]. by rewrite Hin.
      * cbn [transactions save_data set_file set_transactions set_balance].
        rewrite length_app. cbn [List.length]. lia.
    + destruct (String.eqb_spec ty "expense") as [->|]; [|done].
      destruct (Dec.ltb (balance w) a); [done|].
      cbn. split; [by apply sub_bounded|]. split; [done|]. split.
      * apply Forall_app; split; [done|]. constructor; [|constructor].
        by apply new_transaction_kept.
      * cbn [transactions save_data set_file set_transactions set_balance].
        rewrite length_app. cbn [List.length]. lia.
  - unfold delete_transaction.
    destruct (List.find _ (transactions w)) as [t|] eqn:Hfind; [|done].
    apply find_some in Hfind. destruct Hfind as [Hin _].
    pose proof Hr as Hr'. rewrite Forall_forall in Hr'.
    pose proof (Hr' t (proj2 (list_elem_of_In _ _) Hin)) as Ht.
    destruct (kept_read t Ht) as (x & Hxb & Hx & _). rewrite Hx.
    assert (Hx' : bounded (-1000) k x) by (eapply bounded_mono; [| |exact Hxb]; lia).
    pose proof (List.filter_length_le (fun t0 => negb (t_id t0 =? i)) (transactions w)) as Hlen.
    destruct (String.eqb (t_type t) "Income"); unfold tame;
      cbn [fst transactions balance budget save_data set_file set_transactions set_balance].
    + split; [by apply sub_bounded|]. split; [done|].
      split; [by apply forall_list_filter|lia].
    + split; [by apply add_bounded|]. split; [done|].
      split; [by apply forall_list_filter|lia].
  - unfold set_budget. destruct amount as [a|]; [|done].
    cbn in Ho. destruct Hsame as (H1 & _ & H3 & H4). cbn.
    split; [done|]. split; [by apply moderate_bounded|]. done.
Qed.

Lemma run_tame (ops : list op) (k : Z) (w : PersonalWallet) :
  1000 <= k -> forallb moderate_op ops = true -> tame k w ->
  tame (k + Z.of_nat (List.length ops)) (run ops w).
Proof.
  revert k w. induction ops as [|o ops IH]; intros k w Hk Ho Hw.
  - cbn. by rewrite Z.add_0_r.
  - cbn [forallb] in Ho. apply andb_true_iff in Ho. destruct Ho as [Ho Hops].
    cbn [run fold_left List.length].
    replace (k + Z.of_nat (S (List.length ops))) with (k + 1 + Z.of_nat (List.length ops)) by lia.
    apply IH; [lia|done|]. by apply step_tame.
Qed.

Lemma zero_bounded (e : Z) : -1000 <= e -> e <= 1000 -> bounded (-1000) 1000 (Dec.mk false 0 e).
Proof.
  intros. split; [done|]. split; [done|]. cbn [Dec.d_int Dec.d_exp].
  change (Z.of_N 0) with 0. apply Z.lt_le_incl, pow10_pos. lia.
Qed.

Lemma empty_tame : tame 1000 empty.
Proof.
  split; [|split; [|split]].
  - change (balance empty) with (Dec.mk false 0 (-2)). apply zero_bounded; lia.
  - change (budget empty) with (Dec.mk false 0 (-2)). apply zero_bounded; lia.
  - constructor.
  - cbn. lia.
Qed.

(** The store of a moderate history. *)
Lemma moderate_run_tame (ops : list op) :
  moderate_history ops = true ->
  tame 101000 (run ops empty).
Proof.
  unfold moderate_history. intros H. apply andb_true_iff in H. destruct H as [H1 H2].
  apply Z.leb_le in H2.
  destruct (run_tame ops 1000 empty ltac:(lia) H1 empty_tame) as (Hb & Hg & Hr & Hn).
  split; [eapply bounded_mono; [| |exact Hb]; lia|]. split; [done|]. split; [done|lia].
Qed.

(** The amounts read for a sum, and the sum. *)
Lemma amounts_kept (p : Transaction -> bool) (strip : Transaction -> string)
    (ts : list Transaction) :
  (forall t, kept t -> p t = true ->
     exists x, bounded (-1000) 1000 x /\ Dec.parse (strip t) = Some x) ->
  Forall kept ts ->
  exists xs, amounts p strip ts = Some xs /\ Forall (bounded (-1000) 1000) xs /\
             (List.length xs <= List.length ts)%nat.
Proof.
  intros Hp H. induction H as [|t ts Ht _ IH].
  - exists []. split; [done|]. split; [constructor|done].
  - destruct IH as (xs & Hxs & Hb & Hl). cbn [amounts].
    destruct (p t) eqn:E.
    + destruct (Hp t Ht E) as (x & Hx & Hparse). rewrite Hparse, Hxs.
      exists (x :: xs). split; [done|]. split; [by constructor|cbn; lia].
    + exists xs. split; [done|]. split; [done|cbn; lia].
Qed.

Lemma sum_kept (k : Z) (xs : list Decimal) :
  Forall (bounded (-1000) 1000) xs -> Z.of_nat (List.length xs) <= k - 1000 ->
  bounded (-1000) k (Dec.sum xs).
Proof.
  intros H Hl. unfold Dec.sum.
  eapply bounded_mono; [| |apply (sum_bounded (-1000) 1000 xs Dec.zero H 1000)].
  - lia.
  - lia.
  - lia.
  - apply zero_bounded; lia.
Qed.

End LimitProperties.

Section ContextProperties.
Import PyStr Time Wallet Ledger Listing Accounts Limits.
Import Dec (Decimal).
Local Open Scope Z_scope.

(** The sum and the difference of two moderate amounts are inside the
    limits of the context. *)
Lemma moderate_sum_in_context (a b : Decimal) :
  moderate a = true -> moderate b = true ->
  in_context (Dec.add a b) /\ in_context (Dec.sub a b).
Proof.
  intros Ha Hb. apply moderate_bounded in Ha, Hb.
  split; (eapply bounded_in_context; [| |by (apply add_bounded || apply sub_bounded)]);
    unfold Etiny, Emax; lia.
Qed.

Lemma moderate_history_app (pre post : list op) :
  moderate_history (pre ++ post) = true -> moderate_history pre = true.
Proof.
  unfold moderate_history. rewrite forallb_app, length_app. intros H.
  apply andb_true_iff in H. destruct H as [H1 H2].
  apply andb_true_iff in H1. destruct H1 as [H1 _]. apply Z.leb_le in H2.
  rewrite H1. cbn [andb]. apply Z.leb_le. lia.
Qed.

(** X29. At every point of a moderate history the balance is inside
    the exponent limits of the default context: its exponent is at least
    -1000 and its adjusted exponent is at most 1000 plus the number of
    operations made so far, far from [Etiny] and [Emax]. No update of
    the balance by [add_transaction] or [delete_transaction] overflows
    or is rounded at [Etiny]. *)
Theorem moderate_balance_in_context (pre post : list op) :
  moderate_history (pre ++ post) = true ->
  let b := balance (run pre empty) in
  -1000 <= Dec.d_exp b /\
  adjusted b <= 1000 + Z.of_nat (List.length pre) /\
  in_context b.
Proof.
  intros H. apply moderate_history_app in H. pose proof H as H'.
  unfold moderate_history in H. apply andb_true_iff in H. destruct H as [H1 H2].
  apply Z.leb_le in H2. cbv zeta.
  destruct (run_tame pre 1000 empty ltac:(lia) H1 empty_tame) as (Hb & _).
  split; [apply Hb|]. split; [by eapply bounded_adjusted|].
  eapply bounded_in_context; [| |exact Hb]; unfold Etiny, Emax; lia.
Qed.

Lemma moderate_balance_in_context_witness :
  let b := balance (run [earn 1000; spend 250] empty) in
  -1000 <= Dec.d_exp b /\
  adjusted b <= 1000 + Z.of_nat (List.length [earn 1000; spend 250]) /\
  in_context b.
Proof.
  apply (moderate_balance_in_context [earn 1000; spend 250] [remove 1]).
  reflexivity.
Defined.

Lemma of_int_bounded (n : N) :
  (0 < n)%N -> Z.of_N n < 10 ^ 6 ->
  Dec.d_int (Dec.of_int n) <> 0%N /\ Dec.d_exp (Dec.of_int n) = 0 /\
  adjusted (Dec.of_int n) <= 5.
Proof.
  intros Hn Hlt. unfold Dec.of_int, adjusted. cbn [Dec.d_int Dec.d_exp].
  split; [lia|]. split; [done|].
  pose proof (ndigits_le n 6 ltac:(lia) Hlt). lia.
Qed.

(** X30. In the store of a moderate history every Decimal that
    [get_statistics] and [get_budget_status] compute is inside the
    exponent limits of the default context: the two totals, their
    difference, the average expense, the spending of the month, what
    remains of the budget and, for a positive budget, the quotient and
    the percentage. *)
Theorem moderate_figures_in_context (ops : list op) (now : datetime) :
  moderate_history ops = true ->
  let w := run ops empty in
  exists (st : Statistics) (spent : Decimal),
    get_statistics w = Some st /\
    month_expenses w now = Some spent /\
    in_context (s_total_income st) /\ in_context (s_total_expenses st) /\
    in_context (s_net_savings st) /\ in_context (s_avg_expense st) /\
    in_context spent /\ in_context (Dec.sub (budget w) spent) /\
    (Dec.ltb Dec.zero (budget w) = true ->
     in_context (Dec.div spent (budget w)) /\
     in_context (Dec.mul (Dec.div spent (budget w)) (Dec.of_int 100))).
Proof.
  intros H. cbv zeta. destruct (moderate_run_tame ops H) as (_ & Hg & Hr & Hn).
  set (w := run ops empty) in *.
  destruct (amounts_kept is_income income_text (transactions w)) as (li & Hli & Hbi & Hni);
    [|done|].
  { intros t Ht Hp. destruct (kept_read t Ht) as (x & Hx & _ & Hi & _). exists x. auto. }
  destruct (amounts_kept is_expense expense_text (transactions w)) as (le & Hle & Hbe & Hne);
    [|done|].
  { intros t Ht Hp. destruct (kept_read t Ht) as (x & Hx & _ & _ & He). exists x. auto. }
  destruct (amounts_kept
              (fun t => is_expense t && startswith (t_date t) (strftime_Ym now))
              expense_text (transactions w)) as (lm & Hlm & Hbm & Hnm); [|done|].
  { intros t Ht Hp. apply andb_true_iff in Hp. destruct Hp as [Hp _].
    destruct (kept_read t Ht) as (x & Hx & _ & _ & He). exists x. auto. }
  assert (Hti : bounded (-1000) 101000 (Dec.sum li)) by (apply sum_kept; [done|lia]).
  assert (Hte : bounded (-1000) 101000 (Dec.sum le)) by (apply sum_kept; [done|lia]).
  assert (Htm : bounded (-1000) 101000 (Dec.sum lm)) by (apply sum_kept; [done|lia]).
  assert (Hg' : bounded (-1000) 101000 (budget w)).
  { eapply bounded_mono; [| |exact Hg]; lia. }
  unfold get_statistics, Wallet.total_income, month_expenses. rewrite Hli, Hle, Hlm.
  cbn [fmap option_fmap option_map mbind option_bind].
  eexists _, (Dec.sum lm). split; [reflexivity|]. split; [reflexivity|].
  cbn [s_total_income s_total_expenses s_net_savings s_avg_expense].
  split; [eapply bounded_in_context; [| |exact Hti]; unfold Etiny, Emax; lia|].
  split; [eapply bounded_in_context; [| |exact Hte]; unfold Etiny, Emax; lia|].
  split.
  { eapply bounded_in_context; [| |by apply sub_bounded]; unfold Etiny, Emax; lia. }
  split.
  { destruct (List.filter is_expense (transactions w)) as [|t0 ts0] eqn:E.
    - split; vm_compute; discriminate.
    - pose proof (List.filter_length_le is_expense (transactions w)) as Hlen.
      rewrite E in Hlen.
      destruct (of_int_bounded (N.of_nat (List.length (t0 :: ts0)))) as (Hnz & He & Hadj).
      { cbn [List.length]. lia. }
      { rewrite nat_N_Z. lia. }
      pose proof (div_bounded (-1000) 101000 (Dec.sum le) _ Hte Hnz) as Hd.
      eapply bounded_in_context; [| |exact Hd]; unfold Etiny, Emax; lia. }
  split; [eapply bounded_in_context; [| |exact Htm]; unfold Etiny, Emax; lia|].
  split.
  { eapply bounded_in_context; [| |by apply sub_bounded]; unfold Etiny, Emax; lia. }
  intros Hpos. apply ltb_zero in Hpos. destruct Hpos as [_ Hnz].
  pose proof (div_bounded (-1000) 101000 (Dec.sum lm) _ Htm Hnz) as Hd.
  pose proof (bounded_adjusted _ _ _ Hg) as Hadj. destruct Hg as (Hg1 & Hg2 & _).
  split; [eapply bounded_in_context; [| |exact Hd]; unfold Etiny, Emax; lia|].
  assert (H100 : bounded 0 2 (Dec.of_int 100)).
  { split; [done|]. split; [done|]. cbn. lia. }
  pose proof (mul_bounded _ _ _ _ _ _ Hd H100) as Hm.
  eapply bounded_in_context; [| |exact Hm]; unfold Etiny, Emax; lia.
Qed.

Lemma moderate_figures_in_context_witness :
  let w := run [earn 3000; spend 30; budget_of (dec 7 0)] empty in
  exists (st : Statistics) (spent : Decimal),
    get_statistics w = Some st /\
    month_expenses w noon = Some spent /\
    in_context (s_total_income st) /\ in_context (s_total_expenses st) /\
    in_context (s_net_savings st) /\ in_context (s_avg_expense st) /\
    in_context spent /\ in_context (Dec.sub (budget w) spent) /\
    (Dec.ltb Dec.zero (budget w) = true ->
     in_context (Dec.div spent (budget w)) /\
     in_context (Dec.mul (Dec.div spent (budget w)) (Dec.of_int 100))).
Proof.
  apply (moderate_figures_in_context [earn 3000; spend 30; budget_of (dec 7 0)] noon).
  reflexivity.
Defined.

End ContextProperties.

(* ------------------------------------------------------------------ *)
(** ** Plain sessions of the task panel *)

Section PlainFacts.
Import PyStr Time Panel Board Session.

Lemma ascii_only_of_chars (l : list ascii) :
  ascii_only (of_chars l) = forallb (fun c => (N_of_ascii c <? 128)%N) l.
Proof. unfold ascii_only. by rewrite chars_of_chars. Qed.

Lemma lstrip_incl (l : list ascii) (c : ascii) : In c (lstrip l) -> In c l.
Proof.
  induction l as [|x l IH]; [done|]. cbn [lstrip].
  destruct (is_space x); [right; by apply IH|done].
Qed.

(** What [strip] returns is made of characters of its argument. *)
Lemma ascii_only_strip (s : string) : ascii_only s = true -> ascii_only (strip s) = true.
Proof.
  unfold strip. rewrite ascii_only_of_chars. unfold ascii_only.
  rewrite !forallb_forall. intros H c Hc.
  apply H. apply in_rev, lstrip_incl, in_rev, lstrip_incl in Hc. exact Hc.
Qed.

Lemma digits_ascii (l : list ascii) :
  Forall (fun c => is_digit c = true) l ->
  forallb (fun c => (N_of_ascii c <? 128)%N) l = true.
Proof.
  induction 1 as [|c l Hc _ IH]; [done|]. cbn [forallb]. rewrite IH, andb_true_r.
  unfold is_digit in Hc. apply andb_true_iff in Hc. destruct Hc as [_ Hc].
  apply N.leb_le in Hc. apply N.ltb_lt. lia.
Qed.

(** The time stamp of [add_task] and [load_tasks]. *)
Lemma ascii_only_stamp (now : datetime) : ascii_only (strftime_YmdHM now) = true.
Proof.
  unfold strftime_YmdHM. rewrite ascii_only_of_chars, !forallb_app.
  repeat (rewrite (digits_ascii (zfill _ _)) by apply zfill_all_digit). reflexivity.
Qed.

Lemma get_lookup (k : string) (kv : list (string * json)) (dflt : json) :
  Json.get k kv dflt = default dflt (Json.lookup k kv).
Proof.
  induction kv as [|[k' v] kv IH]; [done|]. cbn. by destruct (String.eqb k' k).
Qed.

Lemma str_field_plain (k : string) (kv : list (string * json)) (dflt : string) :
  plain_field k kv = true -> ascii_only dflt = true ->
  exists s, str_field k kv dflt = Some s /\ ascii_only s = true.
Proof.
  unfold plain_field, str_field. rewrite get_lookup. intros H Hd.
  destruct (Json.lookup k kv) as [[| | | |s| |]|]; try done; by eexists.
Qed.

(** An object of a plain file is loaded, whatever it holds besides. *)
Lemma load_item_plain (nid : Z) (now : datetime) (kv : list (string * json)) :
  plain_entry (JObj kv) = true ->
  exists it, load_item nid now (JObj kv) = Some it /\ ascii_item it = true.
Proof.
  cbn [plain_entry]. intros H. rewrite !andb_true_iff in H.
  destruct H as ((((_ & H1) & H2) & H3) & H4).
  destruct (str_field_plain "category" kv "General" H1 eq_refl) as (c & Hc & Hc').
  destruct (str_field_plain "priority" kv "Medium" H2 eq_refl) as (pr & Hp & Hp').
  destruct (str_field_plain "text" kv "" H3 eq_refl) as (t & Ht & Ht').
  destruct (str_field_plain "created" kv (strftime_YmdHM now) H4 (ascii_only_stamp now))
    as (tm & Htm & Htm').
  unfold load_item. rewrite Hc, Hp, Ht, Htm. cbn [mbind option_bind].
  eexists. split; [reflexivity|]. unfold ascii_item.
  cbn [i_cat i_priority i_task i_time].
  by rewrite Hc', Hp', Ht', Htm'.
Qed.

(** On a plain file the loop stops at an entry that is not an object,
    and nowhere else. *)
Lemma load_loop_plain (now : datetime) (ts : list json) (its : list Item) (nid : Z) :
  forallb plain_entry ts = true ->
  Forall (fun it => ascii_item it = true) its ->
  Forall (fun it => ascii_item it = true) (fst (load_loop now ts its nid)) /\
  (List.length (fst (load_loop now ts its nid)) < List.length its + List.length ts ->
   exists t, t ∈ ts /\ forall kv, t <> JObj kv)%nat.
Proof.
  revert its nid. induction ts as [|t ts IH]; intros its nid Hts Hits.
  - cbn. split; [done|lia].
  - cbn [forallb] in Hts. apply andb_true_iff in Hts. destruct Hts as [Ht Hts].
    cbn [load_loop].
    destruct t as [| | | | | |kv];
      try (cbn; split; [done|]; intros _; eexists; split; [left|done]).
    destruct (load_item_plain nid now kv Ht) as (it & -> & Hit).
    destruct (IH (its ++ [it]) (nid + 1)%Z Hts) as [H1 H2].
    { apply Forall_app; split; [done|by constructor]. }
    split; [exact H1|]. intros Hlen.
    destruct H2 as (t & Hin & Hno).
    { rewrite length_app. cbn [List.length] in *. lia. }
    exists t. split; [by right|done].
Qed.

Lemma init_plain (f : file) (now : datetime) :
  plain_file f = true -> Forall (fun it => ascii_item it = true) (items (init f now)).
Proof.
  intros Hf. unfold init, load_tasks. cbn [data_file].
  destruct f as [| |j];
    try (rewrite (proj1 (rebuild_items _)); constructor).
  destruct j as [| | | | |l|];
    try (rewrite (proj1 (rebuild_items _)); constructor).
  destruct (load_loop now l [] 1) as [its nid] eqn:E.
  rewrite (proj1 (rebuild_items _)). cbn [items with_items].
  pose proof (proj1 (load_loop_plain now l [] 1 Hf (Forall_nil_2 _))) as H.
  by rewrite E in H.
Qed.

Lemma toggle_first_plain (iid : Z) (its : list Item) :
  Forall (fun it => ascii_item it = true) its ->
  Forall (fun it => ascii_item it = true) (toggle_first iid its).
Proof.
  induction 1 as [|it its Hit Hits IH]; [constructor|]. cbn [toggle_first].
  destruct (i_id it =? iid)%Z; constructor; [exact Hit|exact Hits|exact Hit|exact IH].
Qed.

Lemma act_plain (p : TaskPanel) (a : action) :
  plain_action a = true ->
  Forall (fun it => ascii_item it = true) (items p) ->
  Forall (fun it => ascii_item it = true) (items (act p a)).
Proof.
  intros Ha Hp. destruct a as [t c pr now|sel|confirmed|sel|q st cat|]; cbn [act].
  - unfold add_task.
    destruct (String.eqb (strip t) ""); [done|].
    destruct (String.eqb (strip c) "Category"); [done|].
    rewrite (proj1 (saved_items _ _ _)).
    apply Forall_app; split; [done|]. constructor; [|constructor].
    cbn [plain_action] in Ha. apply andb_true_iff in Ha. destruct Ha as [Ha _].
    apply andb_true_iff in Ha. destruct Ha as [Ha H3].
    apply andb_true_iff in Ha. destruct Ha as [H1 H2].
    unfold ascii_item. cbn [i_cat i_priority i_task i_time].
    rewrite (ascii_only_strip c H2), (ascii_only_strip t H1), ascii_only_stamp.
    destruct (String.eqb (strip pr) ""); [done|].
    by rewrite (ascii_only_strip pr H3).
  - unfold delete_selected. destruct sel; [done|].
    rewrite (proj1 (saved_items _ _ _)). by apply forall_list_filter.
  - unfold clear_all. destruct (items p) eqn:E; [by rewrite E|].
    destruct confirmed; [|by rewrite E].
    rewrite (proj1 (saved_items _ _ _)). constructor.
  - unfold mark_one. destruct sel as [|s [|]]; try done.
    destruct (int_of_str s); [|done].
    rewrite (proj1 (saved_items _ _ _)). by apply toggle_first_plain.
  - unfold filter_tasks. by rewrite (proj1 (rebuild_items _)).
  - done.
Qed.

(** In a plain session every string of every item is of ASCII
    characters: what [_passes_filters] strips and lowers is what the
    code strips and lowers. *)
Lemma plain_session_items (f : file) (now : datetime) (acts : list action) :
  plain_session f acts = true ->
  Forall (fun it => ascii_item it = true) (items (play f now acts)).
Proof.
  unfold plain_session. intros H. apply andb_true_iff in H. destruct H as [Hf Ha].
  unfold play. generalize (init_plain f now Hf). generalize (init f now).
  induction acts as [|a acts IH]; intros p Hp; [done|].
  cbn [forallb] in Ha. apply andb_true_iff in Ha. destruct Ha as [Ha Hacts].
  cbn [fold_left]. apply IH; [done|]. by apply act_plain.
Qed.

End PlainFacts.
